(** * Aab-e-Hayat CRM: the ledger engine of the dashboard

    A shallow embedding of [src/app/dashboard/page.tsx] (the [Storage] and
    [Calculator] objects and the record handlers of the [WaterCRM]
    component), with the properties of its ledger computations.  The
    earlier variants of the page and of [lib/utils.ts] kept in the
    repository compute the balance, the payment record and the cascade of
    a deletion by the same expressions.

    Conventions of the embedding.
    - JavaScript numbers that hold money and bottle counts are modelled by
      [Z]: rates and quantities come from [parseInt] and delivery amounts
      are their products, and on integers below 2^53 the arithmetic of
      doubles is exact.  Amounts received and expenses are read with
      [parseFloat]; the model takes them in whole rupees, and the rounding
      of fractional amounts is outside it.  Where a property of the
      handlers and reports is about sums that contain such amounts, it is
      stated in the form in which the source evaluates them: the same
      [reduce] over the same records, or the sum of the list before plus
      the record appended.  The one place where the source
      divides, the collection rate, is modelled with [jsnum], which adds
      the two infinities and NaN.
    - Strings are [string]; [===] is [String.eqb], the relational operators
      on strings are the lexicographic order on character codes.
    - [Array.prototype.filter], [find] and [reduce] are [List.filter],
      [List.find] and [fold_left].
    - The browser ([localStorage], the console) is an explicit state that
      the [Storage] operations thread; exceptions are a result value.
    - What a handler reads from its environment (the signed-in user, the
      clock, the answer to [confirm], whether the storage accepts a write)
      is the record [Env]. *)

From Stdlib Require Import ZArith QArith String Ascii List Lia Bool.
From Stdlib Require Import Sorted Permutation.
From stdpp Require Import gmap strings pretty.
Import ListNotations.

Local Open Scope string_scope.
Local Open Scope Z_scope.

(** ** JavaScript values and built-ins used by the source *)

Module Js.

(** [!!s] for a string: only the empty string is falsy. *)
Definition truthy (s : string) : bool := negb (s =? "")%string.

(** [a < b], [a <= b], [a >= b] on strings. *)
Definition str_lt (a b : string) : bool :=
  match String.compare a b with Lt => true | _ => false end.
Definition str_le (a b : string) : bool := negb (str_lt b a).
Definition str_ge (a b : string) : bool := negb (str_lt a b).

(** [String.prototype.toLowerCase] on the ASCII letters. *)
Definition lower_ascii (c : ascii) : ascii :=
  let n := N_of_ascii c in
  if ((65 <=? n) && (n <=? 90))%N then ascii_of_N (n + 32) else c.

Fixpoint toLowerCase (s : string) : string :=
  match s with
  | EmptyString => EmptyString
  | String c s' => String (lower_ascii c) (toLowerCase s')
  end.

(** Numbers that may be non-finite: the result of a division. *)
Inductive jsnum : Type :=
| Finite (q : Q)
| PosInfinity
| NegInfinity
| NaN.

(** [a / b] for two integers. *)
Definition div (a b : Z) : jsnum :=
  if b =? 0 then
    (if a =? 0 then NaN else if 0 <? a then PosInfinity else NegInfinity)
  else Finite (inject_Z a / inject_Z b).

(** [x * k] for an integer [k]. *)
Definition mul (x : jsnum) (k : Z) : jsnum :=
  match x with
  | Finite q => Finite (q * inject_Z k)
  | PosInfinity =>
      if k =? 0 then NaN else if 0 <? k then PosInfinity else NegInfinity
  | NegInfinity =>
      if k =? 0 then NaN else if 0 <? k then NegInfinity else PosInfinity
  | NaN => NaN
  end.

(** Truthiness of a number: 0 and NaN are falsy. *)
Definition num_truthy (x : jsnum) : bool :=
  match x with
  | Finite q => negb (Qeq_bool q 0)
  | PosInfinity | NegInfinity => true
  | NaN => false
  end.

(** [x || d]. *)
Definition or (x d : jsnum) : jsnum := if num_truthy x then x else d.

Definition isFinite (x : jsnum) : bool :=
  match x with Finite _ => true | _ => false end.

(** [Array.prototype.sort(cmp)]: a stable sort; [cmp a b <= 0] keeps [a]
    before [b].  A comparator result of NaN counts as 0, which is how the
    callers below pass it.  For a comparator that is a consistent order
    the language fixes the result, which this insertion sort computes; for
    another one the result is left to the engine, and the model is one
    such engine. *)
Section Sort.
Context {A : Type} (cmp : A -> A -> Z).

Fixpoint insert (x : A) (l : list A) : list A :=
  match l with
  | [] => [x]
  | y :: l' => if cmp x y <=? 0 then x :: y :: l' else y :: insert x l'
  end.

Definition sort (l : list A) : list A := fold_right insert [] l.
End Sort.

(** Exceptions as values. *)
Inductive error : Type :=
| QuotaExceededError
| SyntaxError
| TypeError.

Inductive outcome (A : Type) : Type :=
| Returned (a : A)
| Thrown (e : error).
Arguments Returned {A} a.
Arguments Thrown {A} e.

End Js.

(** ** Types (the interfaces of the source) *)

Module Customer.
Record t : Type := mk {
  id : string;
  flatNumber : string;
  name : string;
  phone : string;
  rate : Z;
  createdAt : string
}.
End Customer.

Module Delivery.
Record t : Type := mk {
  id : string;
  date : string;
  flatNumber : string;
  customerName : string;
  delivered : Z;
  collected : Z;
  notes : string;
  amount : Z;
  createdAt : string
}.
End Delivery.

Inductive PaymentMethod : Type := cash | bank | online.
Inductive PaymentStatus : Type := full | partial | pending.

Module Payment.
Record t : Type := mk {
  id : string;
  date : string;
  flatNumber : string;
  customerName : string;
  totalBill : Z;
  amountReceived : Z;
  remainingBalance : Z;
  paymentMethod : PaymentMethod;
  status : PaymentStatus;
  notes : string;
  createdAt : string
}.
End Payment.

Module Expense.
Record t : Type := mk {
  id : string;
  date : string;
  category : string;
  description : string;
  amount : Z;
  paymentMethod : PaymentMethod;
  notes : string;
  createdAt : string
}.
End Expense.

Record AppData : Type := mkAppData {
  customers : list Customer.t;
  deliveries : list Delivery.t;
  payments : list Payment.t;
  expenses : list Expense.t;
  lastSaved : string
}.

(** [Partial<AppData>]: a field is [None] when the object does not have it. *)
Module Partial.
Record t : Type := mk {
  customers : option (list Customer.t);
  deliveries : option (list Delivery.t);
  payments : option (list Payment.t);
  expenses : option (list Expense.t);
  lastSaved : option string
}.

Definition none : t := mk None None None None None.
End Partial.

(** The initial value of the [data] state and the fallback of [getData]. *)
Definition emptyData : AppData := mkAppData [] [] [] [] "".

(** ** The browser *)

(** What a [localStorage] entry holds: the JSON text of an [AppData], or a
    text that [JSON.parse] rejects. *)
Inductive Blob : Type :=
| Serialized (d : AppData)
| Garbage (s : string).

Inductive ConsoleEntry : Type :=
| NoExistingData (e : Js.error)
| SaveFailed (e : Js.error).

Record Browser : Type := mkBrowser {
  localStorage : gmap string Blob;
  console : list ConsoleEntry
}.

(** Computations that read and write the browser and may throw. *)
Definition M (A : Type) : Type := Browser -> Js.outcome A * Browser.

Definition ret {A} (a : A) : M A := fun b => (Js.Returned a, b).

Definition bind {A B} (m : M A) (k : A -> M B) : M B :=
  fun b =>
    match m b with
    | (Js.Returned a, b') => k a b'
    | (Js.Thrown e, b') => (Js.Thrown e, b')
    end.

Definition throw {A} (e : Js.error) : M A := fun b => (Js.Thrown e, b).

(** [try { body } catch (error) { handler }]. *)
Definition try_catch {A} (body : M A) (handler : Js.error -> M A) : M A :=
  fun b =>
    match body b with
    | (Js.Returned a, b') => (Js.Returned a, b')
    | (Js.Thrown e, b') => handler e b'
    end.

Notation "x <- m ;; k" := (bind m (fun x => k))
  (at level 100, m at next level, right associativity).
Notation "m ;;; k" := (bind m (fun _ => k))
  (at level 100, right associativity).

(** [localStorage.getItem(key)]. *)
Definition getItem (key : string) : M (option Blob) :=
  fun b => (Js.Returned (localStorage b !! key), b).

(** [localStorage.setItem(key, JSON.stringify(d))]: the entry is written,
    or the call throws and the storage is as before (the quota is
    exceeded, the value cannot be serialised); [fault] is what the
    environment makes it throw, if anything. *)
Definition setItem (fault : option Js.error) (key : string) (v : Blob) : M unit :=
  fun b =>
    match fault with
    | None => (Js.Returned tt, mkBrowser (<[key := v]> (localStorage b)) (console b))
    | Some e => (Js.Thrown e, b)
    end.

Definition JSON_stringify (d : AppData) : Blob := Serialized d.

(** [if (stored)]: an entry is falsy when it is the empty string. *)
Definition blobTruthy (v : Blob) : bool :=
  match v with
  | Serialized _ => true
  | Garbage s => Js.truthy s
  end.

Definition JSON_parse (v : Blob) : M AppData :=
  match v with
  | Serialized d => ret d
  | Garbage _ => throw Js.SyntaxError
  end.

Definition console_log (e : ConsoleEntry) : M unit :=
  fun b => (Js.Returned tt, mkBrowser (localStorage b) (console b ++ [e])%list).

(** What a handler reads from outside the component. *)
Record Env : Type := mkEnv {
  userId : option string;   (* user?.id *)
  nowMs : Z;                (* Date.now() *)
  nowIso : string;          (* new Date().toISOString() *)
  confirmed : bool;         (* the answer to confirm(...) *)
  storageFault : option Js.error  (* what a write to the storage throws, if it does *)
}.

(** ** Storage *)

Module Storage.

Definition key (userId : string) : string := "crm_" +:+ userId.

Definition getData (userId : string) : M AppData :=
  r <- try_catch
         (stored <- getItem (key userId) ;;
          match stored with
          | Some v => if blobTruthy v then d <- JSON_parse v ;; ret (Some d)
                      else ret None
          | None => ret None
          end)
         (fun error => console_log (NoExistingData error) ;;; ret None) ;;
  match r with
  | Some d => ret d
  | None => ret emptyData
  end.

(** [{ ...currentData, ...updates, lastSaved: now }]. *)
Definition merge (currentData : AppData) (updates : Partial.t) (now : string)
  : AppData :=
  {| customers := default (customers currentData) (Partial.customers updates);
     deliveries := default (deliveries currentData) (Partial.deliveries updates);
     payments := default (payments currentData) (Partial.payments updates);
     expenses := default (expenses currentData) (Partial.expenses updates);
     lastSaved := now |}.

Definition saveData (env : Env) (userId : string) (updates : Partial.t)
    (currentData : AppData) : M AppData :=
  let updated := merge currentData updates (nowIso env) in
  try_catch
    (setItem (storageFault env) (key userId) (JSON_stringify updated) ;;;
     ret updated)
    (fun error => console_log (SaveFailed error) ;;; ret currentData).

End Storage.

(** ** Calculator *)

(** The object that [getDateRangeStats] returns. *)
Module RangeStats.
Record t : Type := mk {
  deliveries : Z;
  bottlesDelivered : Z;
  revenue : Z;
  collected : Z;
  expenses : Z;
  profit : Z;
  empties : Z
}.
End RangeStats.

(** An entry of the list that [getOverdueDues] returns.  [daysPending] is
    [None] when it is NaN (the last delivery's date is not a date);
    [isOverdue] is [None] when it is [null] (no delivery). *)
Module Due.
Record t : Type := mk {
  customer : Customer.t;
  outstanding : Z;
  lastDeliveryDate : string;
  lastPaymentDate : string;
  daysPending : option Z;
  isOverdue : option bool
}.
End Due.

Module Calculator.

Definition getCustomerOutstanding (flatNumber : string)
    (deliveries : list Delivery.t) (payments : list Payment.t) : Z :=
  let totalBilled :=
    fold_left (fun sum d => sum + Delivery.amount d)
      (List.filter (fun d => Delivery.flatNumber d =? flatNumber)%string deliveries) 0 in
  let totalPaid :=
    fold_left (fun sum p => sum + Payment.amountReceived p)
      (List.filter (fun p => Payment.flatNumber p =? flatNumber)%string payments) 0 in
  totalBilled - totalPaid.

Definition inRange (startDate endDate date : string) : bool :=
  Js.str_ge date startDate && Js.str_le date endDate.

Definition getDateRangeStats (deliveries : list Delivery.t)
    (payments : list Payment.t) (expenses : list Expense.t)
    (startDate endDate : string) : RangeStats.t :=
  let filtered :=
    List.filter (fun d => inRange startDate endDate (Delivery.date d)) deliveries in
  let filteredPayments :=
    List.filter (fun p => inRange startDate endDate (Payment.date p)) payments in
  let filteredExpenses :=
    List.filter (fun e => inRange startDate endDate (Expense.date e)) expenses in
  {| RangeStats.deliveries := Z.of_nat (length filtered);
     RangeStats.bottlesDelivered :=
       fold_left (fun sum d => sum + Delivery.delivered d) filtered 0;
     RangeStats.revenue := fold_left (fun sum d => sum + Delivery.amount d) filtered 0;
     RangeStats.collected :=
       fold_left (fun sum p => sum + Payment.amountReceived p) filteredPayments 0;
     RangeStats.expenses :=
       fold_left (fun sum e => sum + Expense.amount e) filteredExpenses 0;
     RangeStats.profit :=
       fold_left (fun sum p => sum + Payment.amountReceived p) filteredPayments 0
       - fold_left (fun sum e => sum + Expense.amount e) filteredExpenses 0;
     RangeStats.empties :=
       fold_left (fun sum d => sum + Delivery.collected d) filtered 0 |}.

Definition msPerDay : Z := 1000 * 60 * 60 * 24.

Section Dates.
(** [new Date(s).getTime()]: [None] is NaN, the time of an invalid
    date.  The built-in is taken as it is. *)
Variable Date_parse : string -> option Z.

(** [new Date(b).getTime() - new Date(a).getTime()], NaN read as 0. *)
Definition byDateDesc (a b : string) : Z :=
  match Date_parse b, Date_parse a with
  | Some tb, Some ta => tb - ta
  | _, _ => 0
  end.

Definition dueOf (today : Z) (deliveries : list Delivery.t)
    (payments : list Payment.t) (c : Customer.t) : option Due.t :=
  let thirtyDaysAgo := today - 30 * 24 * 60 * 60 * 1000 in
  let outstanding :=
    getCustomerOutstanding (Customer.flatNumber c) deliveries payments in
  if outstanding <=? 0 then None
  else
    let lastDelivery :=
      head (Js.sort (fun a b => byDateDesc (Delivery.date a) (Delivery.date b))
              (List.filter (fun d => Delivery.flatNumber d =? Customer.flatNumber c)%string
                 deliveries)) in
    let lastPayment :=
      head (Js.sort (fun a b => byDateDesc (Payment.date a) (Payment.date b))
              (List.filter (fun p => Payment.flatNumber p =? Customer.flatNumber c)%string
                 payments)) in
    let dueDate := option_map (fun d => Date_parse (Delivery.date d)) lastDelivery in
    let isOverdue :=
      match dueDate with
      | None => None
      | Some (Some t) => Some (t <? thirtyDaysAgo)
      | Some None => Some false
      end in
    let daysPending :=
      match dueDate with
      | None => Some 0
      | Some (Some t) => Some ((today - t) / msPerDay)
      | Some None => None
      end in
    Some {| Due.customer := c;
            Due.outstanding := outstanding;
            Due.lastDeliveryDate :=
              match lastDelivery with Some d => Delivery.date d | None => "" end;
            Due.lastPaymentDate :=
              match lastPayment with Some p => Payment.date p | None => "" end;
            Due.daysPending := daysPending;
            Due.isOverdue := isOverdue |}.

(** [customers.map(c => ...).filter(Boolean)]. *)
Definition getOverdueDues (today : Z) (customers : list Customer.t)
    (deliveries : list Delivery.t) (payments : list Payment.t) : list Due.t :=
  omap (dueOf today deliveries payments) customers.
End Dates.

End Calculator.

(** ** The component: its state and its handlers *)

Module CustomerForm.
Record t : Type := mk {
  flatNumber : string;
  name : string;
  phone : string;
  rate : Z
}.
End CustomerForm.

Module DeliveryForm.
Record t : Type := mk {
  date : string;
  flatNumber : string;
  delivered : Z;
  collected : Z;
  notes : string
}.
End DeliveryForm.

Module PaymentForm.
Record t : Type := mk {
  date : string;
  flatNumber : string;
  amountReceived : Z;       (* parseFloat(...) || 0, in whole rupees *)
  method : PaymentMethod;
  notes : string
}.
End PaymentForm.

Module ExpenseForm.
Record t : Type := mk {
  date : string;
  category : string;
  description : string;
  amount : Z;               (* parseFloat(...) || 0, in whole rupees *)
  method : PaymentMethod;
  notes : string
}.
End ExpenseForm.

(** The messages the handlers pass to [alert]. *)
Inductive Alert : Type :=
| PleaseFillRequiredFields
| FlatNumberExists
| CustomerAdded
| DeliveryRecorded
| PaymentRecorded
| ExpenseRecorded.

(** The [data] state of the component, the browser it runs in and the
    alerts it has shown so far.  The form and modal states only feed the
    view and are arguments of the handlers. *)
Record State : Type := mkState {
  data : AppData;
  browser : Browser;
  alerts : list Alert
}.

Definition alert (a : Alert) (st : State) : State :=
  mkState (data st) (browser st) (alerts st ++ [a])%list.

Definition saveAndReload (env : Env) (updates : Partial.t) (st : State) : State :=
  match userId env with
  | Some uid =>
      if Js.truthy uid then
        match Storage.saveData env uid updates (data st) (browser st) with
        | (Js.Returned updated, b') => mkState updated b' (alerts st)
        | (Js.Thrown _, b') => mkState (data st) b' (alerts st)
        end
      else st
  | None => st
  end.

Definition addCustomer (env : Env) (customerForm : CustomerForm.t) (st : State)
  : State :=
  if negb (Js.truthy (CustomerForm.flatNumber customerForm))
     || negb (Js.truthy (CustomerForm.name customerForm))
  then alert PleaseFillRequiredFields st
  else
    match List.find
            (fun c => (Js.toLowerCase (Customer.flatNumber c)
                       =? Js.toLowerCase (CustomerForm.flatNumber customerForm))%string)
            (customers (data st)) with
    | Some _ => alert FlatNumberExists st
    | None =>
        let newCustomer :=
          {| Customer.id := "cust_" +:+ pretty (nowMs env);
             Customer.flatNumber := CustomerForm.flatNumber customerForm;
             Customer.name := CustomerForm.name customerForm;
             Customer.phone := CustomerForm.phone customerForm;
             Customer.rate := CustomerForm.rate customerForm;
             Customer.createdAt := nowIso env |} in
        alert CustomerAdded
          (saveAndReload env
             {| Partial.customers := Some (customers (data st) ++ [newCustomer])%list;
                Partial.deliveries := None;
                Partial.payments := None;
                Partial.expenses := None;
                Partial.lastSaved := None |} st)
    end.

Definition deleteCustomer (env : Env) (id : string) (st : State) : State :=
  if negb (confirmed env) then st
  else
    match List.find (fun c => (Customer.id c =? id)%string) (customers (data st)) with
    | Some customer =>
        saveAndReload env
          {| Partial.customers :=
               Some (List.filter (fun c => negb (Customer.id c =? id)%string)
                       (customers (data st)));
             Partial.deliveries :=
               Some (List.filter
                       (fun d => negb (Delivery.flatNumber d =? Customer.flatNumber customer)%string)
                       (deliveries (data st)));
             Partial.payments :=
               Some (List.filter
                       (fun p => negb (Payment.flatNumber p =? Customer.flatNumber customer)%string)
                       (payments (data st)));
             Partial.expenses := None;
             Partial.lastSaved := None |} st
    | None => st
    end.

Definition addDelivery (env : Env) (deliveryForm : DeliveryForm.t) (st : State)
  : State :=
  if negb (Js.truthy (DeliveryForm.date deliveryForm))
     || negb (Js.truthy (DeliveryForm.flatNumber deliveryForm))
     || (DeliveryForm.delivered deliveryForm =? 0)
  then alert PleaseFillRequiredFields st
  else
    match List.find
            (fun c => (Customer.flatNumber c =? DeliveryForm.flatNumber deliveryForm)%string)
            (customers (data st)) with
    | None => st
    | Some customer =>
        let newDelivery :=
          {| Delivery.id := "del_" +:+ pretty (nowMs env);
             Delivery.date := DeliveryForm.date deliveryForm;
             Delivery.flatNumber := DeliveryForm.flatNumber deliveryForm;
             Delivery.customerName := Customer.name customer;
             Delivery.delivered := DeliveryForm.delivered deliveryForm;
             Delivery.collected := DeliveryForm.collected deliveryForm;
             Delivery.notes := DeliveryForm.notes deliveryForm;
             Delivery.amount := DeliveryForm.delivered deliveryForm * Customer.rate customer;
             Delivery.createdAt := nowIso env |} in
        alert DeliveryRecorded
          (saveAndReload env
             {| Partial.customers := None;
                Partial.deliveries := Some (deliveries (data st) ++ [newDelivery])%list;
                Partial.payments := None;
                Partial.expenses := None;
                Partial.lastSaved := None |} st)
    end.

Definition deleteDelivery (env : Env) (id : string) (st : State) : State :=
  if confirmed env then
    saveAndReload env
      {| Partial.customers := None;
         Partial.deliveries :=
           Some (List.filter (fun d => negb (Delivery.id d =? id)%string)
                   (deliveries (data st)));
         Partial.payments := None;
         Partial.expenses := None;
         Partial.lastSaved := None |} st
  else st.

(** The status that [addPayment] gives the payment it creates. *)
Definition paymentStatus (amountReceived outstanding : Z) : PaymentStatus :=
  if (amountReceived >=? outstanding) && (outstanding >? 0) then full
  else if (amountReceived >? 0) && (amountReceived <? outstanding) then partial
  else pending.

(** The record that [addPayment] builds for [customer]. *)
Definition newPayment (env : Env) (paymentForm : PaymentForm.t)
    (customer : Customer.t) (d : AppData) : Payment.t :=
  let outstanding :=
    Calculator.getCustomerOutstanding (PaymentForm.flatNumber paymentForm)
      (deliveries d) (payments d) in
  let remaining := outstanding - PaymentForm.amountReceived paymentForm in
  let status := paymentStatus (PaymentForm.amountReceived paymentForm) outstanding in
  {| Payment.id := "pay_" +:+ pretty (nowMs env);
     Payment.date := PaymentForm.date paymentForm;
     Payment.flatNumber := PaymentForm.flatNumber paymentForm;
     Payment.customerName := Customer.name customer;
     Payment.totalBill := outstanding;
     Payment.amountReceived := PaymentForm.amountReceived paymentForm;
     Payment.remainingBalance := if remaining >? 0 then remaining else 0;
     Payment.paymentMethod := PaymentForm.method paymentForm;
     Payment.status := status;
     Payment.notes := PaymentForm.notes paymentForm;
     Payment.createdAt := nowIso env |}.

Definition addPayment (env : Env) (paymentForm : PaymentForm.t) (st : State)
  : State :=
  if negb (Js.truthy (PaymentForm.date paymentForm))
     || negb (Js.truthy (PaymentForm.flatNumber paymentForm))
     || (PaymentForm.amountReceived paymentForm =? 0)
  then alert PleaseFillRequiredFields st
  else
    match List.find
            (fun c => (Customer.flatNumber c =? PaymentForm.flatNumber paymentForm)%string)
            (customers (data st)) with
    | None => st
    | Some customer =>
        alert PaymentRecorded
          (saveAndReload env
             {| Partial.customers := None;
                Partial.deliveries := None;
                Partial.payments :=
                  Some (payments (data st) ++ [newPayment env paymentForm customer (data st)])%list;
                Partial.expenses := None;
                Partial.lastSaved := None |} st)
    end.

Definition deletePayment (env : Env) (id : string) (st : State) : State :=
  if confirmed env then
    saveAndReload env
      {| Partial.customers := None;
         Partial.deliveries := None;
         Partial.payments :=
           Some (List.filter (fun p => negb (Payment.id p =? id)%string)
                   (payments (data st)));
         Partial.expenses := None;
         Partial.lastSaved := None |} st
  else st.

Definition addExpense (env : Env) (expenseForm : ExpenseForm.t) (st : State)
  : State :=
  if negb (Js.truthy (ExpenseForm.date expenseForm))
     || negb (Js.truthy (ExpenseForm.description expenseForm))
     || (ExpenseForm.amount expenseForm =? 0)
  then alert PleaseFillRequiredFields st
  else
    let newExpense :=
      {| Expense.id := "exp_" +:+ pretty (nowMs env);
         Expense.date := ExpenseForm.date expenseForm;
         Expense.category := ExpenseForm.category expenseForm;
         Expense.description := ExpenseForm.description expenseForm;
         Expense.amount := ExpenseForm.amount expenseForm;
         Expense.paymentMethod := ExpenseForm.method expenseForm;
         Expense.notes := ExpenseForm.notes expenseForm;
         Expense.createdAt := nowIso env |} in
    alert ExpenseRecorded
      (saveAndReload env
         {| Partial.customers := None;
            Partial.deliveries := None;
            Partial.payments := None;
            Partial.expenses := Some (expenses (data st) ++ [newExpense])%list;
            Partial.lastSaved := None |} st).

Definition deleteExpense (env : Env) (id : string) (st : State) : State :=
  if confirmed env then
    saveAndReload env
      {| Partial.customers := None;
         Partial.deliveries := None;
         Partial.payments := None;
         Partial.expenses :=
           Some (List.filter (fun e => negb (Expense.id e =? id)%string)
                   (expenses (data st)));
         Partial.lastSaved := None |} st
  else st.

(** The user actions of the component, and the handler each one runs. *)
Inductive Action : Type :=
| AddCustomer (f : CustomerForm.t)
| DeleteCustomer (id : string)
| AddDelivery (f : DeliveryForm.t)
| DeleteDelivery (id : string)
| AddPayment (f : PaymentForm.t)
| DeletePayment (id : string)
| AddExpense (f : ExpenseForm.t)
| DeleteExpense (id : string).

Definition step (env : Env) (a : Action) (st : State) : State :=
  match a with
  | AddCustomer f => addCustomer env f st
  | DeleteCustomer id => deleteCustomer env id st
  | AddDelivery f => addDelivery env f st
  | DeleteDelivery id => deleteDelivery env id st
  | AddPayment f => addPayment env f st
  | DeletePayment id => deletePayment env id st
  | AddExpense f => addExpense env f st
  | DeleteExpense id => deleteExpense env id st
  end.

(** A session: each action with the environment it ran in. *)
Fixpoint run (acts : list (Env * Action)) (st : State) : State :=
  match acts with
  | [] => st
  | (env, a) :: rest => run rest (step env a st)
  end.

Definition initialState : State := mkState emptyData (mkBrowser ∅ []) [].

(** ** Statistics of the reports tab *)

Module Stats.
Record t : Type := mk {
  today : RangeStats.t;
  week : RangeStats.t;
  month : RangeStats.t;
  totalCustomers : Z;
  totalRevenue : Z;
  totalCollected : Z;
  totalExpenses : Z;
  outstanding : Z;
  netProfit : Z;
  pendingEmpties : Z
}.
End Stats.

(** [getStats]; the three ranges are what [DateUtils] returns for the
    current day. *)
Definition getStats (today : string) (week month : string * string) (d : AppData)
  : Stats.t :=
  let todayStats :=
    Calculator.getDateRangeStats (deliveries d) (payments d) (expenses d) today today in
  let weekStats :=
    Calculator.getDateRangeStats (deliveries d) (payments d) (expenses d)
      (fst week) (snd week) in
  let monthStats :=
    Calculator.getDateRangeStats (deliveries d) (payments d) (expenses d)
      (fst month) (snd month) in
  let totalRevenue := fold_left (fun sum x => sum + Delivery.amount x) (deliveries d) 0 in
  let totalCollected :=
    fold_left (fun sum p => sum + Payment.amountReceived p) (payments d) 0 in
  let totalExpenses := fold_left (fun sum e => sum + Expense.amount e) (expenses d) 0 in
  let outstanding := totalRevenue - totalCollected in
  let netProfit := totalCollected - totalExpenses in
  let pendingEmpties :=
    fold_left (fun sum x => sum + Delivery.delivered x - Delivery.collected x)
      (deliveries d) 0 in
  {| Stats.today := todayStats;
     Stats.week := weekStats;
     Stats.month := monthStats;
     Stats.totalCustomers := Z.of_nat (length (customers d));
     Stats.totalRevenue := totalRevenue;
     Stats.totalCollected := totalCollected;
     Stats.totalExpenses := totalExpenses;
     Stats.outstanding := outstanding;
     Stats.netProfit := netProfit;
     Stats.pendingEmpties := pendingEmpties |}.

(** The number in the "Collection Rate" row, before [toFixed(1)]:
    [(stats.totalCollected / stats.totalRevenue) * 100 || 0]. *)
Definition collectionRate (stats : Stats.t) : Js.jsnum :=
  Js.or (Js.mul (Js.div (Stats.totalCollected stats) (Stats.totalRevenue stats)) 100)
        (Js.Finite 0).

(** ** The ledger figures as the specification words them *)

(** The sum of [w x] over the records [x] of [l] that satisfy [P]. *)
Fixpoint sumWhere {A : Type} (P : A -> Prop) `{!forall x, Decision (P x)}
    (w : A -> Z) (l : list A) : Z :=
  match l with
  | [] => 0
  | x :: l' => (if decide (P x) then w x else 0) + sumWhere P w l'
  end.


(** "Deleting a Customer removes exactly the Deliveries and Payments whose
    flat number matches, and no others": what deleteCustomer(i) does to a
    state that holds a customer of id [i] and flat number [f], as the
    specification words it. *)
Definition deletesExactly (i f : string) (before after : AppData) : Prop :=
  (forall x, In x (customers after)
             <-> In x (customers before)
                 /\ ~ (Customer.id x = i /\ Customer.flatNumber x = f))
  /\ (forall d, In d (deliveries after)
                <-> In d (deliveries before) /\ Delivery.flatNumber d <> f)
  /\ (forall p, In p (payments after)
                <-> In p (payments before) /\ Payment.flatNumber p <> f)
  /\ expenses after = expenses before.

(** The inclusive order on date strings: equal, or before in the
    lexicographic order. *)
Definition str_before_eq (a b : string) : Prop :=
  a = b \/ String.compare a b = Lt.

Definition within (startDate endDate date : string) : Prop :=
  str_before_eq startDate date /\ str_before_eq date endDate.

#[global] Instance str_before_eq_dec (a b : string) : Decision (str_before_eq a b).
Proof. unfold str_before_eq. apply _. Defined.

#[global] Instance within_dec (s e d : string) : Decision (within s e d).
Proof. unfold within. apply _. Defined.

(** "status: full if amountReceived >= outstanding and outstanding > 0;
    partial if 0 < amountReceived < outstanding; otherwise pending". *)
Inductive spec_status (A B : Z) : PaymentStatus -> Prop :=
| spec_full : A >= B -> B > 0 -> spec_status A B full
| spec_partial : 0 < A -> A < B -> spec_status A B partial
| spec_pending : ~ (A >= B /\ B > 0) -> ~ (0 < A /\ A < B) -> spec_status A B pending.

(** The environment lets a save go through: a user is signed in and the
    storage accepts the write. *)
Definition savePossible (env : Env) : Prop :=
  exists uid, userId env = Some uid /\ Js.truthy uid = true /\ storageFault env = None.

(** The balance [addPayment] computes for the customer of [form] in [st],
    before the payment is recorded. *)
Definition balanceBefore (form : PaymentForm.t) (st : State) : Z :=
  Calculator.getCustomerOutstanding (PaymentForm.flatNumber form)
    (deliveries (data st)) (payments (data st)).

(** A payment of the state was created by [addPayment] run on [st] from
    [form] when it is the record appended to the payments. *)
Definition createdByAddPayment (env : Env) (form : PaymentForm.t) (st : State)
    (p : Payment.t) : Prop :=
  payments (data (addPayment env form st)) = (payments (data st) ++ [p])%list.

(** ** An instance of the date built-in: ISO calendar dates

    [new Date("YYYY-MM-DD")] is midnight UTC of that day; what this parser
    does not recognise is an invalid date.  It instantiates [Date_parse] in
    the worked examples. *)

Definition digit (c : ascii) : option Z :=
  let n := Z.of_N (N_of_ascii c) in
  if (48 <=? n) && (n <=? 57) then Some (n - 48) else None.

Definition isLeap (y : Z) : bool :=
  ((y mod 4 =? 0) && negb (y mod 100 =? 0)) || (y mod 400 =? 0).

Definition daysInMonth (y m : Z) : Z :=
  if m =? 2 then (if isLeap y then 29 else 28)
  else if (m =? 4) || (m =? 6) || (m =? 9) || (m =? 11) then 30
  else 31.

(** Days from 1970-01-01 to the given civil date. *)
Definition daysFromCivil (y m d : Z) : Z :=
  let y' := if m <=? 2 then y - 1 else y in
  let era := y' / 400 in
  let yoe := y' - era * 400 in
  let mp := (m + 9) mod 12 in
  let doy := (153 * mp + 2) / 5 + d - 1 in
  let doe := yoe * 365 + yoe / 4 - yoe / 100 + doy in
  era * 146097 + doe - 719468.

Definition isoDate (s : string) : option Z :=
  match s with
  | String y1 (String y2 (String y3 (String y4 (String "-"
      (String m1 (String m2 (String "-" (String d1 (String d2 EmptyString))))))))) =>
      match digit y1, digit y2, digit y3, digit y4,
            digit m1, digit m2, digit d1, digit d2 with
      | Some a, Some b, Some c, Some d, Some e, Some f, Some g, Some h =>
          let y := 1000 * a + 100 * b + 10 * c + d in
          let m := 10 * e + f in
          let dd := 10 * g + h in
          if (1 <=? m) && (m <=? 12) && (1 <=? dd) && (dd <=? daysInMonth y m)
          then Some (daysFromCivil y m dd * Calculator.msPerDay)
          else None
      | _, _, _, _, _, _, _, _ => None
      end
  | _ => None
  end.

(** ** Worked data *)

Definition env0 : Env :=
  {| userId := Some "user_1";
     nowMs := 1704067200000;
     nowIso := "2024-01-01T00:00:00.000Z";
     confirmed := true;
     storageFault := None |}.

Definition envFull : Env :=
  {| userId := Some "user_1";
     nowMs := 1704067200000;
     nowIso := "2024-01-01T00:00:00.000Z";
     confirmed := true;
     storageFault := Some Js.QuotaExceededError |}.

Definition custA : Customer.t :=
  Customer.mk "cust_1" "A" "Asif" "0300" 30 "2024-01-01T00:00:00.000Z".

Definition delA : Delivery.t :=
  Delivery.mk "del_1" "2024-01-02" "A" "Asif" 10 0 "" 300 "2024-01-02T00:00:00.000Z".

Definition payA : Payment.t :=
  Payment.mk "pay_1" "2024-01-03" "A" "Asif" 300 100 200 cash partial ""
    "2024-01-03T00:00:00.000Z".

Definition expRent : Expense.t :=
  Expense.mk "exp_1" "2024-01-04" "rent" "shop" 50 cash "" "2024-01-04T00:00:00.000Z".

(** Customer A of the example scenario: one delivery of 300, one payment
    of 100. *)
Definition stA : State :=
  mkState (mkAppData [custA] [delA] [payA] [expRent] "") (mkBrowser ∅ []) [].

Definition formPay (flat : string) (amount : Z) : PaymentForm.t :=
  PaymentForm.mk "2024-01-05" flat amount cash "".

Definition formDel (flat : string) (n : Z) : DeliveryForm.t :=
  DeliveryForm.mk "2024-01-05" flat n 0 "".

Definition custB : Customer.t :=
  Customer.mk "cust_2" "B" "Bilal" "0301" 30 "2024-01-01T00:00:00.000Z".

(** A second customer record that carries the id of [custA]: two
    customers added within the same millisecond. *)
Definition custDup : Customer.t :=
  Customer.mk "cust_1" "B" "Bilal" "0301" 30 "2024-01-01T00:00:00.000Z".

Definition delB : Delivery.t :=
  Delivery.mk "del_2" "2024-01-02" "B" "Bilal" 5 0 "" 150 "2024-01-02T00:00:00.000Z".

Definition payB : Payment.t :=
  Payment.mk "pay_2" "2024-01-03" "B" "Bilal" 150 150 0 cash full ""
    "2024-01-03T00:00:00.000Z".

Definition stAB : State :=
  mkState (mkAppData [custA; custB] [delA; delB] [payA; payB] [expRent] "")
    (mkBrowser ∅ []) [].

Definition stDup : State :=
  mkState (mkAppData [custA; custDup] [delA; delB] [payA; payB] [expRent] "")
    (mkBrowser ∅ []) [].

(** A new business: one customer, no delivery yet, an advance of 100. *)
Definition stAdvance : State :=
  run [(env0, AddCustomer (CustomerForm.mk "A" "Asif" "0300" 30));
       (env0, AddPayment (formPay "A" 100))]
    initialState.

(** The example scenario of the specification, run through the handlers:
    customer A at rate 30, a delivery of 10 bottles, a payment of 100. *)
Definition stScenario : State :=
  run [(env0, AddCustomer (CustomerForm.mk "A" "Asif" "0300" 30));
       (env0, AddDelivery (formDel "A" 10));
       (env0, AddPayment (formPay "A" 100))]
    initialState.

(** ** The figures the view computes in place *)

(** [s.includes(t)]. *)
Fixpoint includes (s t : string) : bool :=
  String.prefix t s
  || match s with
     | EmptyString => false
     | String _ s' => includes s' t
     end.

(** "Top Customers by Revenue": [customers.map(c => ({...c, revenue}))
    .sort((a, b) => b.revenue - a.revenue).slice(0, 10)]. *)
Module Ranked.
Record t : Type := mk {
  customer : Customer.t;
  revenue : Z
}.
End Ranked.

Definition withRevenue (d : AppData) (c : Customer.t) : Ranked.t :=
  {| Ranked.customer := c;
     Ranked.revenue :=
       fold_left (fun sum x => sum + Delivery.amount x)
         (List.filter (fun x => (Delivery.flatNumber x =? Customer.flatNumber c)%string)
            (deliveries d)) 0 |}.

Definition topCustomers (d : AppData) : list Ranked.t :=
  firstn 10
    (Js.sort (fun a b => Ranked.revenue b - Ranked.revenue a)
       (map (withRevenue d) (customers d))).

(** The list of the dues tab:
    [overdueDues.filter(d => d && d.outstanding > 0)
       .sort((a, b) => (b?.outstanding || 0) - (a?.outstanding || 0))]. *)
Definition duesShown (overdueDues : list Due.t) : list Due.t :=
  Js.sort (fun a b => Due.outstanding b - Due.outstanding a)
    (List.filter (fun d => Due.outstanding d >? 0) overdueDues).

(** The breakdown of the month's expenses: one row per listed category,
    none for a total of 0. *)
Definition expenseCategories : list string :=
  ["supplies"; "fuel"; "maintenance"; "salaries"; "rent"; "utilities"].

Definition categoryTotal (month : string * string) (es : list Expense.t)
    (cat : string) : Z :=
  fold_left (fun sum e => sum + Expense.amount e)
    (List.filter
       (fun e => (Expense.category e =? cat)%string
                 && Js.str_ge (Expense.date e) (fst month)
                 && Js.str_le (Expense.date e) (snd month)) es) 0.

Definition categoryBreakdown (month : string * string) (es : list Expense.t)
  : list (string * Z) :=
  omap (fun cat =>
          let total := categoryTotal month es cat in
          if total =? 0 then None else Some (cat, total))
       expenseCategories.

(** [getFilteredData]; the day and the two ranges are what [DateUtils]
    returns. *)
Module Filtered.
Record t : Type := mk {
  filteredDeliveries : list Delivery.t;
  filteredPayments : list Payment.t;
  filteredCustomers : list Customer.t;
  filteredExpenses : list Expense.t
}.
End Filtered.

Definition searchStep (searchTerm : string) (r : Filtered.t) : Filtered.t :=
  if Js.truthy searchTerm then
    let term := Js.toLowerCase searchTerm in
    {| Filtered.filteredDeliveries :=
         List.filter
           (fun d => includes (Js.toLowerCase (Delivery.flatNumber d)) term
                     || includes (Js.toLowerCase (Delivery.customerName d)) term)
           (Filtered.filteredDeliveries r);
       Filtered.filteredPayments :=
         List.filter
           (fun p => includes (Js.toLowerCase (Payment.flatNumber p)) term
                     || includes (Js.toLowerCase (Payment.customerName p)) term)
           (Filtered.filteredPayments r);
       Filtered.filteredCustomers :=
         List.filter
           (fun c => includes (Js.toLowerCase (Customer.flatNumber c)) term
                     || includes (Js.toLowerCase (Customer.name c)) term)
           (Filtered.filteredCustomers r);
       Filtered.filteredExpenses :=
         List.filter
           (fun e => includes (Js.toLowerCase (Expense.description e)) term
                     || includes (Js.toLowerCase (Expense.category e)) term)
           (Filtered.filteredExpenses r) |}
  else r.

Definition dateStep (filterDate today : string) (week month : string * string)
    (r : Filtered.t) : Filtered.t :=
  if negb (filterDate =? "all")%string then
    if (filterDate =? "today")%string then
      {| Filtered.filteredDeliveries :=
           List.filter (fun d => (Delivery.date d =? today)%string)
             (Filtered.filteredDeliveries r);
         Filtered.filteredPayments :=
           List.filter (fun p => (Payment.date p =? today)%string)
             (Filtered.filteredPayments r);
         Filtered.filteredCustomers := Filtered.filteredCustomers r;
         Filtered.filteredExpenses :=
           List.filter (fun e => (Expense.date e =? today)%string)
             (Filtered.filteredExpenses r) |}
    else if (filterDate =? "week")%string then
      {| Filtered.filteredDeliveries :=
           List.filter
             (fun d => Js.str_ge (Delivery.date d) (fst week)
                       && Js.str_le (Delivery.date d) (snd week))
             (Filtered.filteredDeliveries r);
         Filtered.filteredPayments :=
           List.filter
             (fun p => Js.str_ge (Payment.date p) (fst week)
                       && Js.str_le (Payment.date p) (snd week))
             (Filtered.filteredPayments r);
         Filtered.filteredCustomers := Filtered.filteredCustomers r;
         Filtered.filteredExpenses :=
           List.filter
             (fun e => Js.str_ge (Expense.date e) (fst week)
                       && Js.str_le (Expense.date e) (snd week))
             (Filtered.filteredExpenses r) |}
    else if (filterDate =? "month")%string then
      {| Filtered.filteredDeliveries :=
           List.filter
             (fun d => Js.str_ge (Delivery.date d) (fst month)
                       && Js.str_le (Delivery.date d) (snd month))
             (Filtered.filteredDeliveries r);
         Filtered.filteredPayments :=
           List.filter
             (fun p => Js.str_ge (Payment.date p) (fst month)
                       && Js.str_le (Payment.date p) (snd month))
             (Filtered.filteredPayments r);
         Filtered.filteredCustomers := Filtered.filteredCustomers r;
         Filtered.filteredExpenses :=
           List.filter
             (fun e => Js.str_ge (Expense.date e) (fst month)
                       && Js.str_le (Expense.date e) (snd month))
             (Filtered.filteredExpenses r) |}
    else r
  else r.

Definition getFilteredData (searchTerm filterDate today : string)
    (week month : string * string) (d : AppData) : Filtered.t :=
  dateStep filterDate today week month
    (searchStep searchTerm
       {| Filtered.filteredDeliveries := deliveries d;
          Filtered.filteredPayments := payments d;
          Filtered.filteredCustomers := customers d;
          Filtered.filteredExpenses := expenses d |}).

(** ** Invariants of the collections *)

(** No two customers have flat numbers that are equal up to letter case. *)
Definition flatsDistinct (cs : list Customer.t) : Prop :=
  List.NoDup (map (fun c => Js.toLowerCase (Customer.flatNumber c)) cs).

Definition idsDistinct (cs : list Customer.t) : Prop :=
  List.NoDup (map Customer.id cs).

(** Every delivery and every payment is recorded under the flat number of
    a customer. *)
Definition refsOk (d : AppData) : Prop :=
  (forall x, In x (deliveries d) ->
             exists c, In c (customers d)
                       /\ Customer.flatNumber c = Delivery.flatNumber x)
  /\ (forall p, In p (payments d) ->
                exists c, In c (customers d)
                          /\ Customer.flatNumber c = Payment.flatNumber p).

(** The sum of a list of numbers. *)
Definition sumZ (l : list Z) : Z := fold_right Z.add 0 l.

(** The records that [addCustomer], [addDelivery] and [addExpense] build. *)
Definition customerOf (env : Env) (form : CustomerForm.t) : Customer.t :=
  {| Customer.id := "cust_" +:+ pretty (nowMs env);
     Customer.flatNumber := CustomerForm.flatNumber form;
     Customer.name := CustomerForm.name form;
     Customer.phone := CustomerForm.phone form;
     Customer.rate := CustomerForm.rate form;
     Customer.createdAt := nowIso env |}.

Definition deliveryOf (env : Env) (form : DeliveryForm.t) (customer : Customer.t)
  : Delivery.t :=
  {| Delivery.id := "del_" +:+ pretty (nowMs env);
     Delivery.date := DeliveryForm.date form;
     Delivery.flatNumber := DeliveryForm.flatNumber form;
     Delivery.customerName := Customer.name customer;
     Delivery.delivered := DeliveryForm.delivered form;
     Delivery.collected := DeliveryForm.collected form;
     Delivery.notes := DeliveryForm.notes form;
     Delivery.amount := DeliveryForm.delivered form * Customer.rate customer;
     Delivery.createdAt := nowIso env |}.

Definition expenseOf (env : Env) (form : ExpenseForm.t) : Expense.t :=
  {| Expense.id := "exp_" +:+ pretty (nowMs env);
     Expense.date := ExpenseForm.date form;
     Expense.category := ExpenseForm.category form;
     Expense.description := ExpenseForm.description form;
     Expense.amount := ExpenseForm.amount form;
     Expense.paymentMethod := ExpenseForm.method form;
     Expense.notes := ExpenseForm.notes form;
     Expense.createdAt := nowIso env |}.

(** The forms pass the required-fields check of their handler. *)
Definition customerFormFilled (form : CustomerForm.t) : Prop :=
  CustomerForm.flatNumber form <> "" /\ CustomerForm.name form <> "".

Definition deliveryFormFilled (form : DeliveryForm.t) : Prop :=
  DeliveryForm.date form <> "" /\ DeliveryForm.flatNumber form <> ""
  /\ DeliveryForm.delivered form <> 0.

Definition paymentFormFilled (form : PaymentForm.t) : Prop :=
  PaymentForm.date form <> "" /\ PaymentForm.flatNumber form <> ""
  /\ PaymentForm.amountReceived form <> 0.

Definition expenseFormFilled (form : ExpenseForm.t) : Prop :=
  ExpenseForm.date form <> "" /\ ExpenseForm.description form <> ""
  /\ ExpenseForm.amount form <> 0.

(** The update that an action hands to [saveAndReload] when it gets that
    far: the fields it replaces, read off the handlers. *)
Inductive Saves (env : Env) (st : State) : Action -> Partial.t -> Prop :=
| saves_addCustomer form :
    customerFormFilled form ->
    (forall c, In c (customers (data st)) ->
               Js.toLowerCase (Customer.flatNumber c)
               <> Js.toLowerCase (CustomerForm.flatNumber form)) ->
    Saves env st (AddCustomer form)
      (Partial.mk (Some (customers (data st) ++ [customerOf env form])%list)
         None None None None)
| saves_deleteCustomer i c :
    confirmed env = true ->
    List.find (fun x => (Customer.id x =? i)%string) (customers (data st)) = Some c ->
    Saves env st (DeleteCustomer i)
      (Partial.mk
         (Some (List.filter (fun x => negb (Customer.id x =? i)%string)
                  (customers (data st))))
         (Some (List.filter
                  (fun d => negb (Delivery.flatNumber d =? Customer.flatNumber c)%string)
                  (deliveries (data st))))
         (Some (List.filter
                  (fun p => negb (Payment.flatNumber p =? Customer.flatNumber c)%string)
                  (payments (data st))))
         None None)
| saves_addDelivery form c :
    deliveryFormFilled form ->
    List.find (fun c => (Customer.flatNumber c =? DeliveryForm.flatNumber form)%string)
      (customers (data st)) = Some c ->
    Saves env st (AddDelivery form)
      (Partial.mk None (Some (deliveries (data st) ++ [deliveryOf env form c])%list)
         None None None)
| saves_deleteDelivery i :
    confirmed env = true ->
    Saves env st (DeleteDelivery i)
      (Partial.mk None
         (Some (List.filter (fun d => negb (Delivery.id d =? i)%string)
                  (deliveries (data st))))
         None None None)
| saves_addPayment form c :
    paymentFormFilled form ->
    List.find (fun c => (Customer.flatNumber c =? PaymentForm.flatNumber form)%string)
      (customers (data st)) = Some c ->
    Saves env st (AddPayment form)
      (Partial.mk None None
         (Some (payments (data st) ++ [newPayment env form c (data st)])%list)
         None None)
| saves_deletePayment i :
    confirmed env = true ->
    Saves env st (DeletePayment i)
      (Partial.mk None None
         (Some (List.filter (fun p => negb (Payment.id p =? i)%string)
                  (payments (data st))))
         None None)
| saves_addExpense form :
    expenseFormFilled form ->
    Saves env st (AddExpense form)
      (Partial.mk None None None
         (Some (expenses (data st) ++ [expenseOf env form])%list) None)
| saves_deleteExpense i :
    confirmed env = true ->
    Saves env st (DeleteExpense i)
      (Partial.mk None None None
         (Some (List.filter (fun e => negb (Expense.id e =? i)%string)
                  (expenses (data st))))
         None).

(** The figures of the lists of a [Filtered.t]: their count and their
    sums, profit being what was collected less the expenses. *)
Definition totalsOf (r : Filtered.t) : RangeStats.t :=
  {| RangeStats.deliveries := Z.of_nat (length (Filtered.filteredDeliveries r));
     RangeStats.bottlesDelivered :=
       fold_left (fun sum d => sum + Delivery.delivered d)
         (Filtered.filteredDeliveries r) 0;
     RangeStats.revenue :=
       fold_left (fun sum d => sum + Delivery.amount d) (Filtered.filteredDeliveries r) 0;
     RangeStats.collected :=
       fold_left (fun sum p => sum + Payment.amountReceived p)
         (Filtered.filteredPayments r) 0;
     RangeStats.expenses :=
       fold_left (fun sum e => sum + Expense.amount e) (Filtered.filteredExpenses r) 0;
     RangeStats.profit :=
       fold_left (fun sum p => sum + Payment.amountReceived p)
         (Filtered.filteredPayments r) 0
       - fold_left (fun sum e => sum + Expense.amount e) (Filtered.filteredExpenses r) 0;
     RangeStats.empties :=
       fold_left (fun sum d => sum + Delivery.collected d)
         (Filtered.filteredDeliveries r) 0 |}.

(** The two sums of [getCustomerOutstanding]: what the deliveries of a
    flat number bill and what its payments received. *)
Definition totalBilled (flatNumber : string) (deliveries : list Delivery.t) : Z :=
  fold_left (fun sum d => sum + Delivery.amount d)
    (List.filter (fun d => Delivery.flatNumber d =? flatNumber)%string deliveries) 0.

Definition totalPaid (flatNumber : string) (payments : list Payment.t) : Z :=
  fold_left (fun sum p => sum + Payment.amountReceived p)
    (List.filter (fun p => Payment.flatNumber p =? flatNumber)%string payments) 0.

(** Ordered from the greatest key down. *)
Definition descendingBy {A : Type} (k : A -> Z) (l : list A) : Prop :=
  StronglySorted (fun a b => k b <= k a) l.

(** What the page would load for the user is the data it shows. *)
Definition synced (uid : string) (st : State) : Prop :=
  fst (Storage.getData uid (browser st)) = Js.Returned (data st).

(** ** File and storage names *)

(** [\s] on the ASCII characters: tab, the line breaks, form feed, space. *)
Definition isSpace (c : ascii) : bool :=
  let n := N_of_ascii c in
  ((9 <=? n) && (n <=? 13) || (n =? 32))%N.

(** [s.replace(/\s+/g, sep)]: every maximal run of white space becomes
    one [sep]; [inRun] tells that the character before was white space. *)
Fixpoint replaceRuns (sep : string) (inRun : bool) (s : string) : string :=
  match s with
  | EmptyString => EmptyString
  | String c s' =>
      if isSpace c
      then (if inRun then replaceRuns sep true s' else sep +:+ replaceRuns sep true s')
      else String c (replaceRuns sep false s')
  end.

Definition replaceSpaces (sep : string) (s : string) : string :=
  replaceRuns sep false s.

(** [s.split('T')[0]]. *)
Fixpoint beforeT (s : string) : string :=
  match s with
  | EmptyString => EmptyString
  | String c s' => if Ascii.eqb c "T" then EmptyString else String c (beforeT s')
  end.

(** The name that [Storage.exportData] gives the download. *)
Definition exportFileName (env : Env) (businessName : string) : string :=
  replaceSpaces "-" businessName +:+ "-backup-" +:+ beforeT (nowIso env) +:+ ".json".

(** [s.trim()] on ASCII white space. *)
Fixpoint trimStart (s : string) : string :=
  match s with
  | EmptyString => EmptyString
  | String c s' => if isSpace c then trimStart s' else s
  end.

Fixpoint trimEnd (s : string) : string :=
  match s with
  | EmptyString => EmptyString
  | String c s' =>
      match trimEnd s' with
      | EmptyString => if isSpace c then EmptyString else String c EmptyString
      | r => String c r
      end
  end.

Definition trim (s : string) : string := trimEnd (trimStart s).

(** The sign-in form of the first variant of [app/page.tsx]: what
    [handleSubmit] stores as the current user, or nothing after the alert
    for a blank business name. *)
Module User.
Record t : Type := mk {
  businessName : string;
  phone : string;
  loginTime : string;
  dataKey : string
}.
End User.

Definition dataKeyOf (businessName : string) : string :=
  "aab_data_" +:+ replaceSpaces "_" (Js.toLowerCase businessName).

Definition handleSubmit (env : Env) (businessName phone : string) : option User.t :=
  if negb (Js.truthy (trim businessName)) then None
  else Some {| User.businessName := businessName;
               User.phone := phone;
               User.loginTime := nowIso env;
               User.dataKey := dataKeyOf businessName |}.

(** A string made of white space only, and one without any. *)
Fixpoint allSpaces (s : string) : bool :=
  match s with
  | EmptyString => true
  | String c s' => isSpace c && allSpaces s'
  end.

Fixpoint noSpace (s : string) : bool :=
  match s with
  | EmptyString => true
  | String c s' => negb (isSpace c) && noSpace s'
  end.

(** Whether a scan that started with [inRun] ends in a run of white space. *)
Fixpoint endsInRun (inRun : bool) (s : string) : bool :=
  match s with
  | EmptyString => inRun
  | String c s' => endsInRun (isSpace c) s'
  end.

(** ** The helpers of lib/utils.ts *)

Module Validator.

Fixpoint removeDashes (s : string) : string :=
  match s with
  | EmptyString => EmptyString
  | String c s' =>
      if Ascii.eqb c "-" then removeDashes s' else String c (removeDashes s')
  end.

Definition isDigit (c : ascii) : bool :=
  let n := N_of_ascii c in ((48 <=? n) && (n <=? 57))%N.

Fixpoint allDigits (s : string) : bool :=
  match s with
  | EmptyString => true
  | String c s' => isDigit c && allDigits s'
  end.

(** [/^03\d{9}$/.test(phone.replace(/-/g, ''))]. *)
Definition isValidPhone (phone : string) : bool :=
  let s := removeDashes phone in
  String.prefix "03" s && (String.length s =? 11)%nat && allDigits s.

End Validator.

(** [Array.prototype.join]. *)
Fixpoint join (sep : string) (l : list string) : string :=
  match l with
  | [] => EmptyString
  | [x] => x
  | x :: l' => x +:+ sep +:+ join sep l'
  end.

(** [cn(...classes)]: [classes.filter(Boolean).join(' ')]; [None] stands
    for [undefined], [null] and [false]. *)
Definition keepTruthy (c : option string) : option string :=
  match c with
  | Some s => if Js.truthy s then Some s else None
  | None => None
  end.

Definition cn (classes : list (option string)) : string :=
  join " " (omap keepTruthy classes).

(** [Calculator.getCustomerKhata] of lib/utils.ts. *)
Module Khata.
Record t : Type := mk {
  customer : Customer.t;
  totalDelivered : Z;
  totalCollected : Z;
  pendingEmpties : Z;
  totalAmount : Z;
  totalPaid : Z;
  outstandingAmount : Z
}.
End Khata.

Definition getCustomerKhata (customer : Customer.t) (deliveries : list Delivery.t)
    (payments : list Payment.t) : Khata.t :=
  let customerDeliveries :=
    List.filter (fun d => (Delivery.flatNumber d =? Customer.flatNumber customer)%string)
      deliveries in
  let customerPayments :=
    List.filter (fun p => (Payment.flatNumber p =? Customer.flatNumber customer)%string)
      payments in
  let totalDelivered :=
    fold_left (fun sum d => sum + Delivery.delivered d) customerDeliveries 0 in
  let totalCollected :=
    fold_left (fun sum d => sum + Delivery.collected d) customerDeliveries 0 in
  let totalAmount :=
    fold_left (fun sum d => sum + Delivery.amount d) customerDeliveries 0 in
  let totalPaid :=
    fold_left (fun sum p => sum + Payment.amountReceived p) customerPayments 0 in
  {| Khata.customer := customer;
     Khata.totalDelivered := totalDelivered;
     Khata.totalCollected := totalCollected;
     Khata.pendingEmpties := totalDelivered - totalCollected;
     Khata.totalAmount := totalAmount;
     Khata.totalPaid := totalPaid;
     Khata.outstandingAmount := totalAmount - totalPaid |}.

(** [Calculator.getDashboardStats] of lib/utils.ts; [thisMonth] is its
    test on a date string: [new Date(s)] falls in the month and year of
    now. *)
Module DashboardStats.
Record t : Type := mk {
  totalCustomers : Z;
  monthDeliveries : Z;
  pendingEmpties : Z;
  monthlyRevenue : Z;
  monthlyPaid : Z;
  outstanding : Z
}.
End DashboardStats.

Definition getDashboardStats (thisMonth : string -> bool) (d : AppData)
  : DashboardStats.t :=
  let thisMonthDeliveries :=
    List.filter (fun x => thisMonth (Delivery.date x)) (deliveries d) in
  let thisMonthPayments :=
    List.filter (fun p => thisMonth (Payment.date p)) (payments d) in
  let totalDelivered :=
    fold_left (fun sum x => sum + Delivery.delivered x) (deliveries d) 0 in
  let totalCollected :=
    fold_left (fun sum x => sum + Delivery.collected x) (deliveries d) 0 in
  let monthDeliveries :=
    fold_left (fun sum x => sum + Delivery.delivered x) thisMonthDeliveries 0 in
  let monthlyRevenue :=
    fold_left (fun sum x => sum + Delivery.amount x) thisMonthDeliveries 0 in
  let monthlyPaid :=
    fold_left (fun sum p => sum + Payment.amountReceived p) thisMonthPayments 0 in
  {| DashboardStats.totalCustomers := Z.of_nat (length (customers d));
     DashboardStats.monthDeliveries := monthDeliveries;
     DashboardStats.pendingEmpties := totalDelivered - totalCollected;
     DashboardStats.monthlyRevenue := monthlyRevenue;
     DashboardStats.monthlyPaid := monthlyPaid;
     DashboardStats.outstanding := monthlyRevenue - monthlyPaid |}.

(** [DateUtils.getTimeAgo] of lib/utils.ts.  [Date_parse] is
    [new Date(s).getTime()] ([None] for NaN), [now] the current time and
    [formatDate] the locale's rendering that the function falls back on. *)
Definition getTimeAgo (Date_parse : string -> option Z)
    (formatDate : string -> string) (now : Z) (dateString : string) : string :=
  match Date_parse dateString with
  | None => formatDate dateString
  | Some date =>
      let diffMinutes := (now - date) / 60000 in
      if diffMinutes <? 1 then "Just now"
      else if diffMinutes <? 60 then pretty diffMinutes +:+ " minutes ago"
      else if diffMinutes <? 1440 then pretty (diffMinutes / 60) +:+ " hours ago"
      else formatDate dateString
  end.

(** ** The storage of the earlier page

    [Storage] of the first dashboard page, run in the browser (where
    [window] is defined), keeps one entry for all users; [saveData] reads
    it back and writes the merge, and nothing catches what the two calls
    throw.  The data of that page has no expenses: the field of [AppData]
    is carried along, and no code of that page reads it. *)
Module Legacy.

Definition key : string := "waterCRM_data".

Definition getData : M AppData :=
  stored <- getItem key ;;
  match stored with
  | Some v => if blobTruthy v then JSON_parse v else ret emptyData
  | None => ret emptyData
  end.

Definition saveData (env : Env) (updates : Partial.t) : M unit :=
  current <- getData ;;
  setItem (storageFault env) key
    (JSON_stringify (Storage.merge current updates (nowIso env))).

(** What a handler of that page does with an update:
    [Storage.saveData(updates); loadData()]. *)
Definition saveAndLoad (env : Env) (updates : Partial.t) : M AppData :=
  saveData env updates ;;; getData.

End Legacy.

(** ** DateUtils

    The [Date] built-in is taken through the abstract operations of the
    language specification.  Its calendar is a parameter: [YearFromTime]
    and [MonthFromTime] of a local time value, [firstDayOf y m], the day
    number of the first day of month [m] (from 0, and beyond 11 into the
    next years) of year [y], and [isoDay], the "YYYY-MM-DD" text of a day
    number, which is what [toISOString().split('T')[0]] gives for an
    instant of that day.  [tz] is the offset of local time from UTC in
    milliseconds, taken as constant (a zone without daylight saving). *)
Module DateUtils.
Section Clock.
Variable tz : Z.
Variables YearFromTime MonthFromTime : Z -> Z.
Variable firstDayOf : Z -> Z -> Z.
Variable isoDay : Z -> string.

Definition Day (t : Z) : Z := t / Calculator.msPerDay.
Definition TimeWithinDay (t : Z) : Z := t mod Calculator.msPerDay.
Definition LocalTime (t : Z) : Z := t + tz.
Definition UTC (t : Z) : Z := t - tz.
Definition WeekDay (t : Z) : Z := (Day t + 4) mod 7.
Definition MakeDay (year month date : Z) : Z := firstDayOf year month + date - 1.
Definition MakeDate (day time : Z) : Z := day * Calculator.msPerDay + time.
Definition DateFromTime (t : Z) : Z :=
  Day t - firstDayOf (YearFromTime t) (MonthFromTime t) + 1.

(** The day number of the first day of the local month of [t]. *)
Definition monthStart (t : Z) : Z :=
  firstDayOf (YearFromTime (LocalTime t)) (MonthFromTime (LocalTime t)).

(** The methods of a [Date] of time value [t]. *)
Definition getDate (t : Z) : Z := DateFromTime (LocalTime t).
Definition getDay (t : Z) : Z := WeekDay (LocalTime t).
Definition getFullYear (t : Z) : Z := YearFromTime (LocalTime t).
Definition getMonth (t : Z) : Z := MonthFromTime (LocalTime t).

(** [d.setDate(date)], the new time value of [d]. *)
Definition setDate (t date : Z) : Z :=
  UTC (MakeDate (MakeDay (YearFromTime (LocalTime t)) (MonthFromTime (LocalTime t)) date)
         (TimeWithinDay (LocalTime t))).

(** [new Date(year, month, date)]. *)
Definition newDate (year month date : Z) : Z :=
  UTC (MakeDate (MakeDay year month date) 0).

(** [d.toISOString().split('T')[0]]. *)
Definition toISODate (t : Z) : string := isoDay (Day t).

Definition getTodayString (now : Z) : string := toISODate now.

Definition getWeekRange (now : Z) : string * string :=
  let today := now in
  let start := setDate today (getDate today - getDay today) in
  let end_ := setDate today (getDate start + 6) in
  (toISODate start, toISODate end_).

Definition getMonthRange (now : Z) : string * string :=
  let today := now in
  let start := newDate (getFullYear today) (getMonth today) 1 in
  let end_ := newDate (getFullYear today) (getMonth today + 1) 0 in
  (toISODate start, toISODate end_).

End Clock.
End DateUtils.

(** An instance of the calendar: the proleptic Gregorian one. *)
Definition civilFromDays (z : Z) : Z * Z * Z :=
  let z := z + 719468 in
  let era := z / 146097 in
  let doe := z - era * 146097 in
  let yoe := (doe - doe / 1460 + doe / 36524 - doe / 146096) / 365 in
  let doy := doe - (365 * yoe + yoe / 4 - yoe / 100) in
  let mp := (5 * doy + 2) / 153 in
  let d := doy - (153 * mp + 2) / 5 + 1 in
  let m := if mp <? 10 then mp + 3 else mp - 9 in
  (if m <=? 2 then yoe + era * 400 + 1 else yoe + era * 400, m, d).

Definition yearOf (t : Z) : Z := fst (fst (civilFromDays (t / Calculator.msPerDay))).
Definition monthOf (t : Z) : Z := snd (fst (civilFromDays (t / Calculator.msPerDay))) - 1.
Definition firstDayOfMonth (year month : Z) : Z :=
  daysFromCivil (year + month / 12) (month mod 12 + 1) 1.

Definition pad2 (n : Z) : string := if n <? 10 then "0" +:+ pretty n else pretty n.
Definition pad4 (n : Z) : string :=
  if n <? 10 then "000" +:+ pretty n
  else if n <? 100 then "00" +:+ pretty n
  else if n <? 1000 then "0" +:+ pretty n
  else pretty n.

Definition isoDayText (day : Z) : string :=
  let '(y, m, d) := civilFromDays day in
  pad4 y +:+ "-" +:+ pad2 m +:+ "-" +:+ pad2 d.

(** Karachi: five hours east of UTC. *)
Definition tzKarachi : Z := 5 * 60 * 60 * 1000.

(** The month test of [getDashboardStats] at the instant [now]:
    [new Date(s)] has the local month and year of [new Date()].
    [Date_parse s] is the time value of [new Date(s)], [None] for an
    invalid date, whose month and year are NaN and equal to nothing. *)
Definition monthTest (Date_parse : string -> option Z) (tz now : Z)
    (dateString : string) : bool :=
  match Date_parse dateString with
  | Some t =>
      (DateUtils.getMonth tz monthOf t =? DateUtils.getMonth tz monthOf now)
      && (DateUtils.getFullYear tz yearOf t =? DateUtils.getFullYear tz yearOf now)
  | None => false
  end.

(** * Properties *)

(** ** Sums and filters *)

Lemma fold_left_add_acc {A : Type} (w : A -> Z) (l : list A) (a : Z) :
  fold_left (fun sum x => sum + w x) l a = a + fold_left (fun sum x => sum + w x) l 0.
Proof.
  revert a. induction l as [|x l IH]; intros a; simpl.
  - lia.
  - rewrite (IH (a + w x)), (IH (0 + w x)). lia.
Qed.

Lemma sum_filter_sumWhere {A : Type} (P : A -> Prop) `{!forall x, Decision (P x)}
    (p : A -> bool) (w : A -> Z) (l : list A) :
  (forall x, p x = true <-> P x) ->
  fold_left (fun sum x => sum + w x) (List.filter p l) 0 = sumWhere P w l.
Proof.
  intros Hp. induction l as [|x l IH]; simpl; [reflexivity|].
  destruct (p x) eqn:Hx; destruct (decide (P x)) as [HP|HP].
  - simpl. rewrite fold_left_add_acc, IH. reflexivity.
  - exfalso. apply HP, Hp, Hx.
  - apply Hp in HP. congruence.
  - exact IH.
Qed.

Lemma flat_eqb_iff (a b : string) : (a =? b)%string = true <-> a = b.
Proof. apply String.eqb_eq. Qed.



(** ** Saving *)

Lemma saveData_result env uid updates cur b :
  fst (Storage.saveData env uid updates cur b)
  = Js.Returned (match storageFault env with
                 | None => Storage.merge cur updates (nowIso env)
                 | Some _ => cur
                 end).
Proof.
  unfold Storage.saveData, try_catch, bind, setItem, console_log, ret.
  destruct (storageFault env); reflexivity.
Qed.

(** Loading never throws either: a missing or unreadable entry gives the
    empty collections. *)
Lemma getData_result uid b :
  fst (Storage.getData uid b)
  = Js.Returned (match localStorage b !! Storage.key uid with
                 | Some (Serialized d) => d
                 | _ => emptyData
                 end).
Proof.
  unfold Storage.getData, try_catch, bind, getItem, JSON_parse, throw,
    console_log, ret.
  destruct (localStorage b !! Storage.key uid) as [[d|g]|]; try reflexivity.
  simpl. destruct (Js.truthy g); reflexivity.
Qed.

Lemma saveAndReload_alerts env u st : alerts (saveAndReload env u st) = alerts st.
Proof.
  unfold saveAndReload.
  destruct (userId env) as [uid|]; [|reflexivity].
  destruct (Js.truthy uid); [|reflexivity].
  destruct (Storage.saveData env uid u (data st) (browser st)) as [[d|e] b']; reflexivity.
Qed.

Lemma saveAndReload_data env u st :
  data (saveAndReload env u st) = data st
  \/ (savePossible env
      /\ data (saveAndReload env u st) = Storage.merge (data st) u (nowIso env)).
Proof.
  unfold saveAndReload.
  destruct (userId env) as [uid|] eqn:Hu; [|left; reflexivity].
  destruct (Js.truthy uid) eqn:Ht; [|left; reflexivity].
  pose proof (saveData_result env uid u (data st) (browser st)) as R.
  destruct (Storage.saveData env uid u (data st) (browser st)) as [[d|e] b'];
    simpl in R; [|discriminate].
  injection R as ->. simpl.
  destruct (storageFault env) eqn:Hq; [left; reflexivity|right].
  split; [|reflexivity]. exists uid. rewrite Hu. auto.
Qed.

Lemma saveAndReload_saved env u st :
  savePossible env ->
  data (saveAndReload env u st) = Storage.merge (data st) u (nowIso env).
Proof.
  intros (uid & Hu & Ht & Hq). unfold saveAndReload. rewrite Hu, Ht.
  pose proof (saveData_result env uid u (data st) (browser st)) as R.
  destruct (Storage.saveData env uid u (data st) (browser st)) as [[d|e] b'];
    simpl in R; [|discriminate].
  injection R as ->. rewrite Hq. reflexivity.
Qed.

Lemma alert_data a st : data (alert a st) = data st.
Proof. reflexivity. Qed.

(** ** Recording a payment *)

Lemma addPayment_payments env form st :
  payments (data (addPayment env form st)) = payments (data st)
  \/ exists c,
       List.find (fun c => (Customer.flatNumber c =? PaymentForm.flatNumber form)%string)
         (customers (data st)) = Some c
       /\ payments (data (addPayment env form st))
          = (payments (data st) ++ [newPayment env form c (data st)])%list.
Proof.
  unfold addPayment.
  destruct (negb (Js.truthy (PaymentForm.date form))
            || negb (Js.truthy (PaymentForm.flatNumber form))
            || (PaymentForm.amountReceived form =? 0)); [left; reflexivity|].
  destruct (List.find _ (customers (data st))) as [c|]; [|left; reflexivity].
  rewrite alert_data.
  match goal with |- context [saveAndReload env ?u st] =>
    destruct (saveAndReload_data env u st) as [E|[_ E]]; rewrite E end.
  - left; reflexivity.
  - right. exists c. split; reflexivity.
Qed.

Lemma app_singleton_neq {A : Type} (l : list A) (x : A) : l <> (l ++ [x])%list.
Proof.
  intros E. apply (f_equal (@length A)) in E. rewrite length_app in E.
  simpl in E. lia.
Qed.

Lemma created_is_newPayment env form st p :
  createdByAddPayment env form st p ->
  exists c,
    List.find (fun c => (Customer.flatNumber c =? PaymentForm.flatNumber form)%string)
      (customers (data st)) = Some c
    /\ p = newPayment env form c (data st).
Proof.
  unfold createdByAddPayment. intros H.
  destruct (addPayment_payments env form st) as [E|(c & Hc & E)]; rewrite E in H.
  - exfalso. exact (app_singleton_neq _ _ H).
  - exists c. split; [exact Hc|].
    apply app_inv_head in H. injection H as <-. reflexivity.
Qed.

Lemma paymentStatus_spec A B : spec_status A B (paymentStatus A B).
Proof.
  unfold paymentStatus.
  destruct ((A >=? B) && (B >? 0)) eqn:H1.
  - apply andb_prop in H1 as [Ha Hb]. apply spec_full; lia.
  - destruct ((A >? 0) && (A <? B)) eqn:H2.
    + apply andb_prop in H2 as [Ha Hb]. apply spec_partial; lia.
    + apply spec_pending.
      * intros [Ha Hb]. apply andb_false_iff in H1 as [H1|H1]; lia.
      * intros [Ha Hb]. apply andb_false_iff in H2 as [H2|H2]; lia.
Qed.

(** The payments after any action: the ones before it, verbatim, and
    possibly the one record that [addPayment] appends. *)
Lemma step_payments env a st q :
  In q (payments (data (step env a st))) ->
  In q (payments (data st))
  \/ exists form, a = AddPayment form /\ createdByAddPayment env form st q.
Proof.
  assert (Hkeep : forall u st0 al,
    Partial.payments u = None ->
    payments (data (alert al (saveAndReload env u st0))) = payments (data st0)).
  { intros u st0 al Hu. rewrite alert_data.
    destruct (saveAndReload_data env u st0) as [E|[_ E]]; rewrite E; [reflexivity|].
    simpl. rewrite Hu. reflexivity. }
  assert (Hsub : forall u st0 l,
    Partial.payments u = Some l ->
    (forall x, In x l -> In x (payments (data st0))) ->
    forall x, In x (payments (data (saveAndReload env u st0))) ->
              In x (payments (data st0))).
  { intros u st0 l Hu Hl x.
    destruct (saveAndReload_data env u st0) as [E|[_ E]]; rewrite E; [auto|].
    simpl. rewrite Hu. simpl. auto. }
  assert (Hsame : forall u st0,
    Partial.payments u = None ->
    payments (data (saveAndReload env u st0)) = payments (data st0)).
  { intros u st0 Hu. exact (Hkeep u st0 CustomerAdded Hu). }
  destruct a as [f|id|f|id|f|id|f|id]; simpl; intros Hq.
  - left. unfold addCustomer in Hq.
    destruct (_ || _) in Hq; [exact Hq|].
    destruct (List.find _ _) in Hq; [exact Hq|].
    rewrite Hkeep in Hq by reflexivity. exact Hq.
  - left. unfold deleteCustomer in Hq.
    destruct (negb (confirmed env)); [exact Hq|].
    destruct (List.find _ _) as [c|]; [|exact Hq].
    eapply Hsub in Hq; [exact Hq|reflexivity|].
    intros x Hx. apply filter_In in Hx. tauto.
  - left. unfold addDelivery in Hq.
    destruct (_ || _) in Hq; [exact Hq|].
    destruct (List.find _ _) in Hq; [|exact Hq].
    rewrite Hkeep in Hq by reflexivity. exact Hq.
  - left. unfold deleteDelivery in Hq.
    destruct (confirmed env); [|exact Hq].
    rewrite Hsame in Hq by reflexivity. exact Hq.
  - destruct (addPayment_payments env f st) as [E|(c & Hc & E)].
    + left. rewrite E in Hq. exact Hq.
    + rewrite E in Hq. apply in_app_or in Hq as [Hq|[Hq|[]]]; [left; exact Hq|].
      right. exists f. split; [reflexivity|].
      unfold createdByAddPayment. rewrite E, Hq. reflexivity.
  - left. unfold deletePayment in Hq.
    destruct (confirmed env); [|exact Hq].
    eapply Hsub in Hq; [exact Hq|reflexivity|].
    intros x Hx. apply filter_In in Hx. tauto.
  - left. unfold addExpense in Hq.
    destruct (_ || _) in Hq; [exact Hq|].
    rewrite Hkeep in Hq by reflexivity. exact Hq.
  - left. unfold deleteExpense in Hq.
    destruct (confirmed env); [|exact Hq].
    rewrite Hsame in Hq by reflexivity. exact Hq.
Qed.

(** The three rows of the specification's status example. *)
Example status_500_500 : paymentStatus 500 500 = full.
Proof. reflexivity. Qed.
Example status_200_500 : paymentStatus 200 500 = partial.
Proof. reflexivity. Qed.
Example status_100_0 : paymentStatus 100 0 = pending.
Proof. reflexivity. Qed.

(** The example scenario: the balance is 200 after the first payment; a
    second payment of 200 is stored with totalBill 200, remainingBalance 0
    and status full, and the balance recomputed afterwards is 0. *)
Example scenario_customer_A :
  Calculator.getCustomerOutstanding "A"
    (deliveries (data stScenario)) (payments (data stScenario)) = 200
  /\ (let st' := addPayment env0 (formPay "A" 200) stScenario in
      Calculator.getCustomerOutstanding "A" (deliveries (data st')) (payments (data st')) = 0
      /\ map (fun p => (Payment.totalBill p, Payment.amountReceived p,
                         Payment.remainingBalance p, Payment.status p))
            (payments (data st'))
         = [(300, 100, 200, partial); (200, 200, 0, full)]).
Proof. vm_compute. repeat split; reflexivity. Qed.

(** C2. A payment created by addPayment, with B the customer's balance
    computed just before it and A the amount received, is stored with
    status full if A >= B and B > 0, partial if 0 < A < B, and pending
    otherwise, in particular whenever B <= 0.  No operation changes it
    later: the payments after any action are payments of the state before
    it, unchanged, or the one payment this action's addPayment created
    under the same rule. *)
Theorem C2_payment_status_at_creation (env : Env) (form : PaymentForm.t)
    (st : State) (p : Payment.t) :
  createdByAddPayment env form st p ->
  (PaymentForm.amountReceived form >= balanceBefore form st
   /\ balanceBefore form st > 0 -> Payment.status p = full)
  /\ (0 < PaymentForm.amountReceived form < balanceBefore form st ->
      Payment.status p = partial)
  /\ (~ (PaymentForm.amountReceived form >= balanceBefore form st
         /\ balanceBefore form st > 0) ->
      ~ (0 < PaymentForm.amountReceived form < balanceBefore form st) ->
      Payment.status p = pending)
  /\ (balanceBefore form st <= 0 -> Payment.status p = pending)
  /\ (forall env' a st' q,
        In q (payments (data (step env' a st'))) ->
        In q (payments (data st'))
        \/ exists form',
             a = AddPayment form'
             /\ spec_status (PaymentForm.amountReceived form')
                  (balanceBefore form' st') (Payment.status q)).
Proof.
  intros Hp. destruct (created_is_newPayment _ _ _ _ Hp) as (c & _ & ->).
  simpl. fold (balanceBefore form st).
  pose proof (paymentStatus_spec (PaymentForm.amountReceived form)
                (balanceBefore form st)) as S.
  repeat split.
  - intros [Ha Hb]. inversion S as [? ? E|Ha' Hb' E|N1 N2 E]; [reflexivity|lia|].
    exfalso. apply N1. split; assumption.
  - intros [Ha Hb]. inversion S as [Ha' Hb' E|? ? E|N1 N2 E]; [lia|reflexivity|].
    exfalso. apply N2. split; assumption.
  - intros N1 N2. inversion S as [Ha Hb E|Ha Hb E|? ? E]; [|  |reflexivity].
    + exfalso. apply N1. split; assumption.
    + exfalso. apply N2. split; assumption.
  - intros Hb. inversion S as [Ha' Hb' E|Ha' Hb' E|? ? E]; [lia|lia|reflexivity].
  - intros env' a st' q Hq.
    destruct (step_payments env' a st' q Hq) as [Hin|(form' & -> & Hc)];
      [left; exact Hin|].
    right. exists form'. split; [reflexivity|].
    destruct (created_is_newPayment _ _ _ _ Hc) as (c' & _ & ->).
    simpl. apply paymentStatus_spec.
Qed.

(** The second payment of the example scenario: balance 200, received
    200, stored as full. *)
Lemma C2_payment_status_witness :
  Payment.status (newPayment env0 (formPay "A" 200) custA (data stA)) = full.
Proof.
  refine (proj1 (C2_payment_status_at_creation env0 (formPay "A" 200) stA _ _) _).
  - reflexivity.
  - vm_compute. split; [discriminate|reflexivity].
Defined.

(** C3. A payment created by addPayment stores as totalBill the
    customer's balance computed at that moment and as remainingBalance
    max(totalBill - amountReceived, 0).  Both are snapshots: the payments
    after any action are payments of the state before it, unchanged, or the
    one payment this action's addPayment created with these two fields. *)
Theorem C3_payment_snapshot_fields (env : Env) (form : PaymentForm.t)
    (st : State) (p : Payment.t) :
  createdByAddPayment env form st p ->
  Payment.totalBill p = balanceBefore form st
  /\ Payment.amountReceived p = PaymentForm.amountReceived form
  /\ Payment.remainingBalance p
     = Z.max (Payment.totalBill p - Payment.amountReceived p) 0
  /\ (forall env' a st' q,
        In q (payments (data (step env' a st'))) ->
        In q (payments (data st'))
        \/ exists form',
             a = AddPayment form'
             /\ Payment.totalBill q = balanceBefore form' st'
             /\ Payment.remainingBalance q
                = Z.max (balanceBefore form' st' - PaymentForm.amountReceived form') 0).
Proof.
  assert (Hmax : forall r, (if r >? 0 then r else 0) = Z.max r 0).
  { intros r. destruct (r >? 0) eqn:E; lia. }
  intros Hp. destruct (created_is_newPayment _ _ _ _ Hp) as (c & _ & ->).
  simpl. fold (balanceBefore form st).
  repeat split; [apply Hmax|].
  intros env' a st' q Hq.
  destruct (step_payments env' a st' q Hq) as [Hin|(form' & -> & Hc)];
    [left; exact Hin|].
  right. exists form'. split; [reflexivity|].
  destruct (created_is_newPayment _ _ _ _ Hc) as (c' & _ & ->).
  simpl. fold (balanceBefore form' st'). split; [reflexivity|apply Hmax].
Qed.

(** The example scenario: totalBill 200, received 200, remaining 0. *)
Lemma C3_payment_snapshot_witness :
  Payment.totalBill (newPayment env0 (formPay "A" 200) custA (data stA)) = 200
  /\ Payment.remainingBalance (newPayment env0 (formPay "A" 200) custA (data stA)) = 0.
Proof.
  destruct (C3_payment_snapshot_fields env0 (formPay "A" 200) stA
              (newPayment env0 (formPay "A" 200) custA (data stA)))
    as (Hbill & Hrec & Hrem & _).
  - reflexivity.
  - split; [exact Hbill|]. rewrite Hrem, Hbill, Hrec. reflexivity.
Defined.

(** ** Date ranges *)

Lemma str_compare_refl (s : string) : String.compare s s = Eq.
Proof.
  pose proof (String.compare_antisym s s) as An.
  destruct (String.compare s s); [reflexivity|discriminate|discriminate].
Qed.

Lemma str_ge_before_eq (a b : string) : Js.str_ge a b = true <-> str_before_eq b a.
Proof.
  unfold Js.str_ge, Js.str_lt, str_before_eq.
  rewrite (String.compare_antisym b a).
  destruct (String.compare a b) eqn:E; simpl.
  - apply String.compare_eq_iff in E. subst. intuition.
  - split; [discriminate|]. intros [Hba|H]; [|discriminate].
    subst b. rewrite str_compare_refl in E. discriminate.
  - intuition.
Qed.

Lemma inRange_within (s e d : string) :
  Calculator.inRange s e d = true <-> within s e d.
Proof.
  unfold Calculator.inRange, within, Js.str_le.
  fold (Js.str_ge e d). rewrite andb_true_iff, !str_ge_before_eq. reflexivity.
Qed.

Lemma filter_none {A : Type} (p : A -> bool) (l : list A) :
  (forall x, In x l -> p x <> true) -> List.filter p l = [].
Proof.
  induction l as [|x l IH]; intros H; simpl; [reflexivity|].
  destruct (p x) eqn:E.
  - exfalso. exact (H x (or_introl eq_refl) E).
  - apply IH. intros y Hy. apply H. right. exact Hy.
Qed.

(** Cash basis: in the example ledger the month's revenue is 300, the
    collections 100 and the expenses 50, and the profit is 50. *)
Example profit_is_cash_basis :
  RangeStats.profit
    (Calculator.getDateRangeStats [delA] [payA] [expRent] "2024-01-01" "2024-01-31") = 50
  /\ RangeStats.revenue
       (Calculator.getDateRangeStats [delA] [payA] [expRent] "2024-01-01" "2024-01-31") = 300.
Proof. split; reflexivity. Qed.



(** ** Sorting by date *)

Section SortFacts.
Context {A : Type} (cmp : A -> A -> Z).

Lemma In_insert (x z : A) (l : list A) :
  In z (Js.insert cmp x l) <-> z = x \/ In z l.
Proof.
  induction l as [|y l IH]; simpl.
  - intuition.
  - destruct (cmp x y <=? 0); simpl; [intuition|].
    rewrite IH. intuition.
Qed.

Lemma In_sort (z : A) (l : list A) : In z (Js.sort cmp l) <-> In z l.
Proof.
  induction l as [|x l IH]; simpl; [reflexivity|].
  rewrite In_insert, IH. intuition.
Qed.

Lemma sort_singleton (x : A) : Js.sort cmp [x] = [x].
Proof. reflexivity. Qed.

(** When the comparator is the difference of a key, descending, the first
    element of the sorted array has the greatest key. *)
Lemma head_sort_greatest (k : A -> Z) (l : list A) (h : A) :
  (forall x y, In x l -> In y l -> cmp x y = k y - k x) ->
  head (Js.sort cmp l) = Some h ->
  In h l /\ forall y, In y l -> k y <= k h.
Proof.
  revert h. induction l as [|x l IH]; intros h Hcmp; simpl; [discriminate|].
  assert (Hcmp' : forall a b, In a l -> In b l -> cmp a b = k b - k a).
  { intros a b Ha Hb. apply Hcmp; right; assumption. }
  destruct (Js.sort cmp l) as [|y s] eqn:Es; simpl.
  - intros [= <-]. split; [left; reflexivity|].
    intros y [<-|Hy]; [lia|].
    apply (In_sort y) in Hy. rewrite Es in Hy. destruct Hy.
  - destruct (IH y Hcmp' eq_refl) as [Hy Hmax].
    destruct (cmp x y <=? 0) eqn:E; simpl; intros [= <-].
    + rewrite (Hcmp x y) in E by (simpl; auto).
      split; [left; reflexivity|].
      intros z [<-|Hz]; [lia|]. specialize (Hmax z Hz). lia.
    + rewrite (Hcmp x y) in E by (simpl; auto).
      split; [right; exact Hy|].
      intros z [<-|Hz]; [lia|]. exact (Hmax z Hz).
Qed.

Lemma head_sort_nonempty (l : list A) :
  l <> [] -> exists h, head (Js.sort cmp l) = Some h.
Proof.
  destruct l as [|x l]; [congruence|]. intros _. simpl.
  destruct (Js.sort cmp l) as [|y s]; simpl; [eauto|].
  destruct (cmp x y <=? 0); simpl; eauto.
Qed.

End SortFacts.

(** ** Overdue dues *)

Section Overdue.
Variable Date_parse : string -> option Z.

Lemma In_getOverdueDues today cs ds ps e :
  In e (Calculator.getOverdueDues Date_parse today cs ds ps)
  <-> exists c, In c cs /\ Calculator.dueOf Date_parse today ds ps c = Some e.
Proof.
  unfold Calculator.getOverdueDues. rewrite <- list_elem_of_In, list_elem_of_omap.
  split; intros (c & Hc & E); exists c; split; try exact E;
    apply list_elem_of_In; exact Hc.
Qed.

Lemma dueOf_Some today ds ps c e :
  Calculator.dueOf Date_parse today ds ps c = Some e ->
  Due.customer e = c
  /\ Due.outstanding e
     = Calculator.getCustomerOutstanding (Customer.flatNumber c) ds ps
  /\ Due.outstanding e > 0.
Proof.
  unfold Calculator.dueOf.
  destruct (Calculator.getCustomerOutstanding (Customer.flatNumber c) ds ps <=? 0) eqn:E;
    [discriminate|].
  intros [= <-]. simpl. repeat split. lia.
Qed.

(** What [dueOf] reads off the customer's last delivery. *)
Lemma dueOf_last_delivery today ds ps c e :
  Calculator.dueOf Date_parse today ds ps c = Some e ->
  let mine :=
    List.filter (fun d => (Delivery.flatNumber d =? Customer.flatNumber c)%string) ds in
  let last :=
    head (Js.sort
            (fun a b => Calculator.byDateDesc Date_parse (Delivery.date a) (Delivery.date b))
            mine) in
  Due.lastDeliveryDate e
  = match last with Some d => Delivery.date d | None => "" end
  /\ Due.isOverdue e
     = match last with
       | None => None
       | Some d =>
           match Date_parse (Delivery.date d) with
           | Some t => Some (t <? today - 30 * Calculator.msPerDay)
           | None => Some false
           end
       end
  /\ Due.daysPending e
     = match last with
       | None => Some 0
       | Some d =>
           match Date_parse (Delivery.date d) with
           | Some t => Some ((today - t) / Calculator.msPerDay)
           | None => None
           end
       end.
Proof.
  unfold Calculator.dueOf.
  destruct (Calculator.getCustomerOutstanding (Customer.flatNumber c) ds ps <=? 0);
    [discriminate|].
  intros [= <-]. simpl.
  destruct (head _) as [d|]; simpl; [|auto].
  destruct (Date_parse (Delivery.date d)); auto.
Qed.

Lemma dueOf_positive today ds ps c :
  Calculator.getCustomerOutstanding (Customer.flatNumber c) ds ps > 0 ->
  exists e, Calculator.dueOf Date_parse today ds ps c = Some e.
Proof.
  intros Hpos. unfold Calculator.dueOf.
  destruct (Calculator.getCustomerOutstanding (Customer.flatNumber c) ds ps <=? 0) eqn:E;
    [lia|]. eauto.
Qed.

Lemma whole_days (span n : Z) :
  n = span / Calculator.msPerDay <->
  n * Calculator.msPerDay <= span < (n + 1) * Calculator.msPerDay.
Proof.
  unfold Calculator.msPerDay.
  pose proof (Z.div_mod span (1000 * 60 * 60 * 24) ltac:(lia)) as D.
  pose proof (Z.mod_pos_bound span (1000 * 60 * 60 * 24) ltac:(lia)) as B.
  split; [intros ->; lia|]. intros [Hlo Hhi].
  set (q := span / (1000 * 60 * 60 * 24)) in *. nia.
Qed.

(** C5. getOverdueDues lists only customers whose outstanding balance is
    positive, so a customer with outstanding <= 0 has no entry.  A
    customer with a positive balance whose only delivery is dated 40 days
    before now has an entry with isOverdue true and daysPending 40.  In
    general, for an entry whose customer has deliveries, all with valid
    dates, the last delivery is one of the greatest date, isOverdue holds
    exactly when that date is more than 30 days before now, and
    daysPending is the number of whole days from it to now. *)
Theorem C5_overdue_dues (today : Z) (cs : list Customer.t)
    (ds : list Delivery.t) (ps : list Payment.t) :
  (forall e, In e (Calculator.getOverdueDues Date_parse today cs ds ps) ->
     In (Due.customer e) cs
     /\ Due.outstanding e
        = Calculator.getCustomerOutstanding
            (Customer.flatNumber (Due.customer e)) ds ps
     /\ Due.outstanding e > 0)
  /\ (forall c,
        Calculator.getCustomerOutstanding (Customer.flatNumber c) ds ps <= 0 ->
        forall e, In e (Calculator.getOverdueDues Date_parse today cs ds ps) ->
                  Due.customer e <> c)
  /\ (forall c d t,
        In c cs ->
        Calculator.getCustomerOutstanding (Customer.flatNumber c) ds ps > 0 ->
        List.filter (fun x => (Delivery.flatNumber x =? Customer.flatNumber c)%string) ds
        = [d] ->
        Date_parse (Delivery.date d) = Some t ->
        40 * Calculator.msPerDay <= today - t < 41 * Calculator.msPerDay ->
        exists e,
          In e (Calculator.getOverdueDues Date_parse today cs ds ps)
          /\ Due.customer e = c
          /\ Due.lastDeliveryDate e = Delivery.date d
          /\ Due.isOverdue e = Some true
          /\ Due.daysPending e = Some 40)
  /\ (forall e mine,
        In e (Calculator.getOverdueDues Date_parse today cs ds ps) ->
        mine = List.filter
                 (fun x => (Delivery.flatNumber x
                            =? Customer.flatNumber (Due.customer e))%string) ds ->
        mine <> [] ->
        (forall d, In d mine -> Date_parse (Delivery.date d) <> None) ->
        exists d t,
          In d mine
          /\ Date_parse (Delivery.date d) = Some t
          /\ (forall d' t', In d' mine -> Date_parse (Delivery.date d') = Some t' ->
                            t' <= t)
          /\ Due.lastDeliveryDate e = Delivery.date d
          /\ Due.isOverdue e = Some (t <? today - 30 * Calculator.msPerDay)
          /\ (Due.isOverdue e = Some true <->
              t < today - 30 * Calculator.msPerDay)
          /\ exists n,
               Due.daysPending e = Some n
               /\ n * Calculator.msPerDay <= today - t < (n + 1) * Calculator.msPerDay).
Proof.
  assert (Hentry : forall e,
    In e (Calculator.getOverdueDues Date_parse today cs ds ps) ->
    In (Due.customer e) cs
    /\ Due.outstanding e
       = Calculator.getCustomerOutstanding
           (Customer.flatNumber (Due.customer e)) ds ps
    /\ Due.outstanding e > 0).
  { intros e He. apply In_getOverdueDues in He as (c & Hc & E).
    destruct (dueOf_Some _ _ _ _ _ E) as (<- & Ho & Hpos). auto. }
  split; [exact Hentry|]. split; [|split].
  - intros c Hle e He <-. destruct (Hentry e He) as (_ & Ho & Hpos). lia.
  - intros c d t Hc Hpos Hmine Ht Hspan.
    destruct (dueOf_positive today ds ps c Hpos) as [e E].
    exists e. split; [apply In_getOverdueDues; eauto|].
    destruct (dueOf_Some _ _ _ _ _ E) as (Hcust & _ & _).
    destruct (dueOf_last_delivery _ _ _ _ _ E) as (Hdate & Hover & Hdays).
    rewrite Hmine in Hdate, Hover, Hdays. simpl in Hdate, Hover, Hdays.
    rewrite Ht in Hover, Hdays.
    repeat split; try assumption.
    + rewrite Hover. f_equal. apply Z.ltb_lt.
      unfold Calculator.msPerDay in *. lia.
    + rewrite Hdays. f_equal. symmetry. apply whole_days. lia.
  - intros e mine He -> Hne Hvalid.
    apply In_getOverdueDues in He as (c & Hc & E).
    destruct (dueOf_Some _ _ _ _ _ E) as (Hcust & _ & _). rewrite Hcust in *.
    destruct (dueOf_last_delivery _ _ _ _ _ E) as (Hdate & Hover & Hdays).
    set (mine := List.filter
                   (fun x => (Delivery.flatNumber x =? Customer.flatNumber c)%string) ds)
      in *.
    set (cmp := fun a b : Delivery.t =>
                  Calculator.byDateDesc Date_parse (Delivery.date a) (Delivery.date b))
      in *.
    destruct (head_sort_nonempty cmp mine Hne) as [h Hh].
    destruct (head_sort_greatest cmp
                (fun x => default 0 (Date_parse (Delivery.date x))) mine h) as [Hin Hmax].
    { intros x y Hx Hy. subst cmp. unfold Calculator.byDateDesc.
      destruct (Date_parse (Delivery.date y)) eqn:Ey;
        [|exfalso; exact (Hvalid y Hy Ey)].
      destruct (Date_parse (Delivery.date x)) eqn:Ex;
        [|exfalso; exact (Hvalid x Hx Ex)].
      reflexivity. }
    { exact Hh. }
    rewrite Hh in Hdate, Hover, Hdays.
    destruct (Date_parse (Delivery.date h)) as [t|] eqn:Et;
      [|exfalso; exact (Hvalid h Hin Et)].
    exists h, t. repeat split; try assumption.
    + intros d' t' Hd' Et'. specialize (Hmax d' Hd'). simpl in Hmax.
      rewrite Et' in Hmax. rewrite ?Et in Hmax. exact Hmax.
    + rewrite Hover. intros [= Hlt]. apply Z.ltb_lt. exact Hlt.
    + intros Hlt. rewrite Hover. f_equal. apply Z.ltb_lt. exact Hlt.
    + exists ((today - t) / Calculator.msPerDay). split; [exact Hdays|].
      apply whole_days. reflexivity.
Qed.

End Overdue.

(** A balance of 200 whose only delivery is dated 2024-01-02, seen at noon
    of 2024-02-11, forty days later. *)
Lemma C5_overdue_dues_witness :
  exists e,
    In e (Calculator.getOverdueDues isoDate 1707652800000 [custA] [delA] [payA])
    /\ Due.customer e = custA
    /\ Due.lastDeliveryDate e = "2024-01-02"
    /\ Due.isOverdue e = Some true
    /\ Due.daysPending e = Some 40.
Proof.
  apply (proj1 (proj2 (proj2
           (C5_overdue_dues isoDate 1707652800000 [custA] [delA] [payA])))
           custA delA 1704153600000).
  - left. reflexivity.
  - reflexivity.
  - reflexivity.
  - reflexivity.
  - unfold Calculator.msPerDay. lia.
Defined.

(** ** Deleting a customer *)

Lemma negb_eqb_true_iff (a b : string) : negb (a =? b)%string = true <-> a <> b.
Proof.
  rewrite negb_true_iff. destruct (a =? b)%string eqn:E.
  - apply String.eqb_eq in E. split; [discriminate|congruence].
  - apply String.eqb_neq in E. tauto.
Qed.

(** What a confirmed and saved [deleteCustomer] leaves, [c] being the
    customer that [find] returns. *)
Lemma deleteCustomer_saved env i st c :
  confirmed env = true ->
  savePossible env ->
  List.find (fun x => (Customer.id x =? i)%string) (customers (data st)) = Some c ->
  data (deleteCustomer env i st)
  = {| customers :=
         List.filter (fun x => negb (Customer.id x =? i)%string) (customers (data st));
       deliveries :=
         List.filter (fun d => negb (Delivery.flatNumber d =? Customer.flatNumber c)%string)
           (deliveries (data st));
       payments :=
         List.filter (fun p => negb (Payment.flatNumber p =? Customer.flatNumber c)%string)
           (payments (data st));
       expenses := expenses (data st);
       lastSaved := nowIso env |}.
Proof.
  intros Hconf Hsave Hfind.
  unfold deleteCustomer. rewrite Hconf, Hfind. simpl.
  rewrite saveAndReload_saved by exact Hsave. reflexivity.
Qed.

Lemma In_filter_flat_ne {A : Type} (flat : A -> string) (f : string) (l : list A) (x : A) :
  In x (List.filter (fun y => negb (flat y =? f)%string) l) <-> In x l /\ flat x <> f.
Proof. rewrite filter_In, negb_eqb_true_iff. reflexivity. Qed.

(** What a confirmed and saved deleteCustomer leaves in general: the
    customers with another id, and the deliveries and payments of the
    other flat numbers than that of the first customer with the id. *)
Lemma deleteCustomer_first_match (env : Env) (i : string) (st : State)
    (c : Customer.t) :
  confirmed env = true ->
  savePossible env ->
  List.find (fun x => (Customer.id x =? i)%string) (customers (data st)) = Some c ->
  customers (data (deleteCustomer env i st))
  = List.filter (fun x => negb (Customer.id x =? i)%string) (customers (data st))
  /\ deliveries (data (deleteCustomer env i st))
     = List.filter (fun d => negb (Delivery.flatNumber d =? Customer.flatNumber c)%string)
         (deliveries (data st))
  /\ payments (data (deleteCustomer env i st))
     = List.filter (fun p => negb (Payment.flatNumber p =? Customer.flatNumber c)%string)
         (payments (data st))
  /\ expenses (data (deleteCustomer env i st)) = expenses (data st).
Proof.
  intros Hconf Hsave Hfind.
  rewrite (deleteCustomer_saved env i st c Hconf Hsave Hfind). simpl.
  repeat split; reflexivity.
Qed.

Lemma savePossible_env0 : savePossible env0.
Proof. exists "user_1". repeat split; reflexivity. Defined.

(** C6. In a state that holds a customer with id i and flat number f, the
    id identifying the customer (every customer with id i has flat number
    f, as when ids are distinct), a deleteCustomer(i) that is confirmed and
    whose save goes through removes that customer, removes exactly the
    deliveries and the payments whose flatNumber is f and no others, and
    leaves every other customer, every other delivery and payment (in
    their order) and the whole expenses collection as they were. *)
Theorem C6_deleteCustomer_cascade (env : Env) (i f : string) (st : State) :
  confirmed env = true ->
  savePossible env ->
  (exists c, In c (customers (data st))
             /\ Customer.id c = i /\ Customer.flatNumber c = f) ->
  (forall c, In c (customers (data st)) -> Customer.id c = i ->
             Customer.flatNumber c = f) ->
  deletesExactly i f (data st) (data (deleteCustomer env i st))
  /\ customers (data (deleteCustomer env i st))
     = List.filter (fun x => negb (Customer.id x =? i)%string) (customers (data st))
  /\ deliveries (data (deleteCustomer env i st))
     = List.filter (fun d => negb (Delivery.flatNumber d =? f)%string)
         (deliveries (data st))
  /\ payments (data (deleteCustomer env i st))
     = List.filter (fun p => negb (Payment.flatNumber p =? f)%string)
         (payments (data st)).
Proof.
  intros Hconf Hsave (c0 & Hin0 & Hid0 & _) Huniq.
  destruct (List.find (fun x => (Customer.id x =? i)%string) (customers (data st)))
    as [c|] eqn:Hfind.
  - rewrite (deleteCustomer_saved env i st c Hconf Hsave Hfind).
    apply find_some in Hfind as [Hin Hid]. apply String.eqb_eq in Hid.
    rewrite (Huniq c Hin Hid). unfold deletesExactly. simpl.
    refine (conj (conj _ (conj _ (conj _ eq_refl)))
              (conj eq_refl (conj eq_refl eq_refl)));
      try (intros x; apply In_filter_flat_ne).
    intros x. rewrite In_filter_flat_ne. split.
    + intros [Hx Hne]. split; [exact Hx|]. intros [Hxi _]. exact (Hne Hxi).
    + intros [Hx Hnot]. split; [exact Hx|]. intros Hxi.
      apply Hnot. split; [exact Hxi|]. exact (Huniq x Hx Hxi).
  - exfalso. apply (find_none _ _ Hfind) in Hin0.
    apply String.eqb_neq in Hin0. contradiction.
Qed.

(** Deleting customer A of two: B and B's records stay, so do expenses. *)
Lemma C6_deleteCustomer_cascade_witness :
  customers (data (deleteCustomer env0 "cust_1" stAB)) = [custB]
  /\ deliveries (data (deleteCustomer env0 "cust_1" stAB)) = [delB]
  /\ payments (data (deleteCustomer env0 "cust_1" stAB)) = [payB]
  /\ expenses (data (deleteCustomer env0 "cust_1" stAB)) = [expRent].
Proof.
  destruct (C6_deleteCustomer_cascade env0 "cust_1" "A" stAB)
    as ((_ & _ & _ & He) & Hc & Hd & Hp).
  - reflexivity.
  - exact savePossible_env0.
  - exists custA. split; [left; reflexivity|]. split; reflexivity.
  - intros c [<-|[<-|[]]] Hid; [reflexivity|discriminate].
  - rewrite Hc, Hd, Hp, He. repeat split; reflexivity.
Defined.

(** Outside that case: were two customers to carry one id, the deletion
    by that id would remove both and cascade on the flat number of the
    first of them only. *)
Lemma deleteCustomer_shared_id :
  customers (data (deleteCustomer env0 "cust_1" stDup)) = []
  /\ In delB (deliveries (data (deleteCustomer env0 "cust_1" stDup)))
  /\ ~ In delA (deliveries (data (deleteCustomer env0 "cust_1" stDup))).
Proof.
  split; [reflexivity|]. split.
  - vm_compute. left. reflexivity.
  - vm_compute. intros [H|[]]. discriminate.
Qed.

Lemma deleteCustomer_declined env i st :
  confirmed env = false -> deleteCustomer env i st = st.
Proof. intros H. unfold deleteCustomer. rewrite H. reflexivity. Qed.

(** Two customers added at the same clock reading get the same id. *)
Lemma shared_id_reachable :
  map Customer.id
    (customers (data (run [(env0, AddCustomer (CustomerForm.mk "A" "Asif" "0300" 30));
                           (env0, AddCustomer (CustomerForm.mk "B" "Bilal" "0301" 30))]
                        initialState)))
  = ["cust_1704067200000"; "cust_1704067200000"].
Proof. reflexivity. Qed.

(** ** Collection rate *)

Lemma collectionRate_zero_zero stats :
  Stats.totalRevenue stats = 0 -> Stats.totalCollected stats = 0 ->
  collectionRate stats = Js.Finite 0.
Proof. intros Hr Hc. unfold collectionRate. rewrite Hr, Hc. reflexivity. Qed.

Lemma collectionRate_nonzero_revenue stats :
  Stats.totalRevenue stats <> 0 ->
  exists q, collectionRate stats = Js.Finite q
            /\ (q == inject_Z (Stats.totalCollected stats)
                     / inject_Z (Stats.totalRevenue stats) * 100)%Q.
Proof.
  intros Hr. unfold collectionRate, Js.div.
  destruct (Stats.totalRevenue stats =? 0) eqn:E; [lia|]. simpl.
  unfold Js.or. simpl.
  set (q := (inject_Z (Stats.totalCollected stats)
             / inject_Z (Stats.totalRevenue stats) * inject_Z 100)%Q).
  destruct (Qeq_bool q 0) eqn:Eq0; simpl.
  - exists 0%Q. split; [reflexivity|].
    apply Qeq_bool_iff in Eq0. symmetry. exact Eq0.
  - exists q. split; reflexivity.
Qed.

(** C7, at the failing input.  After one customer is added and pays an
    advance of 100 before any delivery, totalRevenue is 0 and
    totalCollected is 100, and the collection rate is Infinity: the
    fallback [|| 0] replaces NaN (0/0) only. *)
Theorem C7_collection_rate_zero_revenue :
  Stats.totalRevenue
    (getStats "2024-01-05" ("2023-12-31", "2024-01-06") ("2024-01-01", "2024-01-31")
       (data stAdvance)) = 0
  /\ Stats.totalCollected
       (getStats "2024-01-05" ("2023-12-31", "2024-01-06") ("2024-01-01", "2024-01-31")
          (data stAdvance)) = 100
  /\ collectionRate
       (getStats "2024-01-05" ("2023-12-31", "2024-01-06") ("2024-01-01", "2024-01-31")
          (data stAdvance)) = Js.PosInfinity
  /\ Js.isFinite
       (collectionRate
          (getStats "2024-01-05" ("2023-12-31", "2024-01-06") ("2024-01-01", "2024-01-31")
             (data stAdvance))) = false.
Proof. vm_compute. repeat split; reflexivity. Qed.

(** ** Saving never throws *)

(** C8. For every user id, partial update, current data and browser,
    saveData returns and does not throw, whatever the write to the storage
    does.  When the storage accepts the write it returns the current data
    overwritten by the fields of the update, with the new lastSaved, and
    that is what the storage then holds under the user's key; the fields
    the update does not name are those of the current data.  When the
    write throws it returns the current data itself and the storage is as
    before. *)
Theorem C8_saveData_never_throws (env : Env) (uid : string)
    (updates : Partial.t) (cur : AppData) (b : Browser) :
  (exists d b', Storage.saveData env uid updates cur b = (Js.Returned d, b'))
  /\ (storageFault env = None ->
      exists b',
        Storage.saveData env uid updates cur b
        = (Js.Returned (Storage.merge cur updates (nowIso env)), b')
        /\ localStorage b' !! Storage.key uid
           = Some (Serialized (Storage.merge cur updates (nowIso env))))
  /\ (forall e, storageFault env = Some e ->
      exists b',
        Storage.saveData env uid updates cur b = (Js.Returned cur, b')
        /\ localStorage b' = localStorage b)
  /\ lastSaved (Storage.merge cur updates (nowIso env)) = nowIso env
  /\ (Partial.customers updates = None ->
      customers (Storage.merge cur updates (nowIso env)) = customers cur)
  /\ (Partial.deliveries updates = None ->
      deliveries (Storage.merge cur updates (nowIso env)) = deliveries cur)
  /\ (Partial.payments updates = None ->
      payments (Storage.merge cur updates (nowIso env)) = payments cur)
  /\ (Partial.expenses updates = None ->
      expenses (Storage.merge cur updates (nowIso env)) = expenses cur)
  /\ (forall l, Partial.customers updates = Some l ->
                customers (Storage.merge cur updates (nowIso env)) = l)
  /\ (forall l, Partial.deliveries updates = Some l ->
                deliveries (Storage.merge cur updates (nowIso env)) = l)
  /\ (forall l, Partial.payments updates = Some l ->
                payments (Storage.merge cur updates (nowIso env)) = l)
  /\ (forall l, Partial.expenses updates = Some l ->
                expenses (Storage.merge cur updates (nowIso env)) = l).
Proof.
  assert (Hrun :
    Storage.saveData env uid updates cur b
    = match storageFault env with
      | None =>
          (Js.Returned (Storage.merge cur updates (nowIso env)),
           mkBrowser (<[Storage.key uid :=
                          Serialized (Storage.merge cur updates (nowIso env))]>
                        (localStorage b)) (console b))
      | Some e =>
          (Js.Returned cur,
           mkBrowser (localStorage b) (console b ++ [SaveFailed e])%list)
      end).
  { unfold Storage.saveData, try_catch, bind, setItem, console_log, ret,
      JSON_stringify.
    destruct (storageFault env); reflexivity. }
  split; [rewrite Hrun; destruct (storageFault env); eauto|].
  split.
  { intros Hq. rewrite Hrun, Hq. eexists. split; [reflexivity|].
    simpl. apply lookup_insert_eq. }
  split.
  { intros e Hq. rewrite Hrun, Hq. eexists. split; reflexivity. }
  split; [reflexivity|].
  simpl.
  repeat split; intros; simpl;
    match goal with H : _ = _ |- _ => rewrite H end; reflexivity.
Qed.

(** A payment list saved once with room in the storage and once without. *)
Lemma C8_saveData_witness :
  fst (Storage.saveData env0 "user_1"
         (Partial.mk None None (Some []) None None) (data stA) (browser stA))
  = Js.Returned (mkAppData [custA] [delA] [] [expRent] "2024-01-01T00:00:00.000Z")
  /\ fst (Storage.saveData envFull "user_1"
            (Partial.mk None None (Some []) None None) (data stA) (browser stA))
     = Js.Returned (data stA).
Proof.
  split.
  - destruct (proj1 (proj2 (C8_saveData_never_throws env0 "user_1"
                              (Partial.mk None None (Some []) None None)
                              (data stA) (browser stA))) eq_refl)
      as (b' & E & _).
    rewrite E. reflexivity.
  - destruct (proj1 (proj2 (proj2 (C8_saveData_never_throws envFull "user_1"
                              (Partial.mk None None (Some []) None None)
                              (data stA) (browser stA))))
                Js.QuotaExceededError eq_refl)
      as (b' & E & _).
    rewrite E. reflexivity.
Defined.

(** ** Records for a flat nobody has *)

Lemma find_flat_none (flat : string) (cs : list Customer.t) :
  (forall c, In c cs -> Customer.flatNumber c <> flat) ->
  List.find (fun c => (Customer.flatNumber c =? flat)%string) cs = None.
Proof.
  intros H. destruct (List.find _ cs) as [c|] eqn:E; [|reflexivity].
  apply find_some in E as [Hin Heq]. apply String.eqb_eq in Heq.
  exfalso. exact (H c Hin Heq).
Qed.

Lemma truthy_nonempty (s : string) : s <> "" -> Js.truthy s = true.
Proof.
  intros H. unfold Js.truthy. apply negb_true_iff. apply String.eqb_neq. exact H.
Qed.

(** C9. When the flat number of the form matches no customer, addDelivery
    and addPayment leave the data and the browser as they are, whatever
    the other fields.  With the required fields filled in they return the
    state itself, so no alert is shown either; the only alert such a call
    can show is the one for a missing required field, which is shown
    before the customer is looked up. *)
Theorem C9_unknown_flat_is_silent (env : Env) (st : State) :
  (forall form : DeliveryForm.t,
     (forall c, In c (customers (data st)) ->
                Customer.flatNumber c <> DeliveryForm.flatNumber form) ->
     data (addDelivery env form st) = data st
     /\ browser (addDelivery env form st) = browser st
     /\ (DeliveryForm.date form <> "" -> DeliveryForm.flatNumber form <> "" ->
         DeliveryForm.delivered form <> 0 ->
         addDelivery env form st = st)
     /\ (alerts (addDelivery env form st) = alerts st
         \/ alerts (addDelivery env form st)
            = (alerts st ++ [PleaseFillRequiredFields])%list))
  /\ (forall form : PaymentForm.t,
        (forall c, In c (customers (data st)) ->
                   Customer.flatNumber c <> PaymentForm.flatNumber form) ->
        data (addPayment env form st) = data st
        /\ browser (addPayment env form st) = browser st
        /\ (PaymentForm.date form <> "" -> PaymentForm.flatNumber form <> "" ->
            PaymentForm.amountReceived form <> 0 ->
            addPayment env form st = st)
        /\ (alerts (addPayment env form st) = alerts st
            \/ alerts (addPayment env form st)
               = (alerts st ++ [PleaseFillRequiredFields])%list)).
Proof.
  split.
  - intros form Hnone. unfold addDelivery.
    rewrite (find_flat_none _ _ Hnone).
    split; [|split; [|split]].
    + destruct (_ || _); reflexivity.
    + destruct (_ || _); reflexivity.
    + intros Hd Hf Hn.
      rewrite (truthy_nonempty _ Hd), (truthy_nonempty _ Hf). simpl.
      destruct (DeliveryForm.delivered form =? 0) eqn:E; [lia|reflexivity].
    + destruct (_ || _); [right|left]; reflexivity.
  - intros form Hnone. unfold addPayment.
    rewrite (find_flat_none _ _ Hnone).
    split; [|split; [|split]].
    + destruct (_ || _); reflexivity.
    + destruct (_ || _); reflexivity.
    + intros Hd Hf Hn.
      rewrite (truthy_nonempty _ Hd), (truthy_nonempty _ Hf). simpl.
      destruct (PaymentForm.amountReceived form =? 0) eqn:E; [lia|reflexivity].
    + destruct (_ || _); [right|left]; reflexivity.
Qed.

(** A delivery and a payment for flat "Z", which no customer has. *)
Lemma C9_unknown_flat_witness :
  addDelivery env0 (formDel "Z" 2) stA = stA
  /\ addPayment env0 (formPay "Z" 100) stA = stA.
Proof.
  split.
  - apply (proj1 (C9_unknown_flat_is_silent env0 stA) (formDel "Z" 2)).
    + intros c [<-|[]]. discriminate.
    + discriminate.
    + discriminate.
    + discriminate.
  - apply (proj2 (C9_unknown_flat_is_silent env0 stA) (formPay "Z" 100)).
    + intros c [<-|[]]. discriminate.
    + discriminate.
    + discriminate.
    + discriminate.
Defined.

(** The missing-field case, for contrast: the alert is shown. *)
Lemma addDelivery_missing_field env form st :
  DeliveryForm.date form = "" \/ DeliveryForm.flatNumber form = ""
  \/ DeliveryForm.delivered form = 0 ->
  addDelivery env form st = alert PleaseFillRequiredFields st.
Proof.
  intros H. unfold addDelivery.
  destruct H as [H|[H|H]]; rewrite H; simpl;
    rewrite ?orb_true_r; reflexivity.
Qed.

Lemma addPayment_missing_field env form st :
  PaymentForm.date form = "" \/ PaymentForm.flatNumber form = ""
  \/ PaymentForm.amountReceived form = 0 ->
  addPayment env form st = alert PleaseFillRequiredFields st.
Proof.
  intros H. unfold addPayment.
  destruct H as [H|[H|H]]; rewrite H; simpl;
    rewrite ?orb_true_r; reflexivity.
Qed.

(** When the customer exists, the fields are filled in and the save goes
    through, [addPayment] does create the payment. *)
Lemma addPayment_creates env form st c :
  PaymentForm.date form <> "" -> PaymentForm.flatNumber form <> "" ->
  PaymentForm.amountReceived form <> 0 ->
  List.find (fun c => (Customer.flatNumber c =? PaymentForm.flatNumber form)%string)
    (customers (data st)) = Some c ->
  savePossible env ->
  createdByAddPayment env form st (newPayment env form c (data st)).
Proof.
  intros Hd Hf Hn Hc Hs. unfold createdByAddPayment, addPayment.
  rewrite (truthy_nonempty _ Hd), (truthy_nonempty _ Hf). simpl.
  destruct (PaymentForm.amountReceived form =? 0) eqn:E; [lia|].
  rewrite Hc, alert_data, saveAndReload_saved by exact Hs. reflexivity.
Qed.

(** ** Flat numbers are matched exactly *)

Lemma filter_eq_after_ne {A : Type} (flat : A -> string) (f g : string) (l : list A) :
  f <> g ->
  List.filter (fun x => (flat x =? f)%string)
    (List.filter (fun x => negb (flat x =? g)%string) l)
  = List.filter (fun x => (flat x =? f)%string) l.
Proof.
  intros Hne. induction l as [|x l IH]; simpl; [reflexivity|].
  destruct (flat x =? g)%string eqn:Eg; simpl.
  - apply String.eqb_eq in Eg.
    destruct (flat x =? f)%string eqn:Ef; [|exact IH].
    apply String.eqb_eq in Ef. congruence.
  - rewrite IH. reflexivity.
Qed.

Lemma filter_eq_app_other {A : Type} (flat : A -> string) (f g : string)
    (l extra : list A) :
  f <> g -> Forall (fun x => flat x = g) extra ->
  List.filter (fun x => (flat x =? f)%string) (l ++ extra)
  = List.filter (fun x => (flat x =? f)%string) l.
Proof.
  intros Hne Hall. rewrite List.filter_app.
  rewrite (filter_none _ extra); [apply app_nil_r|].
  intros x Hx E. apply String.eqb_eq in E.
  rewrite List.Forall_forall in Hall. specialize (Hall x Hx). congruence.
Qed.

Lemma outstanding_ignores_other_flat f g ds ps :
  f <> g ->
  Calculator.getCustomerOutstanding f ds ps
  = Calculator.getCustomerOutstanding f
      (List.filter (fun d => negb (Delivery.flatNumber d =? g)%string) ds)
      (List.filter (fun p => negb (Payment.flatNumber p =? g)%string) ps).
Proof.
  intros Hne. unfold Calculator.getCustomerOutstanding.
  rewrite (filter_eq_after_ne Delivery.flatNumber f g ds Hne).
  rewrite (filter_eq_after_ne Payment.flatNumber f g ps Hne).
  reflexivity.
Qed.

(** C10. Let f and g be flat numbers that differ only by letter case.
    The deliveries and payments recorded under g do not enter the balance
    computed for f, nor the overdue entry of a customer of flat f: both are
    the same with and without them.  addCustomer, which compares in lower
    case, refuses g while a customer of flat f exists. *)
Theorem C10_flat_match_is_case_sensitive (f g : string) :
  Js.toLowerCase f = Js.toLowerCase g ->
  f <> g ->
  (forall ds ps,
     Calculator.getCustomerOutstanding f ds ps
     = Calculator.getCustomerOutstanding f
         (List.filter (fun d => negb (Delivery.flatNumber d =? g)%string) ds)
         (List.filter (fun p => negb (Payment.flatNumber p =? g)%string) ps))
  /\ (forall ds ps ds' ps',
        Forall (fun d => Delivery.flatNumber d = g) ds' ->
        Forall (fun p => Payment.flatNumber p = g) ps' ->
        Calculator.getCustomerOutstanding f (ds ++ ds') (ps ++ ps')
        = Calculator.getCustomerOutstanding f ds ps)
  /\ (forall Date_parse today ds ps c,
        Customer.flatNumber c = f ->
        Calculator.dueOf Date_parse today ds ps c
        = Calculator.dueOf Date_parse today
            (List.filter (fun d => negb (Delivery.flatNumber d =? g)%string) ds)
            (List.filter (fun p => negb (Payment.flatNumber p =? g)%string) ps) c)
  /\ (forall env form st c,
        In c (customers (data st)) ->
        Customer.flatNumber c = f ->
        CustomerForm.flatNumber form = g ->
        g <> "" -> CustomerForm.name form <> "" ->
        addCustomer env form st = alert FlatNumberExists st).
Proof.
  intros Hlow Hne. split; [|split; [|split]].
  - intros ds ps. apply outstanding_ignores_other_flat. exact Hne.
  - intros ds ps ds' ps' Hd Hp. unfold Calculator.getCustomerOutstanding.
    rewrite (filter_eq_app_other Delivery.flatNumber f g ds ds' Hne Hd).
    rewrite (filter_eq_app_other Payment.flatNumber f g ps ps' Hne Hp).
    reflexivity.
  - intros Date_parse today ds ps c Hc. unfold Calculator.dueOf.
    rewrite Hc.
    rewrite <- (outstanding_ignores_other_flat f g ds ps Hne).
    rewrite (filter_eq_after_ne Delivery.flatNumber f g ds Hne).
    rewrite (filter_eq_after_ne Payment.flatNumber f g ps Hne).
    reflexivity.
  - intros env form st c Hin Hc Hg Hgne Hname. unfold addCustomer.
    rewrite Hg, (truthy_nonempty _ Hgne), (truthy_nonempty _ Hname). simpl.
    destruct (List.find _ (customers (data st))) as [c'|] eqn:E; [reflexivity|].
    exfalso. apply (find_none _ _ E) in Hin. simpl in Hin.
    rewrite Hc, Hlow in Hin. rewrite String.eqb_refl in Hin. discriminate.
Qed.

(** Flats "A" and "a": records under "a" leave the balance of "A" at 200,
    and a customer "a" cannot be added next to "A". *)
Lemma C10_flat_match_witness :
  Calculator.getCustomerOutstanding "A"
    ([delA] ++ [Delivery.mk "del_9" "2024-01-02" "a" "Asif" 1 0 "" 30 ""])
    ([payA] ++ [])
  = 200
  /\ addCustomer env0 (CustomerForm.mk "a" "Asim" "" 30) stA
     = alert FlatNumberExists stA.
Proof.
  assert (Hlow : Js.toLowerCase "A" = Js.toLowerCase "a") by reflexivity.
  assert (Hne : "A" <> "a") by discriminate.
  split.
  - rewrite (proj1 (proj2 (C10_flat_match_is_case_sensitive "A" "a" Hlow Hne))).
    + reflexivity.
    + repeat constructor.
    + constructor.
  - apply (proj2 (proj2 (proj2 (C10_flat_match_is_case_sensitive "A" "a" Hlow Hne)))
             env0 (CustomerForm.mk "a" "Asim" "" 30) stA custA).
    + left. reflexivity.
    + reflexivity.
    + reflexivity.
    + discriminate.
    + discriminate.
Defined.

(** * Further properties of the page *)

(** ** What each handler does to the data *)

Lemma truthy_iff (s : string) : Js.truthy s = true <-> s <> "".
Proof.
  unfold Js.truthy. rewrite negb_true_iff. split.
  - intros H. apply String.eqb_neq. exact H.
  - intros H. apply String.eqb_neq. exact H.
Qed.

Lemma truthy_false_iff (s : string) : Js.truthy s = false <-> s = "".
Proof.
  unfold Js.truthy. rewrite negb_false_iff. apply String.eqb_eq.
Qed.

(** The data after [saveAndReload]: as before, or the merge. *)
Lemma saveAndReload_not_saved env u st :
  ~ savePossible env -> data (saveAndReload env u st) = data st.
Proof.
  intros Hno. destruct (saveAndReload_data env u st) as [E|[Hs _]];
    [exact E|contradiction].
Qed.

Lemma saveAndReload_browser_fault env u st uid e :
  userId env = Some uid -> Js.truthy uid = true -> storageFault env = Some e ->
  saveAndReload env u st
  = mkState (data st)
      (mkBrowser (localStorage (browser st)) (console (browser st) ++ [SaveFailed e]))
      (alerts st).
Proof.
  intros Hu Ht Hf. unfold saveAndReload. rewrite Hu, Ht.
  unfold Storage.saveData, try_catch, bind, setItem, console_log, ret.
  rewrite Hf. reflexivity.
Qed.

Lemma addCustomer_cases env form st :
  (addCustomer env form st = alert PleaseFillRequiredFields st
   /\ ~ customerFormFilled form)
  \/ (addCustomer env form st = alert FlatNumberExists st
      /\ customerFormFilled form
      /\ exists c, In c (customers (data st))
                   /\ Js.toLowerCase (Customer.flatNumber c)
                      = Js.toLowerCase (CustomerForm.flatNumber form))
  \/ (addCustomer env form st
      = alert CustomerAdded
          (saveAndReload env
             (Partial.mk (Some (customers (data st) ++ [customerOf env form])%list)
                None None None None) st)
      /\ customerFormFilled form
      /\ forall c, In c (customers (data st)) ->
                   Js.toLowerCase (Customer.flatNumber c)
                   <> Js.toLowerCase (CustomerForm.flatNumber form)).
Proof.
  unfold addCustomer, customerFormFilled.
  destruct (Js.truthy (CustomerForm.flatNumber form)) eqn:Hf; simpl.
  2: { left. split; [reflexivity|]. apply truthy_false_iff in Hf. tauto. }
  destruct (Js.truthy (CustomerForm.name form)) eqn:Hn; simpl.
  2: { left. split; [reflexivity|]. apply truthy_false_iff in Hn. tauto. }
  apply truthy_iff in Hf, Hn. right.
  destruct (List.find _ (customers (data st))) as [c|] eqn:E.
  - left. split; [reflexivity|]. split; [tauto|].
    apply find_some in E as [Hin Heq]. apply String.eqb_eq in Heq. eauto.
  - right. split; [reflexivity|]. split; [tauto|].
    intros c Hin. apply (find_none _ _ E) in Hin. apply String.eqb_neq in Hin.
    exact Hin.
Qed.

Lemma addDelivery_cases env form st :
  (addDelivery env form st = alert PleaseFillRequiredFields st
   /\ ~ deliveryFormFilled form)
  \/ (addDelivery env form st = st
      /\ deliveryFormFilled form
      /\ forall c, In c (customers (data st)) ->
                   Customer.flatNumber c <> DeliveryForm.flatNumber form)
  \/ (exists c,
        List.find (fun c => (Customer.flatNumber c =? DeliveryForm.flatNumber form)%string)
          (customers (data st)) = Some c
        /\ deliveryFormFilled form
        /\ addDelivery env form st
           = alert DeliveryRecorded
               (saveAndReload env
                  (Partial.mk None
                     (Some (deliveries (data st) ++ [deliveryOf env form c])%list)
                     None None None) st)).
Proof.
  unfold addDelivery, deliveryFormFilled.
  destruct (Js.truthy (DeliveryForm.date form)) eqn:Hd; simpl.
  2: { left. split; [reflexivity|]. apply truthy_false_iff in Hd. tauto. }
  destruct (Js.truthy (DeliveryForm.flatNumber form)) eqn:Hf; simpl.
  2: { left. split; [reflexivity|]. apply truthy_false_iff in Hf. tauto. }
  destruct (DeliveryForm.delivered form =? 0) eqn:Hn.
  { left. split; [reflexivity|]. apply Z.eqb_eq in Hn. tauto. }
  apply truthy_iff in Hd, Hf. apply Z.eqb_neq in Hn. right.
  destruct (List.find _ (customers (data st))) as [c|] eqn:E.
  - right. exists c. repeat split; assumption.
  - left. split; [reflexivity|]. split; [tauto|].
    intros c Hin. apply (find_none _ _ E) in Hin. apply String.eqb_neq in Hin.
    exact Hin.
Qed.

Lemma addPayment_cases env form st :
  (addPayment env form st = alert PleaseFillRequiredFields st
   /\ ~ paymentFormFilled form)
  \/ (addPayment env form st = st
      /\ paymentFormFilled form
      /\ forall c, In c (customers (data st)) ->
                   Customer.flatNumber c <> PaymentForm.flatNumber form)
  \/ (exists c,
        List.find (fun c => (Customer.flatNumber c =? PaymentForm.flatNumber form)%string)
          (customers (data st)) = Some c
        /\ paymentFormFilled form
        /\ addPayment env form st
           = alert PaymentRecorded
               (saveAndReload env
                  (Partial.mk None None
                     (Some (payments (data st) ++ [newPayment env form c (data st)])%list)
                     None None) st)).
Proof.
  unfold addPayment, paymentFormFilled.
  destruct (Js.truthy (PaymentForm.date form)) eqn:Hd; simpl.
  2: { left. split; [reflexivity|]. apply truthy_false_iff in Hd. tauto. }
  destruct (Js.truthy (PaymentForm.flatNumber form)) eqn:Hf; simpl.
  2: { left. split; [reflexivity|]. apply truthy_false_iff in Hf. tauto. }
  destruct (PaymentForm.amountReceived form =? 0) eqn:Hn.
  { left. split; [reflexivity|]. apply Z.eqb_eq in Hn. tauto. }
  apply truthy_iff in Hd, Hf. apply Z.eqb_neq in Hn. right.
  destruct (List.find _ (customers (data st))) as [c|] eqn:E.
  - right. exists c. repeat split; assumption.
  - left. split; [reflexivity|]. split; [tauto|].
    intros c Hin. apply (find_none _ _ E) in Hin. apply String.eqb_neq in Hin.
    exact Hin.
Qed.

Lemma addExpense_cases env form st :
  (addExpense env form st = alert PleaseFillRequiredFields st
   /\ ~ expenseFormFilled form)
  \/ (expenseFormFilled form
      /\ addExpense env form st
         = alert ExpenseRecorded
             (saveAndReload env
                (Partial.mk None None None
                   (Some (expenses (data st) ++ [expenseOf env form])%list) None) st)).
Proof.
  unfold addExpense, expenseFormFilled.
  destruct (Js.truthy (ExpenseForm.date form)) eqn:Hd; simpl.
  2: { left. split; [reflexivity|]. apply truthy_false_iff in Hd. tauto. }
  destruct (Js.truthy (ExpenseForm.description form)) eqn:Hf; simpl.
  2: { left. split; [reflexivity|]. apply truthy_false_iff in Hf. tauto. }
  destruct (ExpenseForm.amount form =? 0) eqn:Hn.
  { left. split; [reflexivity|]. apply Z.eqb_eq in Hn. tauto. }
  apply truthy_iff in Hd, Hf. apply Z.eqb_neq in Hn. right.
  repeat split; assumption.
Qed.

Lemma merge_customers d u now :
  customers (Storage.merge d u now) = default (customers d) (Partial.customers u).
Proof. reflexivity. Qed.

(** The customers after any action. *)
Lemma step_customers env a st :
  customers (data (step env a st)) = customers (data st)
  \/ (exists i, a = DeleteCustomer i
                /\ customers (data (step env a st))
                   = List.filter (fun x => negb (Customer.id x =? i)%string)
                       (customers (data st)))
  \/ (exists form,
        a = AddCustomer form
        /\ customerFormFilled form
        /\ (forall c, In c (customers (data st)) ->
                      Js.toLowerCase (Customer.flatNumber c)
                      <> Js.toLowerCase (CustomerForm.flatNumber form))
        /\ customers (data (step env a st))
           = (customers (data st) ++ [customerOf env form])%list).
Proof.
  assert (Hnone : forall u al,
    Partial.customers u = None ->
    customers (data (alert al (saveAndReload env u st))) = customers (data st)).
  { intros u al Hu. rewrite alert_data.
    destruct (saveAndReload_data env u st) as [E|[_ E]]; rewrite E; [reflexivity|].
    rewrite merge_customers, Hu. reflexivity. }
  destruct a as [f|i|f|i|f|i|f|i]; simpl.
  - destruct (addCustomer_cases env f st) as [[E _]|[[E _]|(E & Hf & Hnew)]];
      rewrite E; [left; reflexivity|left; reflexivity|].
    rewrite alert_data.
    destruct (saveAndReload_data env
                (Partial.mk (Some (customers (data st) ++ [customerOf env f])%list)
                   None None None None) st) as [E'|[_ E']]; rewrite E'.
    + left. reflexivity.
    + right. right. exists f. repeat split; try assumption; apply Hf.
  - unfold deleteCustomer. destruct (negb (confirmed env)); [left; reflexivity|].
    destruct (List.find _ _) as [c|]; [|left; reflexivity].
    match goal with |- context [saveAndReload env ?u st] =>
      destruct (saveAndReload_data env u st) as [E|[_ E]]; rewrite E end.
    + left. reflexivity.
    + right. left. exists i. split; reflexivity.
  - left. destruct (addDelivery_cases env f st)
      as [[E _]|[[E _]|(c & _ & _ & E)]]; rewrite E; try reflexivity.
    apply Hnone. reflexivity.
  - left. unfold deleteDelivery. destruct (confirmed env); [|reflexivity].
    match goal with |- context [saveAndReload env ?u st] =>
      exact (Hnone u CustomerAdded eq_refl) end.
  - left. destruct (addPayment_cases env f st)
      as [[E _]|[[E _]|(c & _ & _ & E)]]; rewrite E; try reflexivity.
    apply Hnone. reflexivity.
  - left. unfold deletePayment. destruct (confirmed env); [|reflexivity].
    match goal with |- context [saveAndReload env ?u st] =>
      exact (Hnone u CustomerAdded eq_refl) end.
  - left. destruct (addExpense_cases env f st) as [[E _]|[_ E]]; rewrite E;
      try reflexivity.
    apply Hnone. reflexivity.
  - left. unfold deleteExpense. destruct (confirmed env); [|reflexivity].
    match goal with |- context [saveAndReload env ?u st] =>
      exact (Hnone u CustomerAdded eq_refl) end.
Qed.

Lemma NoDup_map_filter {A B : Type} (f : A -> B) (p : A -> bool) (l : list A) :
  List.NoDup (map f l) -> List.NoDup (map f (List.filter p l)).
Proof.
  induction l as [|x l IH]; simpl; intros H; [constructor|].
  apply List.NoDup_cons_iff in H as [Hx Hl].
  destruct (p x); simpl; [|auto].
  apply List.NoDup_cons_iff. split; [|auto].
  intros Hin. apply Hx. apply in_map_iff in Hin as (y & Hy & Hin).
  apply filter_In in Hin as [Hin _]. apply in_map_iff. eauto.
Qed.

Lemma NoDup_map_snoc {A B : Type} (f : A -> B) (l : list A) (x : A) :
  List.NoDup (map f l) -> (forall y, In y l -> f y <> f x) ->
  List.NoDup (map f (l ++ [x])).
Proof.
  induction l as [|y l IH]; simpl; intros H Hx.
  - constructor; [simpl; tauto|constructor].
  - apply List.NoDup_cons_iff in H as [Hy Hl].
    apply List.NoDup_cons_iff. split.
    + rewrite map_app, in_app_iff. simpl. intros [Hin|[Heq|[]]]; [tauto|].
      apply (Hx y); [left; reflexivity|]. congruence.
    + apply IH; [exact Hl|]. intros z Hz. apply Hx. right. exact Hz.
Qed.

Lemma step_flatsDistinct env a st :
  flatsDistinct (customers (data st)) ->
  flatsDistinct (customers (data (step env a st))).
Proof.
  unfold flatsDistinct. intros H.
  destruct (step_customers env a st)
    as [E|[(i & _ & E)|(form & _ & _ & Hnew & E)]]; rewrite E.
  - exact H.
  - apply NoDup_map_filter. exact H.
  - apply NoDup_map_snoc; [exact H|]. intros y Hy. simpl. apply Hnew. exact Hy.
Qed.

(** X1. Flat numbers stay unique up to letter case: when no two customers
    have flat numbers equal up to case, the same holds after any sequence
    of actions, in whatever environments they run; and in such a state two
    customers whose flat numbers are equal up to case are the same
    record. *)
Theorem flat_numbers_stay_unique (acts : list (Env * Action)) (st : State) :
  flatsDistinct (customers (data st)) ->
  flatsDistinct (customers (data (run acts st)))
  /\ forall c1 c2,
       In c1 (customers (data (run acts st))) ->
       In c2 (customers (data (run acts st))) ->
       Js.toLowerCase (Customer.flatNumber c1) = Js.toLowerCase (Customer.flatNumber c2) ->
       c1 = c2.
Proof.
  intros H.
  assert (Hrun : flatsDistinct (customers (data (run acts st)))).
  { revert st H. induction acts as [|[env a] acts IH]; intros st H; simpl;
      [exact H|].
    apply IH. apply step_flatsDistinct. exact H. }
  split; [exact Hrun|].
  unfold flatsDistinct in Hrun.
  generalize dependent (customers (data (run acts st))).
  intros cs. induction cs as [|c cs IH]; simpl; intros Hnd c1 c2 H1 H2 Heq;
    [contradiction|].
  apply List.NoDup_cons_iff in Hnd as [Hc Hnd].
  destruct H1 as [<-|H1], H2 as [<-|H2].
  - reflexivity.
  - exfalso. apply Hc. rewrite Heq. apply in_map_iff. eauto.
  - exfalso. apply Hc. rewrite <- Heq. apply in_map_iff. eauto.
  - apply IH; assumption.
Qed.

(** From the empty ledger: "a1" is refused after "A1", "B2" is accepted. *)
Lemma flat_numbers_stay_unique_witness :
  map Customer.flatNumber
    (customers (data (run [(env0, AddCustomer (CustomerForm.mk "A1" "Asif" "" 30));
                           (env0, AddCustomer (CustomerForm.mk "a1" "Asim" "" 30));
                           (env0, AddCustomer (CustomerForm.mk "B2" "Bilal" "" 30))]
                        initialState)))
  = ["A1"; "B2"]
  /\ flatsDistinct
       (customers (data (run [(env0, AddCustomer (CustomerForm.mk "A1" "Asif" "" 30));
                              (env0, AddCustomer (CustomerForm.mk "a1" "Asim" "" 30));
                              (env0, AddCustomer (CustomerForm.mk "B2" "Bilal" "" 30))]
                           initialState))).
Proof.
  split; [reflexivity|].
  apply (flat_numbers_stay_unique
           [(env0, AddCustomer (CustomerForm.mk "A1" "Asif" "" 30));
            (env0, AddCustomer (CustomerForm.mk "a1" "Asim" "" 30));
            (env0, AddCustomer (CustomerForm.mk "B2" "Bilal" "" 30))] initialState).
  constructor.
Defined.

(** X2. A handler that cannot save still reports success.  When no user is
    signed in or the storage rejects the write, addCustomer, addDelivery,
    addPayment and addExpense called with valid input leave the data as it
    was and show their success alert all the same. *)
Theorem success_alert_without_save (env : Env) (st : State) :
  ~ savePossible env ->
  (forall form,
     customerFormFilled form ->
     (forall c, In c (customers (data st)) ->
                Js.toLowerCase (Customer.flatNumber c)
                <> Js.toLowerCase (CustomerForm.flatNumber form)) ->
     data (addCustomer env form st) = data st
     /\ alerts (addCustomer env form st) = (alerts st ++ [CustomerAdded])%list)
  /\ (forall form c,
        deliveryFormFilled form ->
        In c (customers (data st)) ->
        Customer.flatNumber c = DeliveryForm.flatNumber form ->
        data (addDelivery env form st) = data st
        /\ alerts (addDelivery env form st) = (alerts st ++ [DeliveryRecorded])%list)
  /\ (forall form c,
        paymentFormFilled form ->
        In c (customers (data st)) ->
        Customer.flatNumber c = PaymentForm.flatNumber form ->
        data (addPayment env form st) = data st
        /\ alerts (addPayment env form st) = (alerts st ++ [PaymentRecorded])%list)
  /\ (forall form,
        expenseFormFilled form ->
        data (addExpense env form st) = data st
        /\ alerts (addExpense env form st) = (alerts st ++ [ExpenseRecorded])%list).
Proof.
  intros Hno.
  assert (Hout : forall u al,
    data (alert al (saveAndReload env u st)) = data st
    /\ alerts (alert al (saveAndReload env u st)) = (alerts st ++ [al])%list).
  { intros u al. split.
    - rewrite alert_data. apply saveAndReload_not_saved. exact Hno.
    - simpl. rewrite saveAndReload_alerts. reflexivity. }
  split; [|split; [|split]].
  - intros form Hf Hnew.
    destruct (addCustomer_cases env form st)
      as [[_ N]|[(_ & _ & c & Hc & Heq)|(E & _ & _)]].
    + contradiction.
    + exfalso. exact (Hnew c Hc Heq).
    + rewrite E. apply Hout.
  - intros form c Hf Hc Heq.
    destruct (addDelivery_cases env form st)
      as [[_ N]|[(_ & _ & Hnone)|(c' & _ & _ & E)]].
    + contradiction.
    + exfalso. exact (Hnone c Hc Heq).
    + rewrite E. apply Hout.
  - intros form c Hf Hc Heq.
    destruct (addPayment_cases env form st)
      as [[_ N]|[(_ & _ & Hnone)|(c' & _ & _ & E)]].
    + contradiction.
    + exfalso. exact (Hnone c Hc Heq).
    + rewrite E. apply Hout.
  - intros form Hf.
    destruct (addExpense_cases env form st) as [[_ N]|[_ E]].
    + contradiction.
    + rewrite E. apply Hout.
Qed.

Lemma not_savePossible_envFull : ~ savePossible envFull.
Proof. intros (uid & _ & _ & H). discriminate. Qed.

(** With the storage full, a payment of 100 for flat "A" is announced as
    recorded and is not in the data. *)
Lemma success_alert_without_save_witness :
  data (addPayment envFull (formPay "A" 100) stA) = data stA
  /\ alerts (addPayment envFull (formPay "A" 100) stA) = [PaymentRecorded].
Proof.
  apply (proj1 (proj2 (proj2 (success_alert_without_save envFull stA
                                not_savePossible_envFull)))
           (formPay "A" 100) custA).
  - repeat split; discriminate.
  - left. reflexivity.
  - reflexivity.
Defined.

(** ** The transitions of the data *)

(** After an action the data is as before, or it is the merge of the one
    update the action saves; and when the action has an update and the
    save is possible, the data is that merge. *)
Lemma step_data env a st :
  data (step env a st) = data st
  \/ exists u, Saves env st a u
               /\ savePossible env
               /\ data (step env a st) = Storage.merge (data st) u (nowIso env).
Proof.
  assert (Hsave : forall u al,
    Saves env st a u ->
    data (alert al (saveAndReload env u st)) = data st
    \/ exists u', Saves env st a u'
                  /\ savePossible env
                  /\ data (alert al (saveAndReload env u st))
                     = Storage.merge (data st) u' (nowIso env)).
  { intros u al Hu. rewrite alert_data.
    destruct (saveAndReload_data env u st) as [E|[Hs E]]; rewrite E;
      [left; reflexivity|right; eauto]. }
  destruct a as [f|i|f|i|f|i|f|i]; simpl.
  - destruct (addCustomer_cases env f st) as [[E _]|[[E _]|(E & Hf & Hnew)]];
      rewrite E; [left; reflexivity|left; reflexivity|].
    apply Hsave. constructor; assumption.
  - unfold deleteCustomer. destruct (confirmed env) eqn:Hc; simpl;
      [|left; reflexivity].
    destruct (List.find _ _) as [c|] eqn:Hf; [|left; reflexivity].
    match goal with |- context [saveAndReload env ?u st] =>
      exact (Hsave u CustomerAdded (saves_deleteCustomer env st i c Hc Hf)) end.
  - destruct (addDelivery_cases env f st)
      as [[E _]|[[E _]|(c & Hc & Hf & E)]]; rewrite E;
      [left; reflexivity|left; reflexivity|].
    apply Hsave. constructor; assumption.
  - unfold deleteDelivery. destruct (confirmed env) eqn:Hc; [|left; reflexivity].
    match goal with |- context [saveAndReload env ?u st] =>
      exact (Hsave u CustomerAdded (saves_deleteDelivery env st i Hc)) end.
  - destruct (addPayment_cases env f st)
      as [[E _]|[[E _]|(c & Hc & Hf & E)]]; rewrite E;
      [left; reflexivity|left; reflexivity|].
    apply Hsave. constructor; assumption.
  - unfold deletePayment. destruct (confirmed env) eqn:Hc; [|left; reflexivity].
    match goal with |- context [saveAndReload env ?u st] =>
      exact (Hsave u CustomerAdded (saves_deletePayment env st i Hc)) end.
  - destruct (addExpense_cases env f st) as [[E _]|[Hf E]]; rewrite E;
      [left; reflexivity|].
    apply Hsave. constructor; assumption.
  - unfold deleteExpense. destruct (confirmed env) eqn:Hc; [|left; reflexivity].
    match goal with |- context [saveAndReload env ?u st] =>
      exact (Hsave u CustomerAdded (saves_deleteExpense env st i Hc)) end.
Qed.

Lemma step_saved env a st u :
  Saves env st a u -> savePossible env ->
  data (step env a st) = Storage.merge (data st) u (nowIso env).
Proof.
  intros Hu Hs. destruct Hu; simpl.
  - destruct (addCustomer_cases env form st)
      as [[_ N]|[(_ & _ & c & Hc & Heq)|(E & _ & _)]].
    + contradiction.
    + exfalso. eapply H0; eauto.
    + rewrite E, alert_data. apply saveAndReload_saved. exact Hs.
  - unfold deleteCustomer. rewrite H, H0. simpl.
    apply saveAndReload_saved. exact Hs.
  - destruct (addDelivery_cases env form st)
      as [[_ N]|[(_ & _ & Hnone)|(c' & Hc' & _ & E)]].
    + contradiction.
    + exfalso. apply find_some in H0 as [Hin Heq]. apply String.eqb_eq in Heq.
      exact (Hnone c Hin Heq).
    + rewrite H0 in Hc'. injection Hc' as <-.
      rewrite E, alert_data. apply saveAndReload_saved. exact Hs.
  - unfold deleteDelivery. rewrite H. apply saveAndReload_saved. exact Hs.
  - destruct (addPayment_cases env form st)
      as [[_ N]|[(_ & _ & Hnone)|(c' & Hc' & _ & E)]].
    + contradiction.
    + exfalso. apply find_some in H0 as [Hin Heq]. apply String.eqb_eq in Heq.
      exact (Hnone c Hin Heq).
    + rewrite H0 in Hc'. injection Hc' as <-.
      rewrite E, alert_data. apply saveAndReload_saved. exact Hs.
  - unfold deletePayment. rewrite H. apply saveAndReload_saved. exact Hs.
  - destruct (addExpense_cases env form st) as [[_ N]|[_ E]].
    + contradiction.
    + rewrite E, alert_data. apply saveAndReload_saved. exact Hs.
  - unfold deleteExpense. rewrite H. apply saveAndReload_saved. exact Hs.
Qed.

(** ** Sums over appended and pruned collections *)

Lemma find_flat_some (flat : string) (cs : list Customer.t) (c : Customer.t) :
  List.find (fun c => (Customer.flatNumber c =? flat)%string) cs = Some c ->
  In c cs /\ Customer.flatNumber c = flat.
Proof.
  intros H. apply find_some in H as [Hin Heq]. apply String.eqb_eq in Heq. auto.
Qed.

(** ** How recording changes the balances *)

Lemma outstanding_billed_paid f ds ps :
  Calculator.getCustomerOutstanding f ds ps = totalBilled f ds - totalPaid f ps.
Proof. reflexivity. Qed.

(** A record appended under a flat number adds its amount to the sum of
    that flat number and leaves the records of any other as they were. *)
Lemma sum_snoc_same {A : Type} (w : A -> Z) (flat : A -> string) (f : string)
    (l : list A) (x : A) :
  flat x = f ->
  fold_left (fun sum y => sum + w y)
    (List.filter (fun y => (flat y =? f)%string) (l ++ [x])) 0
  = fold_left (fun sum y => sum + w y)
      (List.filter (fun y => (flat y =? f)%string) l) 0 + w x.
Proof.
  intros <-. rewrite List.filter_app. simpl. rewrite String.eqb_refl.
  rewrite fold_left_app. reflexivity.
Qed.

Lemma filter_snoc_other {A : Type} (flat : A -> string) (f : string)
    (l : list A) (x : A) :
  flat x <> f ->
  List.filter (fun y => (flat y =? f)%string) (l ++ [x])
  = List.filter (fun y => (flat y =? f)%string) l.
Proof.
  intros Hne. rewrite List.filter_app. simpl.
  apply String.eqb_neq in Hne. rewrite Hne. apply app_nil_r.
Qed.

(** X3. A delivery that is recorded leaves the payments as they were and
    adds delivered * rate, the rate being that of the customer found for
    the flat, to what the flat is billed.  The balance of the flat is then
    what it was billed before plus that amount, less what it has paid; the
    balance of every other flat is as it was. *)
Theorem balance_after_addDelivery (env : Env) (form : DeliveryForm.t)
    (st : State) (c : Customer.t) :
  savePossible env ->
  deliveryFormFilled form ->
  List.find (fun c => (Customer.flatNumber c =? DeliveryForm.flatNumber form)%string)
    (customers (data st)) = Some c ->
  payments (data (addDelivery env form st)) = payments (data st)
  /\ totalBilled (DeliveryForm.flatNumber form)
       (deliveries (data (addDelivery env form st)))
     = totalBilled (DeliveryForm.flatNumber form) (deliveries (data st))
       + DeliveryForm.delivered form * Customer.rate c
  /\ Calculator.getCustomerOutstanding (DeliveryForm.flatNumber form)
       (deliveries (data (addDelivery env form st)))
       (payments (data (addDelivery env form st)))
     = (totalBilled (DeliveryForm.flatNumber form) (deliveries (data st))
        + DeliveryForm.delivered form * Customer.rate c)
       - totalPaid (DeliveryForm.flatNumber form) (payments (data st))
  /\ (forall f, f <> DeliveryForm.flatNumber form ->
        Calculator.getCustomerOutstanding f
          (deliveries (data (addDelivery env form st)))
          (payments (data (addDelivery env form st)))
        = Calculator.getCustomerOutstanding f (deliveries (data st))
            (payments (data st))).
Proof.
  intros Hs Hf Hc.
  change (addDelivery env form st) with (step env (AddDelivery form) st).
  rewrite (step_saved env (AddDelivery form) st _
             (saves_addDelivery env st form c Hf Hc) Hs).
  simpl.
  assert (Hb : totalBilled (DeliveryForm.flatNumber form)
                 (deliveries (data st) ++ [deliveryOf env form c])
               = totalBilled (DeliveryForm.flatNumber form) (deliveries (data st))
                 + DeliveryForm.delivered form * Customer.rate c).
  { unfold totalBilled.
    rewrite (sum_snoc_same Delivery.amount Delivery.flatNumber) by reflexivity.
    reflexivity. }
  split; [reflexivity|]. split; [exact Hb|]. split.
  - rewrite outstanding_billed_paid, Hb. reflexivity.
  - intros f Hne. unfold Calculator.getCustomerOutstanding.
    rewrite (filter_snoc_other Delivery.flatNumber); [reflexivity|].
    simpl. congruence.
Qed.

(** Ten bottles at rate 30 for flat "A", billed 300 and paid 100 so far:
    the balance becomes (300 + 300) - 100. *)
Lemma balance_after_addDelivery_witness :
  Calculator.getCustomerOutstanding "A"
    (deliveries (data (addDelivery env0 (formDel "A" 10) stA)))
    (payments (data (addDelivery env0 (formDel "A" 10) stA)))
  = 500.
Proof.
  destruct (balance_after_addDelivery env0 (formDel "A" 10) stA custA)
    as (_ & _ & Hbal & _).
  - exact savePossible_env0.
  - repeat split; discriminate.
  - reflexivity.
  - etransitivity; [exact Hbal|reflexivity].
Defined.

(** X4. A payment that is recorded leaves the deliveries as they were and
    adds the amount received to what the flat has paid.  The balance of
    the flat is then what it is billed less the sum of what it had paid
    and the amount received; the balance of every other flat is as it
    was. *)
Theorem balance_after_addPayment (env : Env) (form : PaymentForm.t)
    (st : State) (c : Customer.t) :
  savePossible env ->
  paymentFormFilled form ->
  List.find (fun c => (Customer.flatNumber c =? PaymentForm.flatNumber form)%string)
    (customers (data st)) = Some c ->
  deliveries (data (addPayment env form st)) = deliveries (data st)
  /\ totalPaid (PaymentForm.flatNumber form)
       (payments (data (addPayment env form st)))
     = totalPaid (PaymentForm.flatNumber form) (payments (data st))
       + PaymentForm.amountReceived form
  /\ Calculator.getCustomerOutstanding (PaymentForm.flatNumber form)
       (deliveries (data (addPayment env form st)))
       (payments (data (addPayment env form st)))
     = totalBilled (PaymentForm.flatNumber form) (deliveries (data st))
       - (totalPaid (PaymentForm.flatNumber form) (payments (data st))
          + PaymentForm.amountReceived form)
  /\ (forall f, f <> PaymentForm.flatNumber form ->
        Calculator.getCustomerOutstanding f
          (deliveries (data (addPayment env form st)))
          (payments (data (addPayment env form st)))
        = Calculator.getCustomerOutstanding f (deliveries (data st))
            (payments (data st))).
Proof.
  intros Hs Hf Hc.
  change (addPayment env form st) with (step env (AddPayment form) st).
  rewrite (step_saved env (AddPayment form) st _
             (saves_addPayment env st form c Hf Hc) Hs).
  simpl.
  assert (Hp : totalPaid (PaymentForm.flatNumber form)
                 (payments (data st) ++ [newPayment env form c (data st)])
               = totalPaid (PaymentForm.flatNumber form) (payments (data st))
                 + PaymentForm.amountReceived form).
  { unfold totalPaid.
    rewrite (sum_snoc_same Payment.amountReceived Payment.flatNumber) by reflexivity.
    reflexivity. }
  split; [reflexivity|]. split; [exact Hp|]. split.
  - rewrite outstanding_billed_paid, Hp. reflexivity.
  - intros f Hne. unfold Calculator.getCustomerOutstanding.
    rewrite (filter_snoc_other Payment.flatNumber); [reflexivity|].
    simpl. congruence.
Qed.

(** A payment of 500 for flat "A", billed 300 and paid 100 so far: the
    balance becomes 300 - (100 + 500). *)
Lemma balance_after_addPayment_witness :
  Calculator.getCustomerOutstanding "A"
    (deliveries (data (addPayment env0 (formPay "A" 500) stA)))
    (payments (data (addPayment env0 (formPay "A" 500) stA)))
  = -300.
Proof.
  destruct (balance_after_addPayment env0 (formPay "A" 500) stA custA)
    as (_ & _ & Hbal & _).
  - exact savePossible_env0.
  - repeat split; discriminate.
  - reflexivity.
  - etransitivity; [exact Hbal|reflexivity].
Defined.

(** ** References between the collections *)

Lemma NoDup_map_eq {A B : Type} (f : A -> B) (l : list A) (x y : A) :
  List.NoDup (map f l) -> In x l -> In y l -> f x = f y -> x = y.
Proof.
  induction l as [|z l IH]; simpl; intros Hnd Hx Hy Heq; [contradiction|].
  apply List.NoDup_cons_iff in Hnd as [Hz Hnd].
  destruct Hx as [<-|Hx], Hy as [<-|Hy].
  - reflexivity.
  - exfalso. apply Hz. rewrite Heq. apply in_map_iff. eauto.
  - exfalso. apply Hz. rewrite <- Heq. apply in_map_iff. eauto.
  - apply IH; assumption.
Qed.

(** X5. With customer ids that are distinct, every action keeps the
    references valid: if each delivery and payment is recorded under the
    flat number of a customer before the action, so it is after it, and
    the ids stay distinct, provided an addCustomer does not run at a clock
    reading whose id is already taken.  In particular deleteCustomer
    leaves no delivery or payment without its customer. *)
Theorem references_stay_valid (env : Env) (a : Action) (st : State) :
  idsDistinct (customers (data st)) ->
  refsOk (data st) ->
  (forall form, a = AddCustomer form ->
                ~ In ("cust_" +:+ pretty (nowMs env))
                     (map Customer.id (customers (data st)))) ->
  idsDistinct (customers (data (step env a st)))
  /\ refsOk (data (step env a st)).
Proof.
  intros Hids [Hd Hp] Hfresh.
  destruct (step_data env a st) as [E|(u & Hu & _ & E)]; rewrite E;
    [split; [exact Hids|split; assumption]|].
  unfold idsDistinct, refsOk in *.
  destruct Hu; simpl.
  - split.
    + apply NoDup_map_snoc; [exact Hids|]. intros y Hy Heq.
      apply (Hfresh form eq_refl). simpl in Heq. rewrite <- Heq.
      apply in_map. exact Hy.
    + split.
      * intros x Hx. destruct (Hd x Hx) as (c & Hc & Hfl).
        exists c. split; [apply in_or_app; left; exact Hc|exact Hfl].
      * intros x Hx. destruct (Hp x Hx) as (c & Hc & Hfl).
        exists c. split; [apply in_or_app; left; exact Hc|exact Hfl].
  - apply find_some in H0 as [Hc Hid]. apply String.eqb_eq in Hid.
    assert (Hkeep : forall c0, In c0 (customers (data st)) ->
              Customer.flatNumber c0 <> Customer.flatNumber c ->
              In c0 (List.filter (fun x => negb (Customer.id x =? i)%string)
                       (customers (data st)))).
    { intros c0 Hc0 Hne. apply In_filter_flat_ne. split; [exact Hc0|].
      intros Hid0. apply Hne. f_equal.
      apply (NoDup_map_eq Customer.id (customers (data st))); congruence. }
    split; [apply NoDup_map_filter; exact Hids|]. split.
    + intros x Hx. apply In_filter_flat_ne in Hx as [Hx Hne].
      destruct (Hd x Hx) as (c0 & Hc0 & Hfl). exists c0.
      split; [|exact Hfl]. apply Hkeep; [exact Hc0|congruence].
    + intros x Hx. apply In_filter_flat_ne in Hx as [Hx Hne].
      destruct (Hp x Hx) as (c0 & Hc0 & Hfl). exists c0.
      split; [|exact Hfl]. apply Hkeep; [exact Hc0|congruence].
  - split; [exact Hids|]. split; [|exact Hp].
    intros x Hx. apply in_app_or in Hx as [Hx|[<-|[]]]; [exact (Hd x Hx)|].
    apply find_flat_some in H0 as [Hc Hfl]. exists c. split; [exact Hc|exact Hfl].
  - split; [exact Hids|]. split; [|exact Hp].
    intros x Hx. apply filter_In in Hx as [Hx _]. exact (Hd x Hx).
  - split; [exact Hids|]. split; [exact Hd|].
    intros x Hx. apply in_app_or in Hx as [Hx|[<-|[]]]; [exact (Hp x Hx)|].
    apply find_flat_some in H0 as [Hc Hfl]. exists c. split; [exact Hc|exact Hfl].
  - split; [exact Hids|]. split; [exact Hd|].
    intros x Hx. apply filter_In in Hx as [Hx _]. exact (Hp x Hx).
  - split; [exact Hids|]. split; assumption.
  - split; [exact Hids|]. split; assumption.
Qed.

Lemma refsOk_stAB : refsOk (data stAB).
Proof.
  split; simpl.
  - intros x [<-|[<-|[]]]; [exists custA|exists custB]; simpl; auto.
  - intros x [<-|[<-|[]]]; [exists custA|exists custB]; simpl; auto.
Defined.

Lemma idsDistinct_stAB : idsDistinct (customers (data stAB)).
Proof.
  unfold idsDistinct. simpl. repeat constructor; simpl.
  - intros [H|[]]. discriminate.
  - intros [].
Defined.

(** Deleting A from the ledger of A and B leaves B with B's records. *)
Lemma references_stay_valid_witness :
  refsOk (data (step env0 (DeleteCustomer "cust_1") stAB)).
Proof.
  apply (references_stay_valid env0 (DeleteCustomer "cust_1") stAB).
  - exact idsDistinct_stAB.
  - exact refsOk_stAB.
  - intros form H. discriminate.
Defined.

(** With a shared id the references do not survive: in [stDup] every
    record has its customer, and after the deletion the records of flat
    "B" have none. *)
Lemma references_lost_with_shared_id :
  refsOk (data stDup)
  /\ ~ refsOk (data (deleteCustomer env0 "cust_1" stDup)).
Proof.
  split.
  - split; simpl.
    + intros x [<-|[<-|[]]]; [exists custA|exists custDup]; simpl; auto.
    + intros x [<-|[<-|[]]]; [exists custA|exists custDup]; simpl; auto.
  - intros [Hd _]. destruct (Hd delB) as (c & Hc & _).
    + vm_compute. left. reflexivity.
    + vm_compute in Hc. exact Hc.
Qed.

(** X6. The amount of a delivery is fixed when it is created.  The
    deliveries after any action are deliveries of the state before it,
    unchanged, or the one delivery that this action's addDelivery built:
    its amount is delivered * rate and its customerName the name of the
    first customer with the form's flat number. *)
Theorem delivery_amount_fixed_at_creation (env : Env) (a : Action) (st : State)
    (d : Delivery.t) :
  In d (deliveries (data (step env a st))) ->
  In d (deliveries (data st))
  \/ exists form c,
       a = AddDelivery form
       /\ List.find
            (fun c => (Customer.flatNumber c =? DeliveryForm.flatNumber form)%string)
            (customers (data st)) = Some c
       /\ Delivery.flatNumber d = Customer.flatNumber c
       /\ Delivery.customerName d = Customer.name c
       /\ Delivery.delivered d = DeliveryForm.delivered form
       /\ Delivery.amount d = Delivery.delivered d * Customer.rate c.
Proof.
  intros Hin.
  destruct (step_data env a st) as [E|(u & Hu & _ & E)]; rewrite E in Hin;
    [left; exact Hin|].
  destruct Hu; simpl in Hin; try (left; exact Hin).
  - left. apply filter_In in Hin. tauto.
  - apply in_app_or in Hin as [Hin|[<-|[]]]; [left; exact Hin|].
    right. exists form, c. split; [reflexivity|]. split; [exact H0|].
    apply find_flat_some in H0 as [_ Hfl]. simpl. auto.
  - left. apply filter_In in Hin. tauto.
Qed.

(** The delivery that ten bottles for flat "A" add to the ledger. *)
Lemma delivery_amount_fixed_witness :
  exists form c,
    AddDelivery (formDel "A" 10) = AddDelivery form
    /\ List.find
         (fun c => (Customer.flatNumber c =? DeliveryForm.flatNumber form)%string)
         (customers (data stA)) = Some c
    /\ Delivery.flatNumber (deliveryOf env0 (formDel "A" 10) custA)
       = Customer.flatNumber c
    /\ Delivery.customerName (deliveryOf env0 (formDel "A" 10) custA) = Customer.name c
    /\ Delivery.delivered (deliveryOf env0 (formDel "A" 10) custA)
       = DeliveryForm.delivered form
    /\ Delivery.amount (deliveryOf env0 (formDel "A" 10) custA)
       = Delivery.delivered (deliveryOf env0 (formDel "A" 10) custA) * Customer.rate c.
Proof.
  destruct (delivery_amount_fixed_at_creation env0 (AddDelivery (formDel "A" 10)) stA
              (deliveryOf env0 (formDel "A" 10) custA)) as [Hold|Hnew].
  - vm_compute. right. left. reflexivity.
  - exfalso. destruct Hold as [H|[]]. discriminate.
  - exact Hnew.
Defined.

(** ** Deleting *)

Lemma filter_eq_of_ne_nil {A : Type} (flat : A -> string) (f : string) (l : list A) :
  List.filter (fun x => (flat x =? f)%string)
    (List.filter (fun x => negb (flat x =? f)%string) l) = [].
Proof.
  apply filter_none. intros x Hx E.
  apply filter_In in Hx as [_ Hx]. rewrite E in Hx. discriminate.
Qed.

(** X7. After a customer is deleted (confirmed and saved) the balance of
    its flat number is 0, the balance of every other flat number is what
    it was, and the overdue list has no entry for a customer of that flat
    number. *)
Theorem balance_after_deleteCustomer (env : Env) (i : string) (st : State)
    (c : Customer.t) :
  confirmed env = true ->
  savePossible env ->
  List.find (fun x => (Customer.id x =? i)%string) (customers (data st)) = Some c ->
  Calculator.getCustomerOutstanding (Customer.flatNumber c)
    (deliveries (data (deleteCustomer env i st)))
    (payments (data (deleteCustomer env i st))) = 0
  /\ (forall g, g <> Customer.flatNumber c ->
        Calculator.getCustomerOutstanding g
          (deliveries (data (deleteCustomer env i st)))
          (payments (data (deleteCustomer env i st)))
        = Calculator.getCustomerOutstanding g (deliveries (data st)) (payments (data st)))
  /\ (forall Date_parse today cs e,
        In e (Calculator.getOverdueDues Date_parse today cs
                (deliveries (data (deleteCustomer env i st)))
                (payments (data (deleteCustomer env i st)))) ->
        Customer.flatNumber (Due.customer e) <> Customer.flatNumber c).
Proof.
  intros Hconf Hsave Hfind.
  rewrite (deleteCustomer_saved env i st c Hconf Hsave Hfind). simpl.
  assert (Hzero :
    Calculator.getCustomerOutstanding (Customer.flatNumber c)
      (List.filter (fun d => negb (Delivery.flatNumber d =? Customer.flatNumber c)%string)
         (deliveries (data st)))
      (List.filter (fun p => negb (Payment.flatNumber p =? Customer.flatNumber c)%string)
         (payments (data st))) = 0).
  { unfold Calculator.getCustomerOutstanding.
    rewrite (filter_eq_of_ne_nil Delivery.flatNumber),
      (filter_eq_of_ne_nil Payment.flatNumber). reflexivity. }
  split; [exact Hzero|]. split.
  - intros g Hg. symmetry. apply outstanding_ignores_other_flat. exact Hg.
  - intros Date_parse today cs e He Heq.
    apply In_getOverdueDues in He as (c0 & _ & E).
    destruct (dueOf_Some _ _ _ _ _ _ E) as (Hc0 & Ho & Hpos).
    rewrite Hc0 in Heq. rewrite Heq, Hzero in Ho. lia.
Qed.

(** Deleting A: nothing is owed under "A", and B still owes what it did. *)
Lemma balance_after_deleteCustomer_witness :
  Calculator.getCustomerOutstanding "A"
    (deliveries (data (deleteCustomer env0 "cust_1" stAB)))
    (payments (data (deleteCustomer env0 "cust_1" stAB))) = 0
  /\ Calculator.getCustomerOutstanding "B"
       (deliveries (data (deleteCustomer env0 "cust_1" stAB)))
       (payments (data (deleteCustomer env0 "cust_1" stAB)))
     = Calculator.getCustomerOutstanding "B" (deliveries (data stAB)) (payments (data stAB)).
Proof.
  destruct (balance_after_deleteCustomer env0 "cust_1" stAB custA eq_refl
              savePossible_env0 eq_refl) as (Hz & Hother & _).
  split; [exact Hz|]. apply Hother. discriminate.
Defined.

(** Removing the records of an id leaves the records of a flat number
    that has none with the id as they were. *)
Lemma filter_flat_kept {A : Type} (flat id : A -> string) (f i : string) (l : list A) :
  (forall x, In x l -> id x = i -> flat x <> f) ->
  List.filter (fun x => (flat x =? f)%string)
    (List.filter (fun x => negb (id x =? i)%string) l)
  = List.filter (fun x => (flat x =? f)%string) l.
Proof.
  induction l as [|x l IH]; intros H; simpl; [reflexivity|].
  assert (IH' := IH (fun y Hy => H y (or_intror Hy))).
  destruct (id x =? i)%string eqn:Ei; simpl.
  - apply String.eqb_eq in Ei. assert (Hne := H x (or_introl eq_refl) Ei).
    apply String.eqb_neq in Hne. rewrite Hne. exact IH'.
  - rewrite IH'. reflexivity.
Qed.

(** X8. deleteDelivery, deletePayment and deleteExpense change nothing when
    the confirmation is declined.  Confirmed and saved, each removes from
    its own collection every record that carries the id and no other, and
    leaves the other three collections as they are.  The balance of a flat
    number under which no record was removed is as it was; deleteExpense
    changes no balance. *)
Theorem delete_record_by_id (env : Env) (i : string) (st : State) :
  (confirmed env = false ->
   deleteDelivery env i st = st /\ deletePayment env i st = st
   /\ deleteExpense env i st = st)
  /\ (confirmed env = true -> savePossible env ->
      ((forall d, In d (deliveries (data (deleteDelivery env i st)))
                  <-> In d (deliveries (data st)) /\ Delivery.id d <> i)
       /\ customers (data (deleteDelivery env i st)) = customers (data st)
       /\ payments (data (deleteDelivery env i st)) = payments (data st)
       /\ expenses (data (deleteDelivery env i st)) = expenses (data st)
       /\ (forall f,
             (forall d, In d (deliveries (data st)) -> Delivery.id d = i ->
                        Delivery.flatNumber d <> f) ->
             Calculator.getCustomerOutstanding f
               (deliveries (data (deleteDelivery env i st)))
               (payments (data (deleteDelivery env i st)))
             = Calculator.getCustomerOutstanding f (deliveries (data st))
                 (payments (data st))))
      /\ ((forall p, In p (payments (data (deletePayment env i st)))
                     <-> In p (payments (data st)) /\ Payment.id p <> i)
          /\ customers (data (deletePayment env i st)) = customers (data st)
          /\ deliveries (data (deletePayment env i st)) = deliveries (data st)
          /\ expenses (data (deletePayment env i st)) = expenses (data st)
          /\ (forall f,
                (forall p, In p (payments (data st)) -> Payment.id p = i ->
                           Payment.flatNumber p <> f) ->
                Calculator.getCustomerOutstanding f
                  (deliveries (data (deletePayment env i st)))
                  (payments (data (deletePayment env i st)))
                = Calculator.getCustomerOutstanding f (deliveries (data st))
                    (payments (data st))))
      /\ ((forall e, In e (expenses (data (deleteExpense env i st)))
                     <-> In e (expenses (data st)) /\ Expense.id e <> i)
          /\ customers (data (deleteExpense env i st)) = customers (data st)
          /\ deliveries (data (deleteExpense env i st)) = deliveries (data st)
          /\ payments (data (deleteExpense env i st)) = payments (data st)
          /\ (forall f,
                Calculator.getCustomerOutstanding f
                  (deliveries (data (deleteExpense env i st)))
                  (payments (data (deleteExpense env i st)))
                = Calculator.getCustomerOutstanding f (deliveries (data st))
                    (payments (data st))))).
Proof.
  split.
  { intros Hc. unfold deleteDelivery, deletePayment, deleteExpense.
    rewrite Hc. auto. }
  intros Hc Hs.
  assert (Ed : data (deleteDelivery env i st)
               = Storage.merge (data st)
                   (Partial.mk None
                      (Some (List.filter (fun d => negb (Delivery.id d =? i)%string)
                               (deliveries (data st)))) None None None)
                   (nowIso env)).
  { exact (step_saved env (DeleteDelivery i) st _
             (saves_deleteDelivery env st i Hc) Hs). }
  assert (Ep : data (deletePayment env i st)
               = Storage.merge (data st)
                   (Partial.mk None None
                      (Some (List.filter (fun p => negb (Payment.id p =? i)%string)
                               (payments (data st)))) None None)
                   (nowIso env)).
  { exact (step_saved env (DeletePayment i) st _
             (saves_deletePayment env st i Hc) Hs). }
  assert (Ee : data (deleteExpense env i st)
               = Storage.merge (data st)
                   (Partial.mk None None None
                      (Some (List.filter (fun e => negb (Expense.id e =? i)%string)
                               (expenses (data st)))) None)
                   (nowIso env)).
  { exact (step_saved env (DeleteExpense i) st _
             (saves_deleteExpense env st i Hc) Hs). }
  rewrite Ed, Ep, Ee. simpl.
  refine (conj (conj _ (conj eq_refl (conj eq_refl (conj eq_refl _))))
            (conj (conj _ (conj eq_refl (conj eq_refl (conj eq_refl _))))
               (conj _ (conj eq_refl (conj eq_refl (conj eq_refl _)))))).
  - intros d. apply In_filter_flat_ne.
  - intros f Hnone. unfold Calculator.getCustomerOutstanding.
    rewrite (filter_flat_kept Delivery.flatNumber Delivery.id) by exact Hnone.
    reflexivity.
  - intros p. apply In_filter_flat_ne.
  - intros f Hnone. unfold Calculator.getCustomerOutstanding.
    rewrite (filter_flat_kept Payment.flatNumber Payment.id) by exact Hnone.
    reflexivity.
  - intros e. apply In_filter_flat_ne.
  - reflexivity.
Qed.

(** Deleting A's payment: the payment goes, B's stays and B's balance is
    what it was; deleting the rent leaves the payments alone. *)
Lemma delete_record_by_id_witness :
  payments (data (deletePayment env0 "pay_1" stAB)) = [payB]
  /\ Calculator.getCustomerOutstanding "B"
       (deliveries (data (deletePayment env0 "pay_1" stAB)))
       (payments (data (deletePayment env0 "pay_1" stAB))) = 0
  /\ payments (data (deleteExpense env0 "exp_1" stAB)) = [payA; payB].
Proof.
  destruct (proj2 (delete_record_by_id env0 "pay_1" stAB) eq_refl savePossible_env0)
    as (_ & (_ & _ & _ & _ & Hbal) & _).
  destruct (proj2 (delete_record_by_id env0 "exp_1" stAB) eq_refl savePossible_env0)
    as (_ & _ & (_ & _ & _ & Hpay & _)).
  split; [reflexivity|]. split.
  - rewrite (Hbal "B").
    + reflexivity.
    + intros p [<-|[<-|[]]] Hid; simpl; discriminate.
  - rewrite Hpay. reflexivity.
Defined.

(** ** The totals of the reports and the balances of the customers *)

Lemma sumZ_map_add {A : Type} (f g : A -> Z) (l : list A) :
  sumZ (map (fun x => f x + g x) l) = sumZ (map f l) + sumZ (map g l).
Proof. induction l as [|x l IH]; simpl; [reflexivity|]. rewrite IH. lia. Qed.

Lemma sumZ_map_sub {A : Type} (f g : A -> Z) (l : list A) :
  sumZ (map (fun x => f x - g x) l) = sumZ (map f l) - sumZ (map g l).
Proof. induction l as [|x l IH]; simpl; [reflexivity|]. rewrite IH. lia. Qed.

Lemma sumZ_map_ext {A : Type} (f g : A -> Z) (l : list A) :
  (forall x, In x l -> f x = g x) -> sumZ (map f l) = sumZ (map g l).
Proof.
  induction l as [|x l IH]; simpl; intros H; [reflexivity|].
  rewrite (H x) by auto. rewrite IH by auto. reflexivity.
Qed.

Lemma sumZ_map_zero {A : Type} (l : list A) : sumZ (map (fun _ => 0) l) = 0.
Proof. induction l as [|x l IH]; simpl; [reflexivity|]. exact IH. Qed.

(** Among keys without repetition, exactly one equals a key of the list. *)
Lemma sumZ_one_match {A : Type} (key : A -> string) (cs : list A) (k : string) (v : Z) :
  List.NoDup (map key cs) -> In k (map key cs) ->
  sumZ (map (fun c => if (k =? key c)%string then v else 0) cs) = v.
Proof.
  induction cs as [|c cs IH]; simpl; intros Hnd Hin; [contradiction|].
  apply List.NoDup_cons_iff in Hnd as [Hc Hnd].
  destruct (k =? key c)%string eqn:E.
  - apply String.eqb_eq in E. subst k.
    rewrite (sumZ_map_ext _ (fun _ => 0)), sumZ_map_zero; [lia|].
    intros x Hx. destruct (key c =? key x)%string eqn:E'; [|reflexivity].
    apply String.eqb_eq in E'. exfalso. apply Hc. rewrite E'.
    apply in_map. exact Hx.
  - apply String.eqb_neq in E. destruct Hin as [Heq|Hin]; [congruence|].
    rewrite IH by assumption. lia.
Qed.

(** Records spread over customers by their key: the per-customer sums add
    up to the sum over all records. *)
Lemma sum_by_customer {A B : Type} (key : A -> string) (kx : B -> string)
    (w : B -> Z) (cs : list A) (l : list B) :
  List.NoDup (map key cs) ->
  (forall x, In x l -> In (kx x) (map key cs)) ->
  sumZ (map (fun c => fold_left (fun sum x => sum + w x)
                        (List.filter (fun x => (kx x =? key c)%string) l) 0) cs)
  = fold_left (fun sum x => sum + w x) l 0.
Proof.
  intros Hnd. induction l as [|x l IH]; intros Hin; simpl.
  - apply sumZ_map_zero.
  - rewrite (sumZ_map_ext _
               (fun c => (if (kx x =? key c)%string then w x else 0)
                         + fold_left (fun sum y => sum + w y)
                             (List.filter (fun y => (kx y =? key c)%string) l) 0)).
    + rewrite sumZ_map_add, IH by (intros y Hy; apply Hin; right; exact Hy).
      rewrite sumZ_one_match by (try exact Hnd; apply Hin; left; reflexivity).
      rewrite (fold_left_add_acc w l (0 + w x)). lia.
    + intros c _. destruct (kx x =? key c)%string; simpl; [|lia].
      rewrite (fold_left_add_acc w _ (0 + w x)). lia.
Qed.

Lemma flatsDistinct_exact cs :
  flatsDistinct cs -> List.NoDup (map Customer.flatNumber cs).
Proof.
  unfold flatsDistinct. induction cs as [|c cs IH]; simpl; intros H;
    [constructor|].
  apply List.NoDup_cons_iff in H as [Hc H].
  apply List.NoDup_cons_iff. split; [|auto].
  intros Hin. apply Hc. apply in_map_iff in Hin as (y & Hy & Hin).
  apply in_map_iff. exists y. split; [congruence|exact Hin].
Qed.

Lemma flatsDistinct_stAB : flatsDistinct (customers (data stAB)).
Proof.
  unfold flatsDistinct. simpl. repeat constructor; simpl.
  - intros [H|[]]. discriminate.
  - intros [].
Defined.

Lemma filter_all {A : Type} (p : A -> bool) (l : list A) :
  (forall x, In x l -> p x = true) -> List.filter p l = l.
Proof.
  induction l as [|x l IH]; simpl; intros H; [reflexivity|].
  rewrite (H x) by auto. rewrite IH by auto. reflexivity.
Qed.

Lemma fold_left_add_sub {A : Type} (f g : A -> Z) (l : list A) (a : Z) :
  fold_left (fun sum x => sum + f x - g x) l a
  = a + fold_left (fun sum x => sum + f x) l 0
      - fold_left (fun sum x => sum + g x) l 0.
Proof.
  revert a. induction l as [|x l IH]; intros a; simpl; [lia|].
  rewrite IH, (fold_left_add_acc f l (0 + f x)), (fold_left_add_acc g l (0 + g x)).
  lia.
Qed.

(** X10. Over a range that contains the date of every record, the range
    statistics are the all-time totals of getStats: revenue, collections,
    expenses and profit coincide with totalRevenue, totalCollected,
    totalExpenses and netProfit, and bottles delivered minus empties
    collected is pendingEmpties. *)
Theorem range_stats_over_all_records (today : string) (week month : string * string)
    (d : AppData) (startDate endDate : string) :
  (forall x, In x (deliveries d) -> within startDate endDate (Delivery.date x)) ->
  (forall p, In p (payments d) -> within startDate endDate (Payment.date p)) ->
  (forall e, In e (expenses d) -> within startDate endDate (Expense.date e)) ->
  RangeStats.revenue
    (Calculator.getDateRangeStats (deliveries d) (payments d) (expenses d)
       startDate endDate)
  = Stats.totalRevenue (getStats today week month d)
  /\ RangeStats.collected
       (Calculator.getDateRangeStats (deliveries d) (payments d) (expenses d)
          startDate endDate)
     = Stats.totalCollected (getStats today week month d)
  /\ RangeStats.expenses
       (Calculator.getDateRangeStats (deliveries d) (payments d) (expenses d)
          startDate endDate)
     = Stats.totalExpenses (getStats today week month d)
  /\ RangeStats.profit
       (Calculator.getDateRangeStats (deliveries d) (payments d) (expenses d)
          startDate endDate)
     = Stats.netProfit (getStats today week month d)
  /\ RangeStats.bottlesDelivered
       (Calculator.getDateRangeStats (deliveries d) (payments d) (expenses d)
          startDate endDate)
     - RangeStats.empties
         (Calculator.getDateRangeStats (deliveries d) (payments d) (expenses d)
            startDate endDate)
     = Stats.pendingEmpties (getStats today week month d)
  /\ RangeStats.deliveries
       (Calculator.getDateRangeStats (deliveries d) (payments d) (expenses d)
          startDate endDate)
     = Z.of_nat (length (deliveries d)).
Proof.
  intros Hd Hp He. unfold Calculator.getDateRangeStats, getStats. simpl.
  rewrite (filter_all _ (deliveries d))
    by (intros x Hx; apply inRange_within, Hd, Hx).
  rewrite (filter_all _ (payments d))
    by (intros x Hx; apply inRange_within, Hp, Hx).
  rewrite (filter_all _ (expenses d))
    by (intros x Hx; apply inRange_within, He, Hx).
  repeat split; try reflexivity.
  rewrite (fold_left_add_sub Delivery.delivered Delivery.collected). lia.
Qed.

(** January 2024 holds every record of the example ledger. *)
Lemma range_stats_over_all_records_witness :
  RangeStats.profit
    (Calculator.getDateRangeStats (deliveries (data stAB)) (payments (data stAB))
       (expenses (data stAB)) "2024-01-01" "2024-01-31")
  = Stats.netProfit
      (getStats "2024-01-05" ("2023-12-31", "2024-01-06") ("2024-01-01", "2024-01-31")
         (data stAB)).
Proof.
  apply (range_stats_over_all_records "2024-01-05" ("2023-12-31", "2024-01-06")
           ("2024-01-01", "2024-01-31") (data stAB) "2024-01-01" "2024-01-31").
  - intros x [<-|[<-|[]]]; vm_compute; auto.
  - intros x [<-|[<-|[]]]; vm_compute; auto.
  - intros x [<-|[]]; vm_compute; auto.
Defined.

Lemma dues_customers Date_parse today cs ds ps :
  map Due.customer (Calculator.getOverdueDues Date_parse today cs ds ps)
  = List.filter
      (fun c => 0 <? Calculator.getCustomerOutstanding (Customer.flatNumber c) ds ps) cs.
Proof.
  unfold Calculator.getOverdueDues.
  induction cs as [|c cs IH]; [reflexivity|].
  change (omap (Calculator.dueOf Date_parse today ds ps) (c :: cs))
    with (match Calculator.dueOf Date_parse today ds ps c with
          | Some e => e :: omap (Calculator.dueOf Date_parse today ds ps) cs
          | None => omap (Calculator.dueOf Date_parse today ds ps) cs
          end).
  simpl List.filter. rewrite <- IH.
  unfold Calculator.dueOf at 1.
  destruct (Calculator.getCustomerOutstanding (Customer.flatNumber c) ds ps <=? 0)
    eqn:E.
  - destruct (0 <? _) eqn:E'; [lia|reflexivity].
  - destruct (0 <? _) eqn:E'; [reflexivity|lia].
Qed.

Lemma dues_all_positive Date_parse today cs ds ps :
  List.filter (fun e => Due.outstanding e >? 0)
    (Calculator.getOverdueDues Date_parse today cs ds ps)
  = Calculator.getOverdueDues Date_parse today cs ds ps.
Proof.
  apply filter_all. intros e He.
  apply In_getOverdueDues in He as (c & _ & E).
  destruct (dueOf_Some _ _ _ _ _ _ E) as (_ & _ & Hpos). lia.
Qed.

(** X11. The overdue list has one entry for each customer whose balance is
    positive and none for the others, in the order of the customers, and
    the outstanding of an entry is the balance of its customer. *)
Theorem overdue_list_is_the_debtors (Date_parse : string -> option Z) (today : Z)
    (cs : list Customer.t) (ds : list Delivery.t) (ps : list Payment.t) :
  map Due.customer (Calculator.getOverdueDues Date_parse today cs ds ps)
  = List.filter
      (fun c => 0 <? Calculator.getCustomerOutstanding (Customer.flatNumber c) ds ps) cs
  /\ map Due.outstanding (Calculator.getOverdueDues Date_parse today cs ds ps)
     = map (fun c => Calculator.getCustomerOutstanding (Customer.flatNumber c) ds ps)
         (List.filter
            (fun c => 0 <? Calculator.getCustomerOutstanding (Customer.flatNumber c) ds ps)
            cs).
Proof.
  split; [apply dues_customers|].
  rewrite <- (dues_customers Date_parse today), map_map.
  apply map_ext_in. intros e He.
  apply In_getOverdueDues in He as (c & _ & E).
  destruct (dueOf_Some _ _ _ _ _ _ E) as (<- & Ho & _). exact Ho.
Qed.

(** ** Rankings *)

Section SortByKey.
Context {A : Type} (k : A -> Z).

Let cmp : A -> A -> Z := fun a b => k b - k a.

Lemma insert_descending (x : A) (l : list A) :
  descendingBy k l -> descendingBy k (Js.insert cmp x l).
Proof.
  unfold descendingBy. induction l as [|y l IH]; simpl; intros H.
  - constructor; [constructor|constructor].
  - apply StronglySorted_inv in H as [Hl Hy].
    unfold cmp at 1. destruct (k y - k x <=? 0) eqn:E.
    + constructor; [constructor; assumption|].
      constructor; [lia|].
      rewrite List.Forall_forall in *. intros z Hz. specialize (Hy z Hz). lia.
    + constructor; [apply IH; exact Hl|].
      rewrite List.Forall_forall in *. intros z Hz.
      apply In_insert in Hz as [->|Hz]; [lia|auto].
Qed.

Lemma sort_descending (l : list A) : descendingBy k (Js.sort cmp l).
Proof.
  induction l as [|x l IH]; simpl; [constructor|].
  apply insert_descending. exact IH.
Qed.

Lemma insert_Permutation (x : A) (l : list A) :
  Permutation (Js.insert cmp x l) (x :: l).
Proof.
  induction l as [|y l IH]; simpl; [reflexivity|].
  destruct (cmp x y <=? 0); [reflexivity|].
  rewrite IH. apply perm_swap.
Qed.

Lemma sort_Permutation (l : list A) : Permutation (Js.sort cmp l) l.
Proof.
  induction l as [|x l IH]; simpl; [reflexivity|].
  rewrite insert_Permutation, IH. reflexivity.
Qed.

Lemma descending_app_inv (l1 l2 : list A) :
  descendingBy k (l1 ++ l2) ->
  descendingBy k l1 /\ forall a b, In a l1 -> In b l2 -> k b <= k a.
Proof.
  unfold descendingBy. induction l1 as [|x l1 IH]; simpl; intros H.
  - split; [constructor|]. intros a b [].
  - apply StronglySorted_inv in H as [Hl Hx]. destruct (IH Hl) as [Hs Hcross].
    rewrite List.Forall_forall in Hx. split.
    + constructor; [exact Hs|]. rewrite List.Forall_forall.
      intros z Hz. apply Hx. apply in_or_app. left. exact Hz.
    + intros a b [<-|Ha] Hb; [apply Hx, in_or_app; right; exact Hb|].
      apply Hcross; assumption.
Qed.

End SortByKey.

(** X12. "Top Customers by Revenue" lists at most ten customers, each with
    the total of the deliveries recorded under its flat number, from the
    greatest revenue down; what it leaves out are customers too, none of
    them with more revenue than a customer listed. *)
Theorem top_customers_ranked (d : AppData) :
  length (topCustomers d) = Nat.min 10 (length (customers d))
  /\ descendingBy Ranked.revenue (topCustomers d)
  /\ (forall r, In r (topCustomers d) ->
        In (Ranked.customer r) (customers d)
        /\ Ranked.revenue r
           = sumWhere (fun x => Delivery.flatNumber x
                                = Customer.flatNumber (Ranked.customer r))
               Delivery.amount (deliveries d))
  /\ exists rest,
       Permutation (topCustomers d ++ rest) (map (withRevenue d) (customers d))
       /\ forall a b, In a (topCustomers d) -> In b rest ->
                      Ranked.revenue b <= Ranked.revenue a.
Proof.
  unfold topCustomers.
  set (cmp := fun a b => Ranked.revenue b - Ranked.revenue a).
  set (all := map (withRevenue d) (customers d)).
  pose proof (sort_Permutation Ranked.revenue all) as Hperm.
  pose proof (sort_descending Ranked.revenue all) as Hsorted.
  fold cmp in Hperm, Hsorted.
  rewrite <- (firstn_skipn 10 (Js.sort cmp all)) in Hsorted.
  apply descending_app_inv in Hsorted as [Htop Hcross].
  split; [|split; [exact Htop|split]].
  - rewrite length_firstn, (Permutation_length Hperm). subst all.
    rewrite length_map. reflexivity.
  - intros r Hr.
    assert (Hr' : In r (Js.sort cmp all)).
    { rewrite <- (firstn_skipn 10). apply in_or_app. left. exact Hr. }
    clear Hr. rename Hr' into Hr.
    apply (Permutation_in _ Hperm) in Hr. subst all.
    apply in_map_iff in Hr as (c & <- & Hc). split; [exact Hc|]. simpl.
    apply sum_filter_sumWhere. intros x. apply flat_eqb_iff.
  - exists (skipn 10 (Js.sort cmp all)). split; [|exact Hcross].
    rewrite firstn_skipn. exact Hperm.
Qed.

(** X13. The dues tab shows every entry of the overdue list, the test
    [outstanding > 0] of the view removing none, ordered from the greatest
    balance down. *)
Theorem dues_shown_largest_first (Date_parse : string -> option Z) (today : Z)
    (cs : list Customer.t) (ds : list Delivery.t) (ps : list Payment.t) :
  Permutation (duesShown (Calculator.getOverdueDues Date_parse today cs ds ps))
    (Calculator.getOverdueDues Date_parse today cs ds ps)
  /\ descendingBy Due.outstanding
       (duesShown (Calculator.getOverdueDues Date_parse today cs ds ps))
  /\ length (duesShown (Calculator.getOverdueDues Date_parse today cs ds ps))
     = length (List.filter
                 (fun c => 0 <? Calculator.getCustomerOutstanding
                                  (Customer.flatNumber c) ds ps) cs).
Proof.
  unfold duesShown. rewrite dues_all_positive.
  pose proof (sort_Permutation Due.outstanding
                (Calculator.getOverdueDues Date_parse today cs ds ps)) as Hperm.
  split; [exact Hperm|]. split; [apply sort_descending|].
  rewrite (Permutation_length Hperm), <- (dues_customers Date_parse today), length_map.
  reflexivity.
Qed.

(** ** The breakdown of expenses by category *)

Lemma filter_nothing {A : Type} (p : A -> bool) (l : list A) :
  (forall x, In x l -> p x = false) -> List.filter p l = [].
Proof.
  induction l as [|x l IH]; simpl; intros H; [reflexivity|].
  rewrite (H x) by auto. apply IH. auto.
Qed.

Lemma filter_filter_and {A : Type} (p q : A -> bool) (l : list A) :
  List.filter p (List.filter q l) = List.filter (fun x => q x && p x) l.
Proof.
  induction l as [|x l IH]; simpl; [reflexivity|].
  destruct (q x); simpl; [destruct (p x)|]; rewrite IH; reflexivity.
Qed.

(** The total of a category is the month's expenses of the range
    statistics, taken over the expenses of the category. *)
Lemma categoryTotal_range month ds ps es cat :
  categoryTotal month es cat
  = RangeStats.expenses
      (Calculator.getDateRangeStats ds ps
         (List.filter (fun e => (Expense.category e =? cat)%string) es)
         (fst month) (snd month)).
Proof.
  unfold categoryTotal. simpl. rewrite filter_filter_and.
  f_equal. apply filter_ext. intros e. unfold Calculator.inRange.
  rewrite andb_assoc. reflexivity.
Qed.

(** X14. The rows of the expense breakdown are exactly the listed
    categories whose total for the month is not 0, in the order of the
    list, each with the month's expenses that the range statistics give
    for the expenses of the category.  An expense under a category that is
    not listed (the form also offers "other") is in no row: when all the
    expenses of the month are such, the breakdown is empty. *)
Theorem expense_breakdown_rows (month : string * string) (ds : list Delivery.t)
    (ps : list Payment.t) (es : list Expense.t) :
  (forall cat total,
     In (cat, total) (categoryBreakdown month es)
     <-> In cat expenseCategories /\ total <> 0
         /\ total = RangeStats.expenses
                      (Calculator.getDateRangeStats ds ps
                         (List.filter (fun e => (Expense.category e =? cat)%string) es)
                         (fst month) (snd month)))
  /\ map fst (categoryBreakdown month es)
     = List.filter
         (fun cat =>
            negb (RangeStats.expenses
                    (Calculator.getDateRangeStats ds ps
                       (List.filter (fun e => (Expense.category e =? cat)%string) es)
                       (fst month) (snd month)) =? 0))
         expenseCategories
  /\ ((forall e, In e es ->
                 Calculator.inRange (fst month) (snd month) (Expense.date e) = true ->
                 ~ In (Expense.category e) expenseCategories) ->
      categoryBreakdown month es = []).
Proof.
  assert (Hrows : forall cats,
    map fst (omap (fun cat =>
                     let total := categoryTotal month es cat in
                     if total =? 0 then None else Some (cat, total)) cats)
    = List.filter (fun cat => negb (categoryTotal month es cat =? 0)) cats).
  { induction cats as [|cat cats IH]; [reflexivity|].
    change (omap ?f (cat :: cats))
      with (match f cat with Some y => y :: omap f cats | None => omap f cats end).
    cbv beta zeta. cbn [List.filter].
    destruct (categoryTotal month es cat =? 0); cbn [negb map fst].
    - exact IH.
    - f_equal. exact IH. }
  split; [|split].
  - intros cat total. rewrite <- (categoryTotal_range month ds ps es cat).
    unfold categoryBreakdown. split.
    + intros Hin.
      apply list_elem_of_In, list_elem_of_omap in Hin as (c & Hc & E).
      apply list_elem_of_In in Hc. cbv zeta in E.
      destruct (categoryTotal month es c =? 0) eqn:Ez; [discriminate|].
      injection E as <- <-. apply Z.eqb_neq in Ez. auto.
    + intros (Hc & Hnz & ->).
      apply list_elem_of_In, list_elem_of_omap. exists cat.
      split; [apply list_elem_of_In; exact Hc|].
      cbv zeta. apply Z.eqb_neq in Hnz. rewrite Hnz. reflexivity.
  - unfold categoryBreakdown. etransitivity; [apply Hrows|]. apply filter_ext.
    intros cat. rewrite (categoryTotal_range month ds ps es cat). reflexivity.
  - intros Hother.
    assert (Hzero : forall cat, In cat expenseCategories ->
                                categoryTotal month es cat = 0).
    { intros cat Hcat. unfold categoryTotal.
      rewrite (filter_nothing _ es); [reflexivity|].
      intros e He. rewrite !andb_false_iff.
      destruct (Expense.category e =? cat)%string eqn:Ec; [|auto].
      apply String.eqb_eq in Ec. subst cat.
      destruct (Calculator.inRange (fst month) (snd month) (Expense.date e)) eqn:Er.
      - exfalso. exact (Hother e He Er Hcat).
      - unfold Calculator.inRange in Er. apply andb_false_iff in Er. tauto. }
    unfold categoryBreakdown.
    generalize Hzero. generalize expenseCategories. intros cats Hz.
    induction cats as [|cat cats IH]; [reflexivity|].
    change (omap ?f (cat :: cats))
      with (match f cat with Some y => y :: omap f cats | None => omap f cats end).
    cbv beta zeta. rewrite (Hz cat (or_introl eq_refl)). simpl.
    apply IH. intros c Hc. apply Hz. right. exact Hc.
Qed.

(** A ledger of two customers: both are ranked, B after A. *)
Lemma top_customers_ranked_witness :
  map (fun r => (Customer.flatNumber (Ranked.customer r), Ranked.revenue r))
    (topCustomers (data stAB))
  = [("A", 300); ("B", 150)]
  /\ In custA (customers (data stAB)).
Proof.
  split; [reflexivity|].
  apply (proj1 (proj2 (proj2 (top_customers_ranked (data stAB))))
           (withRevenue (data stAB) custA)).
  vm_compute. left. reflexivity.
Defined.

(** A January whose only expense is 70 under "other": the month's
    expenses are 70 and the breakdown has no row. *)
Lemma expense_breakdown_rows_witness :
  categoryBreakdown ("2024-01-01", "2024-01-31")
    [Expense.mk "exp_2" "2024-01-09" "other" "misc" 70 cash "" ""] = []
  /\ RangeStats.expenses
       (Calculator.getDateRangeStats [] []
          [Expense.mk "exp_2" "2024-01-09" "other" "misc" 70 cash "" ""]
          "2024-01-01" "2024-01-31") = 70.
Proof.
  split; [|reflexivity].
  apply (proj2 (proj2 (expense_breakdown_rows ("2024-01-01", "2024-01-31") [] []
                         [Expense.mk "exp_2" "2024-01-09" "other" "misc" 70 cash "" ""]))).
  intros e [<-|[]] _. simpl.
  intros [H|[H|[H|[H|[H|[H|[]]]]]]]; discriminate.
Defined.

(** ** The revenue of the customers and the total revenue *)

Lemma sumZ_Permutation (l1 l2 : list Z) : Permutation l1 l2 -> sumZ l1 = sumZ l2.
Proof.
  induction 1; simpl; lia.
Qed.

(** X9. The revenues of the customers add up to the total revenue.  When
    flat numbers are unique and every delivery is recorded under the flat
    number of a customer, the revenues that the "Top Customers" list
    computes for the customers add up to totalRevenue of getStats; with at
    most ten customers the rows of the list add up to it.  (The amount of a
    delivery is the product of the whole numbers read for the bottles and
    the rate.) *)
Theorem revenue_by_customer_adds_up (today : string) (week month : string * string)
    (d : AppData) :
  flatsDistinct (customers d) ->
  (forall x, In x (deliveries d) ->
             exists c, In c (customers d)
                       /\ Customer.flatNumber c = Delivery.flatNumber x) ->
  sumZ (map (fun c => Ranked.revenue (withRevenue d c)) (customers d))
  = Stats.totalRevenue (getStats today week month d)
  /\ ((length (customers d) <= 10)%nat ->
      sumZ (map Ranked.revenue (topCustomers d))
      = Stats.totalRevenue (getStats today week month d)).
Proof.
  intros Hflat Hd. apply flatsDistinct_exact in Hflat.
  assert (Hsum : sumZ (map (fun c => Ranked.revenue (withRevenue d c)) (customers d))
                 = Stats.totalRevenue (getStats today week month d)).
  { simpl.
    apply (sum_by_customer Customer.flatNumber Delivery.flatNumber Delivery.amount).
    - exact Hflat.
    - intros x Hin. destruct (Hd x Hin) as (c & Hc & <-). apply in_map. exact Hc. }
  split; [exact Hsum|].
  intros Hlen. rewrite <- Hsum. unfold topCustomers.
  rewrite firstn_all2.
  - rewrite <- (map_map (withRevenue d) Ranked.revenue).
    apply sumZ_Permutation, Permutation_map, sort_Permutation.
  - rewrite (Permutation_length (sort_Permutation _ _)), length_map. exact Hlen.
Qed.

(** A billed 300 and B 150: the two rows add up to the total revenue,
    450. *)
Lemma revenue_by_customer_adds_up_witness :
  sumZ (map Ranked.revenue (topCustomers (data stAB))) = 450
  /\ Stats.totalRevenue
       (getStats "2024-01-05" ("2023-12-31", "2024-01-06") ("2024-01-01", "2024-01-31")
          (data stAB)) = 450.
Proof.
  split; [|reflexivity].
  rewrite (proj2 (revenue_by_customer_adds_up
                    "2024-01-05" ("2023-12-31", "2024-01-06")
                    ("2024-01-01", "2024-01-31") (data stAB)
                    flatsDistinct_stAB (proj1 refsOk_stAB))).
  - reflexivity.
  - simpl. lia.
Defined.

(** ** Searching and filtering the lists *)

Lemma prefix_iff (t s : string) :
  String.prefix t s = true <-> exists b, s = t +:+ b.
Proof.
  revert s. induction t as [|c t IH]; intros s.
  - split; [intros _; exists s; reflexivity|]. intros _. destruct s; reflexivity.
  - destruct s as [|c' s]; simpl.
    + split; [discriminate|]. intros [b Hb]. discriminate.
    + destruct (Ascii.ascii_dec c c') as [->|Hne].
      * rewrite IH. split; intros [b Hb]; exists b.
        -- simpl. rewrite Hb. reflexivity.
        -- simpl in Hb. injection Hb as ->. reflexivity.
      * split; [discriminate|]. intros [b Hb]. simpl in Hb.
        injection Hb as -> _. contradiction.
Qed.

(** [includes s t] holds exactly when [t] occurs in [s]. *)
Lemma includes_iff (s t : string) :
  includes s t = true <-> exists a b, s = a +:+ t +:+ b.
Proof.
  induction s as [|c s IH]; cbn [includes].
  - rewrite orb_false_r, prefix_iff. split.
    + intros [b Hb]. exists "", b. exact Hb.
    + intros (a & b & H). destruct a as [|x a]; [eauto|discriminate].
  - rewrite orb_true_iff, prefix_iff, IH. split.
    + intros [[b Hb]|(a & b & Hab)].
      * exists "", b. exact Hb.
      * exists (String c a), b. simpl. rewrite Hab. reflexivity.
    + intros (a & b & H). destruct a as [|x a].
      * left. exists b. exact H.
      * right. simpl in H. injection H as -> ->. eauto.
Qed.

Lemma toLowerCase_truthy (s : string) : Js.truthy (Js.toLowerCase s) = Js.truthy s.
Proof. destruct s; reflexivity. Qed.

Lemma str_eqb_inRange (t x : string) : (x =? t)%string = Calculator.inRange t t x.
Proof.
  destruct (Calculator.inRange t t x) eqn:E.
  - apply String.eqb_eq. apply inRange_within in E as [[H1|H1] [H2|H2]];
      try congruence.
    rewrite (String.compare_antisym t x), H2 in H1. discriminate.
  - apply String.eqb_neq. intros ->.
    assert (H : Calculator.inRange t t t = true).
    { apply inRange_within. split; left; reflexivity. }
    congruence.
Qed.

(** X15. Search ignores letter case and looks for the term anywhere in the
    flat number or the name: with a search term that is not empty, the
    customers listed are those whose flat number or name, in lower case,
    contains the term in lower case; two terms equal up to case give the
    same lists; and without a term and with the filter "all" every list is
    the whole collection. *)
Theorem search_is_case_insensitive (term filterDate today : string)
    (week month : string * string) (d : AppData) :
  (forall term',
     Js.toLowerCase term = Js.toLowerCase term' ->
     getFilteredData term filterDate today week month d
     = getFilteredData term' filterDate today week month d)
  /\ (term <> "" ->
      forall c,
        In c (Filtered.filteredCustomers
                (getFilteredData term filterDate today week month d))
        <-> In c (customers d)
            /\ ((exists a b, Js.toLowerCase (Customer.flatNumber c)
                             = a +:+ Js.toLowerCase term +:+ b)
                \/ (exists a b, Js.toLowerCase (Customer.name c)
                                = a +:+ Js.toLowerCase term +:+ b)))
  /\ getFilteredData "" "all" today week month d
     = Filtered.mk (deliveries d) (payments d) (customers d) (expenses d).
Proof.
  split; [|split].
  - intros term' Hlow. unfold getFilteredData, searchStep.
    rewrite <- (toLowerCase_truthy term), <- (toLowerCase_truthy term'), Hlow.
    reflexivity.
  - intros Hterm c. apply truthy_iff in Hterm.
    assert (Hc : Filtered.filteredCustomers
                   (getFilteredData term filterDate today week month d)
                 = List.filter
                     (fun c => includes (Js.toLowerCase (Customer.flatNumber c))
                                 (Js.toLowerCase term)
                               || includes (Js.toLowerCase (Customer.name c))
                                    (Js.toLowerCase term))
                     (customers d)).
    { unfold getFilteredData, searchStep, dateStep. rewrite Hterm.
      destruct (negb (filterDate =? "all")%string); [|reflexivity].
      destruct (filterDate =? "today")%string; [reflexivity|].
      destruct (filterDate =? "week")%string; [reflexivity|].
      destruct (filterDate =? "month")%string; reflexivity. }
    rewrite Hc, filter_In, orb_true_iff, !includes_iff. reflexivity.
  - reflexivity.
Qed.

(** Searching "asi" or "ASI" in the ledger of Asif and Bilal finds Asif. *)
Lemma search_is_case_insensitive_witness :
  Filtered.filteredCustomers
    (getFilteredData "ASI" "all" "2024-01-05" ("2023-12-31", "2024-01-06")
       ("2024-01-01", "2024-01-31") (data stAB))
  = [custA]
  /\ In custA (customers (data stAB)).
Proof.
  split; [reflexivity|].
  apply (proj1 (proj2 (search_is_case_insensitive "ASI" "all" "2024-01-05"
                         ("2023-12-31", "2024-01-06") ("2024-01-01", "2024-01-31")
                         (data stAB))) ltac:(discriminate) custA).
  left. reflexivity.
Defined.

(** X16. With no search term, the lists shown under the filters "today",
    "week" and "month" are the records that the statistics of the day, the
    week and the month count: the deliveries, payments and expenses whose
    date lies in the range (for "today", the test [date === today] of the
    filter picks the records of the range from today to today).  Every
    figure of those statistics is the figure of the lists shown: the count
    of deliveries, the sums of the bottles delivered, the revenue, the
    collections, the expenses and the empties, and the profit, which is
    the collections less the expenses. *)
Theorem date_filter_matches_stats (today : string) (week month : string * string)
    (d : AppData) :
  let shown (range : string * string) :=
    {| Filtered.filteredDeliveries :=
         List.filter
           (fun x => Calculator.inRange (fst range) (snd range) (Delivery.date x))
           (deliveries d);
       Filtered.filteredPayments :=
         List.filter
           (fun p => Calculator.inRange (fst range) (snd range) (Payment.date p))
           (payments d);
       Filtered.filteredCustomers := customers d;
       Filtered.filteredExpenses :=
         List.filter
           (fun e => Calculator.inRange (fst range) (snd range) (Expense.date e))
           (expenses d) |} in
  (getFilteredData "" "today" today week month d = shown (today, today)
   /\ getFilteredData "" "week" today week month d = shown week
   /\ getFilteredData "" "month" today week month d = shown month)
  /\ Stats.today (getStats today week month d)
     = totalsOf (getFilteredData "" "today" today week month d)
  /\ Stats.week (getStats today week month d)
     = totalsOf (getFilteredData "" "week" today week month d)
  /\ Stats.month (getStats today week month d)
     = totalsOf (getFilteredData "" "month" today week month d).
Proof.
  intros shown.
  assert (Hd : forall l : list Delivery.t,
    List.filter (fun x => (Delivery.date x =? today)%string) l
    = List.filter (fun x => Calculator.inRange today today (Delivery.date x)) l).
  { intros l. apply filter_ext. intros x. apply str_eqb_inRange. }
  assert (Hp : forall l : list Payment.t,
    List.filter (fun x => (Payment.date x =? today)%string) l
    = List.filter (fun x => Calculator.inRange today today (Payment.date x)) l).
  { intros l. apply filter_ext. intros x. apply str_eqb_inRange. }
  assert (He : forall l : list Expense.t,
    List.filter (fun x => (Expense.date x =? today)%string) l
    = List.filter (fun x => Calculator.inRange today today (Expense.date x)) l).
  { intros l. apply filter_ext. intros x. apply str_eqb_inRange. }
  assert (Hshown :
    getFilteredData "" "today" today week month d = shown (today, today)
    /\ getFilteredData "" "week" today week month d = shown week
    /\ getFilteredData "" "month" today week month d = shown month).
  { unfold shown, getFilteredData, searchStep, dateStep, Calculator.inRange. simpl.
    fold (Calculator.inRange today today).
    rewrite Hd, Hp, He. unfold Calculator.inRange. repeat split; reflexivity. }
  split; [exact Hshown|].
  destruct Hshown as (-> & -> & ->).
  repeat split; reflexivity.
Qed.

(** ** What is stored and what is shown *)

Lemma key_inj (u v : string) : Storage.key u = Storage.key v -> u = v.
Proof. unfold Storage.key. simpl. intros H. injection H. auto. Qed.

Lemma saveAndReload_synced env u st uid :
  userId env = Some uid -> synced uid st -> synced uid (saveAndReload env u st).
Proof.
  unfold synced. intros Hu Hs. rewrite getData_result in *.
  unfold saveAndReload. rewrite Hu.
  destruct (Js.truthy uid); [|exact Hs].
  unfold Storage.saveData, try_catch, bind, setItem, console_log, ret, JSON_stringify.
  destruct (storageFault env); simpl; [exact Hs|].
  rewrite lookup_insert_eq. reflexivity.
Qed.

Lemma step_synced env a st uid :
  userId env = Some uid -> synced uid st -> synced uid (step env a st).
Proof.
  intros Hu Hs.
  assert (Halert : forall al st0, synced uid st0 -> synced uid (alert al st0)).
  { intros al st0 H. exact H. }
  destruct a as [f|i|f|i|f|i|f|i]; simpl.
  - destruct (addCustomer_cases env f st) as [[E _]|[[E _]|(E & _ & _)]];
      rewrite E; apply Halert; try exact Hs.
    apply saveAndReload_synced; assumption.
  - unfold deleteCustomer. destruct (negb (confirmed env)); [exact Hs|].
    destruct (List.find _ _); [|exact Hs].
    apply saveAndReload_synced; assumption.
  - destruct (addDelivery_cases env f st)
      as [[E _]|[[E _]|(c & _ & _ & E)]]; rewrite E; try exact Hs.
    apply Halert, saveAndReload_synced; assumption.
  - unfold deleteDelivery. destruct (confirmed env); [|exact Hs].
    apply saveAndReload_synced; assumption.
  - destruct (addPayment_cases env f st)
      as [[E _]|[[E _]|(c & _ & _ & E)]]; rewrite E; try exact Hs.
    apply Halert, saveAndReload_synced; assumption.
  - unfold deletePayment. destruct (confirmed env); [|exact Hs].
    apply saveAndReload_synced; assumption.
  - destruct (addExpense_cases env f st) as [[E _]|[_ E]]; rewrite E;
      try exact Hs.
    apply Halert, saveAndReload_synced; assumption.
  - unfold deleteExpense. destruct (confirmed env); [|exact Hs].
    apply saveAndReload_synced; assumption.
Qed.

(** X17. What is shown is what is stored.  If loading the user's entry
    gives the data of the state, then it still does after any sequence of
    actions of that user, whether their saves go through or fail: a reload
    of the page never shows other data than the page did. *)
Theorem reload_shows_same_data (uid : string) (acts : list (Env * Action))
    (st : State) :
  (forall env a, In (env, a) acts -> userId env = Some uid) ->
  synced uid st ->
  synced uid (run acts st).
Proof.
  revert st. induction acts as [|[env a] acts IH]; intros st Hu Hs; simpl;
    [exact Hs|].
  apply IH.
  - intros env' a' Hin. apply (Hu env' a'). right. exact Hin.
  - apply step_synced; [|exact Hs]. apply (Hu env a). left. reflexivity.
Qed.

(** A customer saved, then a delivery that the full storage rejects. *)
Lemma reload_shows_same_data_witness :
  synced "user_1"
    (run [(env0, AddCustomer (CustomerForm.mk "A" "Asif" "0300" 30));
          (envFull, AddDelivery (formDel "A" 10))]
       initialState).
Proof.
  apply reload_shows_same_data.
  - intros env a [H|[H|[]]]; injection H as <- _; reflexivity.
  - reflexivity.
Defined.

(** X18. Saving and loading.  After a save that the storage accepts,
    loading the same user returns the data that saveData returned, and
    loading another user returns what it returned before; when the write
    throws, loading any user returns what it returned before. *)
Theorem load_after_save (env : Env) (uid : string) (updates : Partial.t)
    (cur : AppData) (b : Browser) :
  (storageFault env = None ->
   fst (Storage.getData uid (snd (Storage.saveData env uid updates cur b)))
   = fst (Storage.saveData env uid updates cur b)
   /\ forall other, other <> uid ->
        fst (Storage.getData other (snd (Storage.saveData env uid updates cur b)))
        = fst (Storage.getData other b))
  /\ (storageFault env <> None ->
      forall other,
        fst (Storage.getData other (snd (Storage.saveData env uid updates cur b)))
        = fst (Storage.getData other b)).
Proof.
  assert (Hrun :
    Storage.saveData env uid updates cur b
    = match storageFault env with
      | None =>
          (Js.Returned (Storage.merge cur updates (nowIso env)),
           mkBrowser (<[Storage.key uid :=
                          Serialized (Storage.merge cur updates (nowIso env))]>
                        (localStorage b)) (console b))
      | Some e =>
          (Js.Returned cur,
           mkBrowser (localStorage b) (console b ++ [SaveFailed e])%list)
      end).
  { unfold Storage.saveData, try_catch, bind, setItem, console_log, ret,
      JSON_stringify.
    destruct (storageFault env); reflexivity. }
  rewrite Hrun. split.
  - intros Hq. rewrite Hq. simpl. split.
    + rewrite getData_result. simpl. rewrite lookup_insert_eq. reflexivity.
    + intros other Hne. rewrite !getData_result. simpl.
      rewrite lookup_insert_ne; [reflexivity|].
      intros E. apply key_inj in E. congruence.
  - intros Hq other. destruct (storageFault env); [|congruence].
    rewrite !getData_result. reflexivity.
Qed.

(** Saving customer A's ledger under "user_1" and loading it again. *)
Lemma load_after_save_witness :
  fst (Storage.getData "user_1"
         (snd (Storage.saveData env0 "user_1" Partial.none (data stA) (browser stA))))
  = Js.Returned (mkAppData [custA] [delA] [payA] [expRent] "2024-01-01T00:00:00.000Z").
Proof.
  rewrite (proj1 (proj1 (load_after_save env0 "user_1" Partial.none (data stA)
                           (browser stA)) eq_refl)).
  reflexivity.
Defined.

(** X19. Loading never throws.  getData returns the stored data when the
    user's entry parses, and the empty collections when there is no entry
    or the entry is empty or does not parse; it writes nothing, and logs to
    the console only when an entry that is not empty fails to parse. *)
Theorem getData_falls_back_to_empty (uid : string) (b : Browser) :
  exists d,
    Storage.getData uid b
    = (Js.Returned d,
       mkBrowser (localStorage b)
         (match localStorage b !! Storage.key uid with
          | Some (Garbage text) =>
              if Js.truthy text
              then (console b ++ [NoExistingData Js.SyntaxError])%list
              else console b
          | _ => console b
          end))
    /\ d = match localStorage b !! Storage.key uid with
           | Some (Serialized stored) => stored
           | _ => emptyData
           end.
Proof.
  unfold Storage.getData, try_catch, bind, getItem, JSON_parse, throw,
    console_log, ret.
  destruct b as [ls con]. simpl.
  destruct (ls !! Storage.key uid) as [[stored|g]|]; simpl; eauto.
  destruct (Js.truthy g); simpl; eauto.
Qed.

(** ** File names and storage keys *)

Lemma str_app_cons (c : ascii) (a b : string) : String c a +:+ b = String c (a +:+ b).
Proof. reflexivity. Qed.

Lemma str_app_nil (b : string) : "" +:+ b = b.
Proof. reflexivity. Qed.

Lemma str_app_assoc (a b c : string) : (a +:+ b) +:+ c = a +:+ (b +:+ c).
Proof.
  induction a as [|x a IH]; [reflexivity|].
  rewrite !str_app_cons, IH. reflexivity.
Qed.

Lemma str_app_nil_r (s : string) : s +:+ "" = s.
Proof.
  induction s as [|c s IH]; [reflexivity|]. rewrite str_app_cons, IH. reflexivity.
Qed.

Lemma replaceRuns_app sep inRun s1 s2 :
  replaceRuns sep inRun (s1 +:+ s2)
  = replaceRuns sep inRun s1 +:+ replaceRuns sep (endsInRun inRun s1) s2.
Proof.
  revert inRun. induction s1 as [|c s1 IH]; intros inRun; [reflexivity|].
  rewrite str_app_cons. simpl.
  destruct (isSpace c).
  - destruct inRun; rewrite IH; [reflexivity|]. rewrite str_app_assoc. reflexivity.
  - rewrite IH. reflexivity.
Qed.

Lemma replaceRuns_spaces sep inRun ws :
  allSpaces ws = true -> ws <> "" ->
  replaceRuns sep inRun ws = (if inRun then "" else sep)
  /\ endsInRun inRun ws = true.
Proof.
  revert inRun. induction ws as [|c ws IH]; intros inRun Hall Hne;
    [congruence|].
  simpl in *. apply andb_prop in Hall as [Hc Hall]. rewrite Hc.
  destruct ws as [|c' ws'].
  - simpl. destruct inRun; split; try reflexivity. apply str_app_nil_r.
  - destruct (IH true Hall ltac:(discriminate)) as [E1 E2].
    rewrite E1, E2. destruct inRun; split; try reflexivity. apply str_app_nil_r.
Qed.

Lemma noSpace_app a b : noSpace (a +:+ b) = noSpace a && noSpace b.
Proof.
  induction a as [|c a IH]; [reflexivity|].
  rewrite str_app_cons. simpl. rewrite IH, andb_assoc. reflexivity.
Qed.

Lemma replaceRuns_noSpace sep inRun s :
  noSpace sep = true -> noSpace (replaceRuns sep inRun s) = true.
Proof.
  intros Hsep. revert inRun. induction s as [|c s IH]; intros inRun; simpl;
    [reflexivity|].
  destruct (isSpace c) eqn:E.
  - destruct inRun; [apply IH|]. rewrite noSpace_app, Hsep, IH. reflexivity.
  - simpl. rewrite E, IH. reflexivity.
Qed.

Lemma replaceRuns_id sep inRun s :
  noSpace s = true -> replaceRuns sep inRun s = s.
Proof.
  revert inRun. induction s as [|c s IH]; intros inRun; simpl; [reflexivity|].
  intros H. apply andb_prop in H as [Hc Hs].
  destruct (isSpace c); [discriminate|]. rewrite IH by exact Hs. reflexivity.
Qed.

Lemma replaceSpaces_width sep a b ws1 ws2 :
  allSpaces ws1 = true -> ws1 <> "" -> allSpaces ws2 = true -> ws2 <> "" ->
  replaceSpaces sep (a +:+ ws1 +:+ b) = replaceSpaces sep (a +:+ ws2 +:+ b).
Proof.
  intros H1 N1 H2 N2. unfold replaceSpaces.
  rewrite !replaceRuns_app.
  destruct (replaceRuns_spaces sep (endsInRun false a) ws1 H1 N1) as [E1 F1].
  destruct (replaceRuns_spaces sep (endsInRun false a) ws2 H2 N2) as [E2 F2].
  rewrite E1, E2, F1, F2. reflexivity.
Qed.

Lemma beforeT_split date rest :
  (forall a b, date <> a +:+ "T" +:+ b) ->
  beforeT (date +:+ "T" +:+ rest) = date.
Proof.
  induction date as [|c date IH]; intros H; [reflexivity|].
  rewrite str_app_cons. simpl.
  destruct (Ascii.eqb c "T") eqn:E.
  - apply Ascii.eqb_eq in E. subst c. exfalso. apply (H "" date). reflexivity.
  - rewrite IH; [reflexivity|]. intros a b Hab.
    apply (H (String c a) b). rewrite str_app_cons, Hab. reflexivity.
Qed.

(** X20. The name of the export file is the business name with every run
    of white space replaced by one hyphen, then "-backup-", the date part
    of the current ISO time and ".json".  The name part contains no white
    space, is the business name itself when that has none, and does not
    depend on how wide the runs of white space are. *)
Theorem export_file_name (env : Env) (businessName : string) :
  (forall date rest,
     nowIso env = date +:+ "T" +:+ rest ->
     (forall a b, date <> a +:+ "T" +:+ b) ->
     exportFileName env businessName
     = replaceSpaces "-" businessName +:+ "-backup-" +:+ date +:+ ".json")
  /\ noSpace (replaceSpaces "-" businessName) = true
  /\ (noSpace businessName = true -> replaceSpaces "-" businessName = businessName)
  /\ replaceSpaces "-" (replaceSpaces "-" businessName)
     = replaceSpaces "-" businessName
  /\ (forall a b ws1 ws2,
        businessName = a +:+ ws1 +:+ b ->
        allSpaces ws1 = true -> ws1 <> "" -> allSpaces ws2 = true -> ws2 <> "" ->
        replaceSpaces "-" businessName = replaceSpaces "-" (a +:+ ws2 +:+ b)).
Proof.
  assert (Hno : noSpace (replaceSpaces "-" businessName) = true).
  { apply replaceRuns_noSpace. reflexivity. }
  split; [|split; [exact Hno|split; [|split]]].
  - intros date rest Hiso HnoT. unfold exportFileName.
    rewrite Hiso, beforeT_split by exact HnoT. reflexivity.
  - intros H. apply replaceRuns_id. exact H.
  - apply replaceRuns_id. exact Hno.
  - intros a b ws1 ws2 -> H1 N1 H2 N2. apply replaceSpaces_width; assumption.
Qed.

(** "Aab e Hayat" exported on 2024-01-01, whatever the spacing. *)
Lemma export_file_name_witness :
  exportFileName env0 "Aab e Hayat" = "Aab-e-Hayat-backup-2024-01-01.json"
  /\ replaceSpaces "-" "Aab e Hayat" = replaceSpaces "-" ("Aab" +:+ "   " +:+ "e Hayat").
Proof.
  pose proof (export_file_name env0 "Aab e Hayat") as (Hname & _ & _ & _ & Hwidth).
  split.
  - apply (Hname "2024-01-01" "00:00:00.000Z"); [reflexivity|].
    intros a b H.
    assert (Hc : includes "2024-01-01" "T" = true).
    { apply includes_iff. exists a, b. exact H. }
    vm_compute in Hc. discriminate.
  - apply (Hwidth "Aab" "e Hayat" " " "   "); try reflexivity; discriminate.
Defined.

Lemma toLowerCase_app a b :
  Js.toLowerCase (a +:+ b) = Js.toLowerCase a +:+ Js.toLowerCase b.
Proof.
  induction a as [|c a IH]; [reflexivity|].
  rewrite str_app_cons. simpl. rewrite IH. reflexivity.
Qed.

Lemma lower_ascii_space c : isSpace (Js.lower_ascii c) = isSpace c.
Proof.
  destruct c as [[] [] [] [] [] [] [] []]; reflexivity.
Qed.

Lemma toLowerCase_allSpaces s : allSpaces (Js.toLowerCase s) = allSpaces s.
Proof.
  induction s as [|c s IH]; simpl; [reflexivity|].
  rewrite lower_ascii_space, IH. reflexivity.
Qed.

Lemma toLowerCase_nonempty s : s <> "" -> Js.toLowerCase s <> "".
Proof. destruct s; [congruence|discriminate]. Qed.

Lemma allSpaces_trimStart s : allSpaces (trimStart s) = allSpaces s.
Proof.
  induction s as [|c s IH]; simpl; [reflexivity|].
  destruct (isSpace c) eqn:E; simpl; [exact IH|]. rewrite E. reflexivity.
Qed.

Lemma truthy_trimEnd s : Js.truthy (trimEnd s) = negb (allSpaces s).
Proof.
  induction s as [|c s IH]; simpl; [reflexivity|].
  destruct (trimEnd s) as [|c' r] eqn:E.
  - simpl in IH. destruct (allSpaces s); [|discriminate].
    destruct (isSpace c); reflexivity.
  - simpl in IH. destruct (allSpaces s); [discriminate|].
    rewrite andb_false_r. reflexivity.
Qed.

(** X21. Signing in (first variant of the start page).  A business name
    that is empty or all white space is refused.  Otherwise the user is
    stored with the name as typed and the storage key "aab_data_" followed
    by the name in lower case with each run of white space replaced by one
    underscore: the key has no white space after the prefix, and names
    that differ only in letter case, or in the width of a run of white
    space, get the same key. *)
Theorem sign_in_data_key (env : Env) (businessName phone : string) :
  (handleSubmit env businessName phone = None <-> allSpaces businessName = true)
  /\ (forall u, handleSubmit env businessName phone = Some u ->
        User.businessName u = businessName
        /\ User.dataKey u = dataKeyOf businessName)
  /\ (exists slug, dataKeyOf businessName = "aab_data_" +:+ slug
                   /\ noSpace slug = true)
  /\ (forall other, Js.toLowerCase other = Js.toLowerCase businessName ->
                    dataKeyOf other = dataKeyOf businessName)
  /\ (forall a b ws1 ws2,
        businessName = a +:+ ws1 +:+ b ->
        allSpaces ws1 = true -> ws1 <> "" -> allSpaces ws2 = true -> ws2 <> "" ->
        dataKeyOf businessName = dataKeyOf (a +:+ ws2 +:+ b)).
Proof.
  split; [|split; [|split; [|split]]].
  - unfold handleSubmit, trim.
    rewrite truthy_trimEnd, allSpaces_trimStart, negb_involutive.
    destruct (allSpaces businessName); split; congruence.
  - intros u. unfold handleSubmit.
    destruct (negb _); [discriminate|]. intros [= <-]. split; reflexivity.
  - eexists. split; [reflexivity|]. apply replaceRuns_noSpace. reflexivity.
  - intros other H. unfold dataKeyOf. rewrite H. reflexivity.
  - intros a b ws1 ws2 -> H1 N1 H2 N2. unfold dataKeyOf. f_equal.
    rewrite !toLowerCase_app. apply replaceSpaces_width.
    + rewrite toLowerCase_allSpaces. exact H1.
    + apply toLowerCase_nonempty. exact N1.
    + rewrite toLowerCase_allSpaces. exact H2.
    + apply toLowerCase_nonempty. exact N2.
Qed.

(** "Aab e Hayat" and "AAB  E  HAYAT" share a key; a blank name is refused. *)
Lemma sign_in_data_key_witness :
  dataKeyOf "AAB E HAYAT" = dataKeyOf "Aab e Hayat"
  /\ handleSubmit env0 "   " "0300" = None.
Proof.
  pose proof (sign_in_data_key env0 "Aab e Hayat" "0300") as (_ & _ & _ & Hcase & _).
  split; [apply Hcase; reflexivity|].
  apply (proj1 (sign_in_data_key env0 "   " "0300")). reflexivity.
Defined.
(** ** Phone numbers *)

Lemma removeDashes_app a b :
  Validator.removeDashes (a +:+ b)
  = Validator.removeDashes a +:+ Validator.removeDashes b.
Proof.
  induction a as [|c a IH]; [reflexivity|].
  rewrite str_app_cons. simpl. destruct (Ascii.eqb c "-"); [exact IH|].
  rewrite str_app_cons, IH. reflexivity.
Qed.

Lemma allDigits_removeDashes p c :
  Validator.allDigits (Validator.removeDashes p) = true ->
  In c (list_ascii_of_string p) ->
  Validator.isDigit c = true \/ c = "-"%char.
Proof.
  induction p as [|x p IH]; simpl; intros H Hin; [contradiction|].
  destruct (Ascii.eqb x "-") eqn:E.
  - apply Ascii.eqb_eq in E. destruct Hin as [<-|Hin]; [right; exact E|auto].
  - simpl in H. apply andb_prop in H as [Hx Hp].
    destruct Hin as [<-|Hin]; [left; exact Hx|auto].
Qed.

(** X22. isValidPhone accepts exactly the numbers that, hyphens removed,
    are "03" followed by nine digits.  Hyphens count for nothing wherever
    they stand, an accepted number has eleven digits and no character other
    than digits and hyphens, so a number written with "+92" is refused. *)
Theorem valid_phone_numbers (phone : string) :
  (Validator.isValidPhone phone = true
   <-> exists rest,
         Validator.removeDashes phone = "03" +:+ rest
         /\ String.length rest = 9%nat
         /\ Validator.allDigits rest = true)
  /\ (forall a b, phone = a +:+ "-" +:+ b ->
                  Validator.isValidPhone phone = Validator.isValidPhone (a +:+ b))
  /\ (Validator.isValidPhone phone = true ->
      String.length (Validator.removeDashes phone) = 11%nat
      /\ forall c, In c (list_ascii_of_string phone) ->
                   Validator.isDigit c = true \/ c = "-"%char).
Proof.
  assert (Hspec : Validator.isValidPhone phone = true
                  <-> exists rest,
                        Validator.removeDashes phone = "03" +:+ rest
                        /\ String.length rest = 9%nat
                        /\ Validator.allDigits rest = true).
  { unfold Validator.isValidPhone. cbv zeta.
    rewrite !andb_true_iff, prefix_iff, Nat.eqb_eq. split.
    - intros [[[rest E] Hl] Hd]. exists rest. rewrite E in Hl, Hd.
      split; [exact E|]. split.
      + change (S (S (String.length rest)) = 11%nat) in Hl. lia.
      + exact Hd.
    - intros (rest & E & Hl & Hd). rewrite E. repeat split.
      + exists rest. reflexivity.
      + change (S (S (String.length rest)) = 11%nat). lia.
      + exact Hd. }
  split; [exact Hspec|]. split.
  - intros a b ->. unfold Validator.isValidPhone.
    rewrite !removeDashes_app. reflexivity.
  - intros Hv. apply Hspec in Hv as (rest & E & Hl & Hd). split.
    + rewrite E. change (S (S (String.length rest)) = 11%nat). lia.
    + intros c Hc. apply (allDigits_removeDashes phone c); [|exact Hc].
      rewrite E. exact Hd.
Qed.

(** "0300-1234567" is accepted like "03001234567"; "+923001234567" is not. *)
Lemma valid_phone_numbers_witness :
  Validator.isValidPhone "0300-1234567" = Validator.isValidPhone "03001234567"
  /\ String.length (Validator.removeDashes "0300-1234567") = 11%nat
  /\ Validator.isValidPhone "+923001234567" = false.
Proof.
  pose proof (valid_phone_numbers "0300-1234567") as (_ & Hdash & Hlen).
  split; [apply (Hdash "0300" "1234567"); reflexivity|].
  split; [apply Hlen; reflexivity|reflexivity].
Defined.

(** ** Class names *)

Lemma join_app sep l1 l2 :
  l1 <> [] -> l2 <> [] ->
  join sep (l1 ++ l2) = join sep l1 +:+ sep +:+ join sep l2.
Proof.
  induction l1 as [|x l1 IH]; intros H1 H2; [congruence|].
  destruct l1 as [|y l1].
  - simpl. destruct l2; [congruence|reflexivity].
  - change (join sep ((x :: y :: l1) ++ l2))
      with (x +:+ sep +:+ join sep ((y :: l1) ++ l2)).
    rewrite IH by (auto; discriminate).
    change (join sep (x :: y :: l1)) with (x +:+ sep +:+ join sep (y :: l1)).
    rewrite !str_app_assoc. reflexivity.
Qed.

Lemma join_truthy sep l :
  (forall x, In x l -> x <> "") -> l <> [] -> join sep l <> "".
Proof.
  destruct l as [|x [|y l]]; intros Hne Hl; [congruence| |].
  - simpl. apply Hne. left. reflexivity.
  - change (join sep (x :: y :: l)) with (x +:+ sep +:+ join sep (y :: l)).
    pose proof (Hne x (or_introl eq_refl)) as Hx.
    destruct x; [congruence|discriminate].
Qed.

Lemma In_omap_truthy l x : In x (omap keepTruthy l) -> x <> "".
Proof.
  intros Hin. apply list_elem_of_In, list_elem_of_omap in Hin as ([s|] & _ & E);
    simpl in E; [|discriminate].
  destruct (Js.truthy s) eqn:Et; [|discriminate].
  injection E as <-. apply truthy_iff. exact Et.
Qed.

Lemma cn_empty_iff l : cn l = "" <-> omap keepTruthy l = [].
Proof.
  unfold cn. split.
  - intros H. destruct (omap keepTruthy l) as [|x r] eqn:E; [reflexivity|].
    exfalso. apply (join_truthy " " (x :: r)); [|discriminate|exact H].
    intros y Hy. apply (In_omap_truthy l). rewrite E. exact Hy.
  - intros ->. reflexivity.
Qed.

Lemma cn_of_kept l x r :
  omap keepTruthy l = x :: r ->
  cn l = join " " (x :: r) /\ keepTruthy (Some (cn l)) = Some (cn l).
Proof.
  intros E. unfold cn. rewrite E. split; [reflexivity|].
  unfold keepTruthy. destruct (Js.truthy (join " " (x :: r))) eqn:Et; [reflexivity|].
  exfalso. apply truthy_false_iff in Et.
  apply (join_truthy " " (x :: r)); [|discriminate|exact Et].
  intros y Hy. apply (In_omap_truthy l). rewrite E. exact Hy.
Qed.

Lemma cn_pair a b :
  cn [Some a; Some b]
  = join " " (match keepTruthy (Some a) with Some y => [y] | None => [] end
              ++ match keepTruthy (Some b) with Some z => [z] | None => [] end).
Proof.
  unfold cn.
  change (omap keepTruthy [Some a; Some b])
    with (match keepTruthy (Some a) with
          | Some y => y :: match keepTruthy (Some b) with
                           | Some z => [z] | None => [] end
          | None => match keepTruthy (Some b) with
                    | Some z => [z] | None => [] end
          end).
  destruct (keepTruthy (Some a)); reflexivity.
Qed.

(** X23. cn joins the classes that are not undefined, null, false or the
    empty string with single spaces, and nests: the classes of two lists
    put together are the [cn] of their two results.  The result is empty
    exactly when no class is kept. *)
Theorem cn_nests (l1 l2 : list (option string)) :
  cn (l1 ++ l2) = cn [Some (cn l1); Some (cn l2)]
  /\ cn (None :: l1) = cn l1
  /\ cn (Some "" :: l1) = cn l1
  /\ (cn l1 = "" <-> forall c, In c l1 -> c = None \/ c = Some "").
Proof.
  split; [|split; [reflexivity|split; [reflexivity|]]].
  - rewrite cn_pair. unfold cn at 1. rewrite omap_app.
    destruct (omap keepTruthy l1) as [|x1 r1] eqn:E1;
      destruct (omap keepTruthy l2) as [|x2 r2] eqn:E2.
    + rewrite (proj2 (cn_empty_iff l1) E1), (proj2 (cn_empty_iff l2) E2).
      reflexivity.
    + rewrite (proj2 (cn_empty_iff l1) E1).
      destruct (cn_of_kept l2 x2 r2 E2) as [J2 K2]. rewrite K2, J2. reflexivity.
    + rewrite (proj2 (cn_empty_iff l2) E2), app_nil_r.
      destruct (cn_of_kept l1 x1 r1 E1) as [J1 K1]. rewrite K1, J1. reflexivity.
    + destruct (cn_of_kept l1 x1 r1 E1) as [J1 K1].
      destruct (cn_of_kept l2 x2 r2 E2) as [J2 K2].
      rewrite K1, K2, J1, J2. rewrite join_app by discriminate. reflexivity.
  - rewrite cn_empty_iff. split.
    + intros H c Hc. destruct c as [s|]; [|left; reflexivity]. right.
      destruct (Js.truthy s) eqn:Et.
      * exfalso. assert (Hin : In s (omap keepTruthy l1)).
        { apply list_elem_of_In, list_elem_of_omap. exists (Some s).
          split; [apply list_elem_of_In; exact Hc|]. simpl. rewrite Et. reflexivity. }
        rewrite H in Hin. exact Hin.
      * apply truthy_false_iff in Et. subst s. reflexivity.
    + intros H. destruct (omap keepTruthy l1) as [|x r] eqn:E; [reflexivity|].
      exfalso. assert (Hin : In x (omap keepTruthy l1)) by (rewrite E; left; reflexivity).
      apply list_elem_of_In, list_elem_of_omap in Hin as (c & Hc & Ec).
      apply list_elem_of_In in Hc. destruct (H c Hc) as [->| ->]; discriminate.
Qed.

(** Classes of which the kept ones are "px-4" and "font-bold". *)
Lemma cn_nests_witness :
  cn ([Some "px-4"; None] ++ [Some ""; Some "font-bold"]) = "px-4 font-bold"
  /\ cn [None; Some ""] = "".
Proof.
  split.
  - rewrite (proj1 (cn_nests [Some "px-4"; None] [Some ""; Some "font-bold"])).
    reflexivity.
  - apply (proj2 (proj2 (proj2 (cn_nests [None; Some ""] [])))).
    intros c [<-|[<-|[]]]; auto.
Defined.

(** ** The customer accounts and the dashboard of lib/utils.ts *)

(** X24. The account of a customer agrees with the ledger: its
    outstandingAmount is getCustomerOutstanding of the customer's flat
    number.  When flat numbers are unique and every delivery is recorded
    under the flat number of a customer, the pending empties of the
    accounts add up to the pending empties of the dashboard, which is the
    figure getStats of the page shows. *)
Theorem customer_khata_agrees (thisMonth : string -> bool) (today : string)
    (week month : string * string) (d : AppData) :
  (forall c,
     Khata.outstandingAmount (getCustomerKhata c (deliveries d) (payments d))
     = Calculator.getCustomerOutstanding (Customer.flatNumber c)
         (deliveries d) (payments d))
  /\ DashboardStats.pendingEmpties (getDashboardStats thisMonth d)
     = Stats.pendingEmpties (getStats today week month d)
  /\ (flatsDistinct (customers d) ->
      (forall x, In x (deliveries d) ->
                 exists c, In c (customers d)
                           /\ Customer.flatNumber c = Delivery.flatNumber x) ->
      sumZ (map (fun c => Khata.pendingEmpties
                            (getCustomerKhata c (deliveries d) (payments d)))
              (customers d))
      = DashboardStats.pendingEmpties (getDashboardStats thisMonth d)).
Proof.
  split; [intros c; reflexivity|]. split.
  - simpl. rewrite (fold_left_add_sub Delivery.delivered Delivery.collected). lia.
  - intros Hflat Hd. apply flatsDistinct_exact in Hflat. simpl.
    rewrite (sumZ_map_sub
               (fun c => fold_left (fun sum x => sum + Delivery.delivered x)
                           (List.filter
                              (fun x => (Delivery.flatNumber x =? Customer.flatNumber c)%string)
                              (deliveries d)) 0)
               (fun c => fold_left (fun sum x => sum + Delivery.collected x)
                           (List.filter
                              (fun x => (Delivery.flatNumber x =? Customer.flatNumber c)%string)
                              (deliveries d)) 0)).
    assert (Hin : forall x, In x (deliveries d) ->
                    In (Delivery.flatNumber x) (map Customer.flatNumber (customers d))).
    { intros x Hx. destruct (Hd x Hx) as (c & Hc & <-). apply in_map. exact Hc. }
    rewrite (sum_by_customer Customer.flatNumber Delivery.flatNumber Delivery.delivered)
      by assumption.
    rewrite (sum_by_customer Customer.flatNumber Delivery.flatNumber Delivery.collected)
      by assumption.
    reflexivity.
Qed.

(** A has 10 bottles out and B 5: 15 empties are pending in all. *)
Lemma customer_khata_agrees_witness :
  sumZ (map (fun c => Khata.pendingEmpties
                        (getCustomerKhata c (deliveries (data stAB))
                           (payments (data stAB))))
          (customers (data stAB)))
  = 15.
Proof.
  rewrite (proj2 (proj2 (customer_khata_agrees (fun _ => true) "2024-01-05"
                           ("2023-12-31", "2024-01-06") ("2024-01-01", "2024-01-31")
                           (data stAB)))
             flatsDistinct_stAB (proj1 refsOk_stAB)).
  reflexivity.
Defined.

(** X25. The dashboard of lib/utils.ts against the page.  When its month
    test picks, among the deliveries and payments recorded, those of the
    page's month range, its monthly revenue, monthly paid and month
    deliveries are the revenue, the collections and the bottles delivered
    of the page's month statistics, and its outstanding is that revenue
    less those collections: a figure of the month.  It is the all-time
    outstanding of the page when every delivery and payment is of the
    month. *)
Theorem dashboard_counts_the_month (thisMonth : string -> bool) (today : string)
    (week month : string * string) (d : AppData) :
  (forall x, In x (deliveries d) ->
             thisMonth (Delivery.date x)
             = Calculator.inRange (fst month) (snd month) (Delivery.date x)) ->
  (forall p, In p (payments d) ->
             thisMonth (Payment.date p)
             = Calculator.inRange (fst month) (snd month) (Payment.date p)) ->
  DashboardStats.monthlyRevenue (getDashboardStats thisMonth d)
  = RangeStats.revenue (Stats.month (getStats today week month d))
  /\ DashboardStats.monthlyPaid (getDashboardStats thisMonth d)
     = RangeStats.collected (Stats.month (getStats today week month d))
  /\ DashboardStats.monthDeliveries (getDashboardStats thisMonth d)
     = RangeStats.bottlesDelivered (Stats.month (getStats today week month d))
  /\ DashboardStats.outstanding (getDashboardStats thisMonth d)
     = RangeStats.revenue (Stats.month (getStats today week month d))
       - RangeStats.collected (Stats.month (getStats today week month d))
  /\ ((forall x, In x (deliveries d) -> thisMonth (Delivery.date x) = true) ->
      (forall p, In p (payments d) -> thisMonth (Payment.date p) = true) ->
      DashboardStats.outstanding (getDashboardStats thisMonth d)
      = Stats.outstanding (getStats today week month d)).
Proof.
  intros Hd Hp.
  assert (Ed : List.filter (fun x => thisMonth (Delivery.date x)) (deliveries d)
               = List.filter
                   (fun x => Calculator.inRange (fst month) (snd month) (Delivery.date x))
                   (deliveries d)).
  { apply filter_ext_in. exact Hd. }
  assert (Ep : List.filter (fun p => thisMonth (Payment.date p)) (payments d)
               = List.filter
                   (fun p => Calculator.inRange (fst month) (snd month) (Payment.date p))
                   (payments d)).
  { apply filter_ext_in. exact Hp. }
  refine (conj _ (conj _ (conj _ (conj _ _)))).
  - simpl. rewrite Ed. reflexivity.
  - simpl. rewrite Ep. reflexivity.
  - simpl. rewrite Ed. reflexivity.
  - simpl. rewrite Ed, Ep. reflexivity.
  - intros Hall1 Hall2. simpl.
    rewrite (filter_all _ (deliveries d)) by exact Hall1.
    rewrite (filter_all _ (payments d)) by exact Hall2.
    reflexivity.
Qed.

(** The ledger of A and B seen on 20 January 2024 in Karachi: the month
    test picks the records of January, all of them, and the outstanding
    of the dashboard is the 200 of the page. *)
Lemma dashboard_counts_the_month_witness :
  DashboardStats.monthlyRevenue
    (getDashboardStats (monthTest isoDate tzKarachi 1705730400000) (data stAB)) = 450
  /\ DashboardStats.outstanding
       (getDashboardStats (monthTest isoDate tzKarachi 1705730400000) (data stAB))
     = Stats.outstanding
         (getStats "2024-01-20" ("2024-01-14", "2024-01-20")
            ("2024-01-01", "2024-01-31") (data stAB)).
Proof.
  destruct (dashboard_counts_the_month (monthTest isoDate tzKarachi 1705730400000)
              "2024-01-20" ("2024-01-14", "2024-01-20") ("2024-01-01", "2024-01-31")
              (data stAB))
    as (Hrev & _ & _ & _ & Hall).
  - intros x [<-|[<-|[]]]; vm_compute; reflexivity.
  - intros x [<-|[<-|[]]]; vm_compute; reflexivity.
  - split.
    + rewrite Hrev. reflexivity.
    + apply Hall.
      * intros x [<-|[<-|[]]]; vm_compute; reflexivity.
      * intros x [<-|[<-|[]]]; vm_compute; reflexivity.
Defined.

(** ** Time ago *)

(** X26. getTimeAgo reads the time elapsed since the date: "Just now"
    below one minute, and also for a date in the future; the whole minutes
    (1 to 59) below one hour; the whole hours (1 to 23) below one day; from
    one day on, and for a date that does not parse, the formatted date. *)
Theorem time_ago_by_elapsed (Date_parse : string -> option Z)
    (formatDate : string -> string) (now : Z) (dateString : string) :
  (Date_parse dateString = None ->
   getTimeAgo Date_parse formatDate now dateString = formatDate dateString)
  /\ (forall t,
        Date_parse dateString = Some t ->
        (now - t < 60000 ->
         getTimeAgo Date_parse formatDate now dateString = "Just now")
        /\ (60000 <= now - t < 3600000 ->
            getTimeAgo Date_parse formatDate now dateString
            = pretty ((now - t) / 60000) +:+ " minutes ago"
            /\ 1 <= (now - t) / 60000 <= 59)
        /\ (3600000 <= now - t < 86400000 ->
            getTimeAgo Date_parse formatDate now dateString
            = pretty ((now - t) / 3600000) +:+ " hours ago"
            /\ 1 <= (now - t) / 3600000 <= 23)
        /\ (86400000 <= now - t ->
            getTimeAgo Date_parse formatDate now dateString = formatDate dateString)).
Proof.
  split.
  - intros E. unfold getTimeAgo. rewrite E. reflexivity.
  - intros t E. unfold getTimeAgo. rewrite E. cbv zeta.
    set (e := now - t).
    assert (Hm : forall k, 0 < k -> (e / 60000 <? k) = (e <? 60000 * k)).
    { intros k Hk. destruct (e <? 60000 * k) eqn:C.
      - apply Z.ltb_lt. apply Z.ltb_lt in C.
        apply Z.div_lt_upper_bound; lia.
      - apply Z.ltb_ge. apply Z.ltb_ge in C.
        apply Z.div_le_lower_bound; lia. }
    assert (Hh : e / 60000 / 60 = e / 3600000).
    { rewrite Z.div_div by lia. reflexivity. }
    rewrite !Hm by lia. rewrite Hh.
    repeat split.
    + intros H. destruct (e <? 60000 * 1) eqn:C; [reflexivity|]. apply Z.ltb_ge in C. lia.
    + destruct H as [Hlo Hhi].
      destruct (e <? 60000 * 1) eqn:C1; [apply Z.ltb_lt in C1; lia|].
      destruct (e <? 60000 * 60) eqn:C2; [reflexivity|]. apply Z.ltb_ge in C2. lia.
    + apply Z.div_le_lower_bound; lia.
    + assert (e / 60000 < 60) by (apply Z.div_lt_upper_bound; lia). lia.
    + destruct H as [Hlo Hhi].
      destruct (e <? 60000 * 1) eqn:C1; [apply Z.ltb_lt in C1; lia|].
      destruct (e <? 60000 * 60) eqn:C2; [apply Z.ltb_lt in C2; lia|].
      destruct (e <? 60000 * 1440) eqn:C3; [reflexivity|]. apply Z.ltb_ge in C3. lia.
    + apply Z.div_le_lower_bound; lia.
    + assert (e / 3600000 < 24) by (apply Z.div_lt_upper_bound; lia). lia.
    + intros H.
      destruct (e <? 60000 * 1) eqn:C1; [apply Z.ltb_lt in C1; lia|].
      destruct (e <? 60000 * 60) eqn:C2; [apply Z.ltb_lt in C2; lia|].
      destruct (e <? 60000 * 1440) eqn:C3; [apply Z.ltb_lt in C3; lia|]. reflexivity.
Qed.

(** Two hours and a second after midnight of 2024-01-01. *)
Lemma time_ago_by_elapsed_witness :
  getTimeAgo isoDate (fun s => s) 1704074401000 "2024-01-01" = "2 hours ago".
Proof.
  destruct (proj2 (time_ago_by_elapsed isoDate (fun s => s) 1704074401000 "2024-01-01")
              1704067200000 eq_refl) as (_ & _ & Hh & _).
  destruct Hh as [E _]; [lia|]. rewrite E. reflexivity.
Defined.

(** ** The storage of the earlier page *)

(** X27. In the earlier page saveData is not guarded.  It throws, and
    leaves the browser as it was, exactly when the stored entry does not
    parse or the storage rejects the write.  Otherwise the entry becomes
    the stored data (the empty collections when there was none) overwritten
    by the fields of the update, and that is what loading then shows. *)
Theorem legacy_saveData_unguarded (env : Env) (updates : Partial.t) (b : Browser) :
  (forall e,
     fst (Legacy.saveData env updates b) = Js.Thrown e ->
     snd (Legacy.saveData env updates b) = b
     /\ ((exists text, localStorage b !! Legacy.key = Some (Garbage text)
                       /\ text <> "" /\ e = Js.SyntaxError)
         \/ storageFault env = Some e))
  /\ (fst (Legacy.saveData env updates b) = Js.Returned tt ->
      exists stored,
        fst (Legacy.getData b) = Js.Returned stored
        /\ storageFault env = None
        /\ Legacy.saveAndLoad env updates b
           = (Js.Returned (Storage.merge stored updates (nowIso env)),
              mkBrowser
                (<[Legacy.key := Serialized (Storage.merge stored updates (nowIso env))]>
                   (localStorage b))
                (console b)))
  /\ (forall text, localStorage b !! Legacy.key = Some (Garbage text) -> text <> "" ->
        fst (Legacy.saveData env updates b) = Js.Thrown Js.SyntaxError)
  /\ (forall e, storageFault env = Some e ->
        exists e', fst (Legacy.saveData env updates b) = Js.Thrown e').
Proof.
  unfold Legacy.saveAndLoad, Legacy.saveData, Legacy.getData, bind, getItem, setItem,
    JSON_parse, JSON_stringify, throw, ret.
  destruct b as [ls con]. simpl.
  destruct (ls !! Legacy.key) as [[stored|text]|] eqn:E; simpl.
  - destruct (storageFault env) as [e0|] eqn:F; simpl.
    + split; [|split; [discriminate|split; [discriminate|]]].
      * intros e [= <-]. split; [reflexivity|]. right. reflexivity.
      * intros e [= <-]. eauto.
    + split; [discriminate|]. split; [|split; discriminate].
      intros _. exists stored. rewrite lookup_insert_eq. simpl. auto.
  - destruct (Js.truthy text) eqn:T; simpl.
    + split; [|split; [discriminate|split]].
      * intros e [= <-]. split; [reflexivity|]. left. exists text.
        split; [reflexivity|]. split; [apply truthy_iff; exact T|reflexivity].
      * reflexivity.
      * eauto.
    + destruct (storageFault env) as [e0|] eqn:F; simpl.
      * split; [|split; [discriminate|split]].
        -- intros e [= <-]. split; [reflexivity|]. right. reflexivity.
        -- intros t [= <-] Hne. apply truthy_false_iff in T. contradiction.
        -- intros e [= <-]. eauto.
      * split; [discriminate|]. split; [|split].
        -- intros _. exists emptyData. rewrite lookup_insert_eq. simpl. auto.
        -- intros t [= <-] Hne. apply truthy_false_iff in T. contradiction.
        -- discriminate.
  - destruct (storageFault env) as [e0|] eqn:F; simpl.
    + split; [|split; [discriminate|split; [discriminate|]]].
      * intros e [= <-]. split; [reflexivity|]. right. reflexivity.
      * intros e [= <-]. eauto.
    + split; [discriminate|]. split; [|split; discriminate].
      intros _. exists emptyData. rewrite lookup_insert_eq. simpl. auto.
Qed.

(** With the storage full the earlier page's save throws, where the
    later page's returns the data unchanged. *)
Lemma legacy_saveData_unguarded_witness :
  exists e, fst (Legacy.saveData envFull Partial.none (mkBrowser ∅ [])) = Js.Thrown e.
Proof.
  apply (proj2 (proj2 (proj2 (legacy_saveData_unguarded envFull Partial.none
                                (mkBrowser ∅ []))))
           Js.QuotaExceededError).
  reflexivity.
Defined.

(** * The date ranges of the dashboard *)

Section ClockFacts.
Variable tz : Z.
Variables YearFromTime MonthFromTime : Z -> Z.
Variable firstDayOf : Z -> Z -> Z.
Variable isoDay : Z -> string.

Lemma Day_add_days (t k : Z) :
  DateUtils.Day (t + k * Calculator.msPerDay) = DateUtils.Day t + k.
Proof.
  unfold DateUtils.Day, Calculator.msPerDay.
  rewrite Z.div_add by lia. reflexivity.
Qed.

Lemma LocalTime_add_days (t k : Z) :
  DateUtils.LocalTime tz (t + k * Calculator.msPerDay)
  = DateUtils.LocalTime tz t + k * Calculator.msPerDay.
Proof. unfold DateUtils.LocalTime. lia. Qed.

(** Setting the day of the month relative to the current one moves the
    instant by whole days. *)
Lemma setDate_relative (t k : Z) :
  DateUtils.setDate tz YearFromTime MonthFromTime firstDayOf t
    (DateUtils.getDate tz YearFromTime MonthFromTime firstDayOf t + k)
  = t + k * Calculator.msPerDay.
Proof.
  unfold DateUtils.setDate, DateUtils.getDate, DateUtils.DateFromTime,
    DateUtils.MakeDay, DateUtils.MakeDate, DateUtils.UTC, DateUtils.TimeWithinDay,
    DateUtils.Day.
  set (lt := DateUtils.LocalTime tz t).
  set (F := firstDayOf (YearFromTime lt) (MonthFromTime lt)).
  pose proof (Z.div_mod lt Calculator.msPerDay) as Hdm.
  assert (Hlt : lt = t + tz) by reflexivity.
  unfold Calculator.msPerDay in *.
  specialize (Hdm ltac:(lia)). lia.
Qed.

Lemma getDay_range (t : Z) : 0 <= DateUtils.getDay tz t <= 6.
Proof.
  unfold DateUtils.getDay, DateUtils.WeekDay.
  pose proof (Z.mod_pos_bound (DateUtils.Day (DateUtils.LocalTime tz t) + 4) 7).
  lia.
Qed.

(** The day of the month, a given number of days later. *)
Lemma getDate_add_days (t k : Z) :
  DateUtils.getDate tz YearFromTime MonthFromTime firstDayOf
    (t + k * Calculator.msPerDay)
  = DateUtils.getDate tz YearFromTime MonthFromTime firstDayOf t + k
    + (DateUtils.monthStart tz YearFromTime MonthFromTime firstDayOf t
       - DateUtils.monthStart tz YearFromTime MonthFromTime firstDayOf
           (t + k * Calculator.msPerDay)).
Proof.
  unfold DateUtils.getDate, DateUtils.DateFromTime, DateUtils.monthStart.
  rewrite LocalTime_add_days, Day_add_days.
  rewrite <- LocalTime_add_days. lia.
Qed.

(** X28. The week range starts on the day of the instant [now] moved back
    by its local weekday number (0 for Sunday to 6).  Its end is not always
    six days later: the day of the month of the start is set on a copy of
    today, so the end is six days after the start plus the distance between
    the first day of today's month and the first day of the start's month.
    The range covers seven days when the start falls in today's month, and
    runs a month's length longer when the week began in the month before. *)
Theorem week_range_days (now : Z) :
  let w := DateUtils.getDay tz now in
  let start := now + (- w) * Calculator.msPerDay in
  let monthStart := DateUtils.monthStart tz YearFromTime MonthFromTime firstDayOf in
  0 <= w <= 6 /\
  DateUtils.getWeekRange tz YearFromTime MonthFromTime firstDayOf isoDay now
  = (isoDay (DateUtils.Day now - w),
     isoDay (DateUtils.Day now - w + 6 + (monthStart now - monthStart start))).
Proof.
  intros w start monthStart.
  split; [apply getDay_range|].
  unfold DateUtils.getWeekRange, DateUtils.toISODate.
  assert (Hstart : DateUtils.setDate tz YearFromTime MonthFromTime firstDayOf now
                     (DateUtils.getDate tz YearFromTime MonthFromTime firstDayOf now
                      - DateUtils.getDay tz now) = start).
  { replace (DateUtils.getDate tz YearFromTime MonthFromTime firstDayOf now
             - DateUtils.getDay tz now)
      with (DateUtils.getDate tz YearFromTime MonthFromTime firstDayOf now + (- w))
      by (unfold w; lia).
    apply setDate_relative. }
  rewrite Hstart. unfold start at 1. rewrite Day_add_days.
  unfold start at 1. rewrite getDate_add_days. fold start. fold monthStart.
  replace (DateUtils.getDate tz YearFromTime MonthFromTime firstDayOf now + - w
           + (monthStart now - monthStart start) + 6)
    with (DateUtils.getDate tz YearFromTime MonthFromTime firstDayOf now
          + (- w + 6 + (monthStart now - monthStart start))) by lia.
  rewrite setDate_relative, Day_add_days.
  f_equal; f_equal; lia.
Qed.

(** X29. East of Greenwich (local time ahead of UTC by at most a day) the
    month range is one day early at both ends: it runs from the day before
    the first of today's month to two days before the first of the next
    month, because the two local midnights are written out as UTC dates. *)
Theorem month_range_east_of_utc (now : Z) :
  0 < tz <= Calculator.msPerDay ->
  DateUtils.getMonthRange tz YearFromTime MonthFromTime firstDayOf isoDay now
  = (isoDay (DateUtils.monthStart tz YearFromTime MonthFromTime firstDayOf now - 1),
     isoDay (firstDayOf (DateUtils.getFullYear tz YearFromTime now)
               (DateUtils.getMonth tz MonthFromTime now + 1) - 2)).
Proof.
  intros Htz.
  assert (Hmid : forall d,
             DateUtils.Day (DateUtils.UTC tz (DateUtils.MakeDate d 0)) = d - 1).
  { intros d. unfold DateUtils.Day, DateUtils.UTC, DateUtils.MakeDate.
    unfold Calculator.msPerDay in *.
    symmetry. apply (Z.div_unique _ _ _ (86400000 - tz)); lia. }
  unfold DateUtils.getMonthRange, DateUtils.newDate, DateUtils.toISODate,
    DateUtils.monthStart, DateUtils.getFullYear, DateUtils.getMonth.
  rewrite !Hmid. unfold DateUtils.MakeDay. f_equal; f_equal; lia.
Qed.

(** X30. East of Greenwich, in the first hours of the local day (before
    the offset from UTC has passed since local midnight) today's string is
    the date of the day before the local one. *)
Theorem today_string_before_utc_midnight (now : Z) :
  0 < tz <= Calculator.msPerDay ->
  DateUtils.TimeWithinDay (DateUtils.LocalTime tz now) < tz ->
  DateUtils.getTodayString isoDay now
  = isoDay (DateUtils.Day (DateUtils.LocalTime tz now) - 1).
Proof.
  intros Htz Hearly.
  unfold DateUtils.getTodayString, DateUtils.toISODate. f_equal.
  unfold DateUtils.TimeWithinDay, DateUtils.LocalTime, DateUtils.Day in *.
  assert (Hpos : 0 < Calculator.msPerDay) by (unfold Calculator.msPerDay; lia).
  pose proof (Z.div_mod (now + tz) Calculator.msPerDay ltac:(lia)) as Hdm.
  pose proof (Z.mod_pos_bound (now + tz) Calculator.msPerDay Hpos) as Hb.
  symmetry.
  apply (Z.div_unique _ _ _
           ((now + tz) mod Calculator.msPerDay + Calculator.msPerDay - tz)); lia.
Qed.

End ClockFacts.

(** On Wednesday 3 January 2024 at noon in Karachi the week began on
    Sunday 31 December, and the range runs to 6 February. *)
Lemma week_range_days_witness :
  DateUtils.getWeekRange tzKarachi yearOf monthOf firstDayOfMonth isoDayText
    1704265200000
  = ("2023-12-31", "2024-02-06").
Proof.
  pose proof (week_range_days tzKarachi yearOf monthOf firstDayOfMonth isoDayText
                1704265200000) as H.
  cbv zeta in H. rewrite (proj2 H).
  vm_compute. reflexivity.
Defined.

Lemma month_range_east_of_utc_witness :
  0 < tzKarachi <= Calculator.msPerDay /\
  DateUtils.getMonthRange tzKarachi yearOf monthOf firstDayOfMonth isoDayText
    1704265200000
  = ("2023-12-31", "2024-01-30").
Proof.
  assert (H : 0 < tzKarachi <= Calculator.msPerDay)
    by (unfold tzKarachi, Calculator.msPerDay; lia).
  split; [exact H|].
  rewrite (month_range_east_of_utc tzKarachi yearOf monthOf firstDayOfMonth
             isoDayText 1704265200000 H).
  vm_compute. reflexivity.
Defined.

(** At two in the morning of 3 January 2024 in Karachi, today's string is
    2 January. *)
Lemma today_string_before_utc_midnight_witness :
  DateUtils.getTodayString isoDayText 1704229200000 = "2024-01-02".
Proof.
  rewrite (today_string_before_utc_midnight tzKarachi isoDayText 1704229200000).
  - vm_compute. reflexivity.
  - unfold tzKarachi, Calculator.msPerDay; lia.
  - vm_compute. reflexivity.
Defined.
